(** * Charger manager (drivers/power/supply/charger-manager.c)

    A shallow embedding of the decision logic of the charger manager:
    the sensors, the fast-charge handshake, the JEITA controller, the
    guards, the monitor tick, the capacity filter, the capacity tracker
    and the uevent facade.

    Conventions.
    - A C [int] is a [Z]; arithmetic whose operands are not bounded by the
      surrounding tests is wrapped to 32 bits with [wrap32], division is
      the truncating [Z.quot].
    - The driver state is passed explicitly.  [machine] holds the manager
      ([cm]), the descriptor it points to ([desc]), the file-level and
      function-level static variables ([gl]) and the outside world ([hw]).
    - The power-supply bus is an oracle [bus]: the answer to the [n]-th
      request may depend on [n] and on the request, so any behaviour of
      the hardware (including a write that fails the second time) is a
      possible [bus].  Every request is appended to the log of the world.
    - Functions that can call each other without bound in the source
      (try_charger_enable and the fast-charge and JEITA routines it
      reaches) take a fuel argument and return [None] when it runs out. *)

From Stdlib Require Import ZArith List String Bool Lia.
Import ListNotations.
Open Scope string_scope.
Open Scope list_scope.
Open Scope Z_scope.

(** ** Machine integers *)

Definition wrap32 (z : Z) : Z := (z + 2147483648) mod 4294967296 - 2147483648.
Definition wrapu32 (z : Z) : Z := z mod 4294967296.
Definition INT_MAX : Z := 2147483647.
Definition INT_MIN : Z := -2147483648.
Definition in_int (z : Z) : Prop := INT_MIN <= z <= INT_MAX.

Definition add32 (a b : Z) : Z := wrap32 (a + b).
Definition sub32 (a b : Z) : Z := wrap32 (a - b).
Definition mul32 (a b : Z) : Z := wrap32 (a * b).
Definition div32 (a b : Z) : Z := wrap32 (Z.quot a b).

(** Modelled from the spec: DIV_ROUND_CLOSEST comes from linux/kernel.h,
    which is not among the sources; the spec describes it as rounding to
    the nearest integer.  For a signed dividend the kernel macro adds half
    of the divisor when both have the same sign and subtracts it
    otherwise, then divides with truncation. *)
Definition DIV_ROUND_CLOSEST (x d : Z) : Z :=
  if Bool.eqb (0 <? x) (0 <? d)
  then Z.quot (add32 x (Z.quot d 2)) d
  else Z.quot (sub32 x (Z.quot d 2)) d.

(** Modelled from the spec: [abs] comes from linux/kernel.h, which is not
    among the sources; applied to a 32-bit value it reinterprets it as a
    signed int and negates it when negative. *)
Definition abs32 (x : Z) : Z :=
  let s := wrap32 x in if s <? 0 then wrap32 (- s) else s.

(** ** Errno values (uapi/asm-generic/errno-base.h) *)

Definition EAGAIN : Z := 11.
Definition ENODEV : Z := 19.
Definition EINVAL : Z := 22.

(** ** Constants of charger-manager.c *)

Definition CM_DEFAULT_RECHARGE_TEMP_DIFF : Z := 50.
Definition CM_DEFAULT_CHARGE_TEMP_MAX : Z := 500.
Definition CM_UVLO_OFFSET : Z := 50000.
Definition CM_FORCE_SET_FUEL_CAP_FULL : Z := 1000.
Definition CM_LOW_TEMP_REGION : Z := 100.
Definition CM_UVLO_CALIBRATION_VOLTAGE_THRESHOLD : Z := 3250000.
Definition CM_UVLO_CALIBRATION_CNT_THRESHOLD : Z := 5.
Definition CM_LOW_TEMP_SHUTDOWN_VALTAGE : Z := 3200000.
Definition CM_TRACK_CAPACITY_SHUTDOWN_START_VOLTAGE : Z := 3500000.
Definition CM_TRACK_CAPACITY_START_VOLTAGE : Z := 3650000.
Definition CM_TRACK_CAPACITY_START_CURRENT : Z := 30000.
Definition CM_TRACK_CAPACITY_KEY0 : Z := 0x20160726.
Definition CM_TRACK_CAPACITY_KEY1 : Z := 0x15211517.
Definition CM_TRACK_CAPACITY_VOLTAGE_OFFSET : Z := 5000.
Definition CM_TRACK_CAPACITY_CURRENT_OFFSET : Z := 5000.
Definition CM_TRACK_HIGH_TEMP_THRESHOLD : Z := 450.
Definition CM_TRACK_LOW_TEMP_THRESHOLD : Z := 150.
Definition CM_TRACK_TIMEOUT_THRESHOLD : Z := 108000.
Definition CM_TRACK_START_CAP_THRESHOLD : Z := 200.
Definition CM_CAP_ONE_PERCENT : Z := 10.
Definition CM_HCAP_DECREASE_STEP : Z := 8.
Definition CM_HCAP_THRESHOLD : Z := 955.
Definition CM_CAP_FULL_PERCENT : Z := 1000.
Definition CM_CAP_MAGIC_NUM : Z := 0x5A5AA5A5.

Definition CM_FAST_CHARGE_ENABLE_BATTERY_VOLTAGE : Z := 3400000.
Definition CM_FAST_CHARGE_ENABLE_CURRENT : Z := 1200000.
Definition CM_FAST_CHARGE_DISABLE_BATTERY_VOLTAGE : Z := 3400000.
Definition CM_FAST_CHARGE_DISABLE_CURRENT : Z := 1000000.
Definition CM_FAST_CHARGE_VOLTAGE_9V : Z := 9000000.
Definition CM_FAST_CHARGE_VOLTAGE_5V : Z := 5000000.
Definition CM_FAST_CHARGE_ENABLE_COUNT : Z := 2.
Definition CM_FAST_CHARGE_DISABLE_COUNT : Z := 2.

Definition UEVENT_BUF_SIZE : nat := 32.

(** ** Declarations of linux/power/charger-manager.h and
       linux/power_supply.h *)

(** Modelled from the spec: the event kinds are declared in
    linux/power/charger-manager.h, which is not among the sources; the
    spec lists them and default_event_names gives their order.
    [CM_EVENT_UNKNOWN] is the value 0. *)
Inductive cm_event_types : Type :=
| CM_EVENT_UNKNOWN
| CM_EVENT_BATT_FULL
| CM_EVENT_BATT_IN
| CM_EVENT_BATT_OUT
| CM_EVENT_BATT_OVERHEAT
| CM_EVENT_BATT_COLD
| CM_EVENT_EXT_PWR_IN_OUT
| CM_EVENT_CHG_START_STOP
| CM_EVENT_OTHERS
| CM_EVENT_FAST_CHARGE.

Definition is_event (e : cm_event_types) : bool :=
  match e with CM_EVENT_UNKNOWN => false | _ => true end.

Definition default_event_names (e : cm_event_types) : string :=
  match e with
  | CM_EVENT_UNKNOWN => "Unknown"
  | CM_EVENT_BATT_FULL => "Battery Full"
  | CM_EVENT_BATT_IN => "Battery Inserted"
  | CM_EVENT_BATT_OUT => "Battery Pulled Out"
  | CM_EVENT_BATT_OVERHEAT => "Battery Overheat"
  | CM_EVENT_BATT_COLD => "Battery Cold"
  | CM_EVENT_EXT_PWR_IN_OUT => "External Power Attach/Detach"
  | CM_EVENT_CHG_START_STOP => "Charging Start/Stop"
  | CM_EVENT_OTHERS => "Other battery events"
  | CM_EVENT_FAST_CHARGE => EmptyString
  end.

(** Modelled from the spec: the bits of [charging_status] are declared in
    linux/power/charger-manager.h, which is not among the sources; the
    spec names five distinct flags of a bit set. *)
Definition CM_CHARGE_TEMP_OVERHEAT : Z := 1.
Definition CM_CHARGE_TEMP_COLD : Z := 2.
Definition CM_CHARGE_VOLTAGE_ABNORMAL : Z := 4.
Definition CM_CHARGE_HEALTH_ABNORMAL : Z := 8.
Definition CM_CHARGE_DURATION_ABNORMAL : Z := 16.

(** Modelled from the spec: the status command codes are declared in
    linux/power/charger-manager.h, which is not among the sources; the
    spec names FAST_ENABLE and FAST_DISABLE as the two codes written to
    the STATUS property. *)
Definition CM_FAST_CHARGE_NORMAL_CMD : Z := 1.
Definition CM_FAST_CHARGE_ENABLE_CMD : Z := 2.
Definition CM_FAST_CHARGE_DISABLE_CMD : Z := 3.

Inductive cm_battery_present : Type :=
| CM_BATTERY_PRESENT | CM_NO_BATTERY | CM_FUEL_GAUGE | CM_CHARGER_STAT.

Inductive cm_jeita_types : Type :=
| CM_JEITA_DCP | CM_JEITA_SDP | CM_JEITA_CDP | CM_JEITA_UNKNOWN | CM_JEITA_FCHG.

Inductive cm_cap_track_state : Type :=
| CAP_TRACK_INIT | CAP_TRACK_IDLE | CAP_TRACK_UPDATING | CAP_TRACK_DONE
| CAP_TRACK_ERR.

Definition STATUS_BELOW_T0 : Z := 0.
Definition STATUS_T0_TO_T1 : Z := 1.
Definition STATUS_T1_TO_T2 : Z := 2.
Definition STATUS_T2_TO_T3 : Z := 3.
Definition STATUS_ABOVE_T3 : Z := 4.

(** Values of linux/power_supply.h. *)
Definition POWER_SUPPLY_STATUS_UNKNOWN : Z := 0.
Definition POWER_SUPPLY_STATUS_CHARGING : Z := 1.
Definition POWER_SUPPLY_STATUS_DISCHARGING : Z := 2.
Definition POWER_SUPPLY_STATUS_NOT_CHARGING : Z := 3.
Definition POWER_SUPPLY_STATUS_FULL : Z := 4.
Definition POWER_SUPPLY_HEALTH_UNKNOWN : Z := 0.
Definition POWER_SUPPLY_HEALTH_GOOD : Z := 1.

Inductive power_supply_property : Type :=
| POWER_SUPPLY_PROP_STATUS
| POWER_SUPPLY_PROP_HEALTH
| POWER_SUPPLY_PROP_PRESENT
| POWER_SUPPLY_PROP_ONLINE
| POWER_SUPPLY_PROP_VOLTAGE_MAX
| POWER_SUPPLY_PROP_VOLTAGE_NOW
| POWER_SUPPLY_PROP_VOLTAGE_AVG
| POWER_SUPPLY_PROP_VOLTAGE_OCV
| POWER_SUPPLY_PROP_VOLTAGE_BOOT
| POWER_SUPPLY_PROP_CURRENT_NOW
| POWER_SUPPLY_PROP_CURRENT_AVG
| POWER_SUPPLY_PROP_CONSTANT_CHARGE_CURRENT
| POWER_SUPPLY_PROP_CONSTANT_CHARGE_VOLTAGE
| POWER_SUPPLY_PROP_CONSTANT_CHARGE_VOLTAGE_MAX
| POWER_SUPPLY_PROP_INPUT_CURRENT_LIMIT
| POWER_SUPPLY_PROP_INPUT_CURRENT_NOW
| POWER_SUPPLY_PROP_ENERGY_FULL_DESIGN
| POWER_SUPPLY_PROP_ENERGY_NOW
| POWER_SUPPLY_PROP_CHARGE_FULL
| POWER_SUPPLY_PROP_CAPACITY
| POWER_SUPPLY_PROP_CAPACITY_LEVEL
| POWER_SUPPLY_PROP_TEMP
| POWER_SUPPLY_PROP_CHARGE_ENABLED
| POWER_SUPPLY_PROP_CALIBRATE
| POWER_SUPPLY_PROP_FEED_WATCHDOG.

(** ** Data model *)

(** One row of a JEITA table (struct charger_jeita_table). *)
Record charger_jeita_table : Type := {
  temp : Z;
  recovery_temp : Z;
  current_ua : Z;
  term_volt : Z
}.

Definition jeita_row_zero : charger_jeita_table :=
  {| temp := 0; recovery_temp := 0; current_ua := 0; term_volt := 0 |}.

(** struct charger_desc, the fields the modelled code reads or writes.
    [psy_charger_stat] and [psy_fast_charger_stat] are the NULL-terminated
    name arrays ([nil] when the first entry is NULL); [jeita_tab] is the
    table the pointer of that name designates; [externally_control] lists
    charger_regulators[i].externally_control. *)
Record charger_desc : Type := {
  psy_charger_stat : list string;
  psy_fast_charger_stat : list string;
  psy_fuel_gauge : string;
  battery_present : cm_battery_present;
  fullbatt_vchkdrop_ms : Z;
  fullbatt_vchkdrop_uV : Z;
  fullbatt_uV : Z;
  fullbatt_uA : Z;
  first_fullbatt_uA : Z;
  fullbatt_soc : Z;
  fullbatt_full_capacity : Z;
  shutdown_voltage : Z;
  trickle_time_out : Z;
  cap_one_time : Z;
  wdt_interval : Z;
  temp_min : Z;
  temp_max : Z;
  temp_diff : Z;
  measure_battery_temp : bool;
  charging_max_duration_ms : Z;
  discharging_max_duration_ms : Z;
  normal_charge_voltage_max : Z;
  normal_charge_voltage_drop : Z;
  fast_charge_voltage_max : Z;
  fast_charge_voltage_drop : Z;
  jeita_tab_size : Z;
  jeita_tab_array : cm_jeita_types -> list charger_jeita_table;
  externally_control : list bool;
  cap_table : list (Z * Z);
  charge_voltage_max : Z;
  charge_voltage_drop : Z;
  jeita_tab : list charger_jeita_table;
  jeita_disabled : bool;
  temperature : Z;
  thm_adjust_cur : Z;
  charger_type : Z;
  cap : Z;
  trickle_time : Z;
  trickle_start_time : Z;
  update_capacity_time : Z;
  last_query_time : Z;
  charger_status : Z;
  force_set_full : bool;
  first_trigger_cnt : Z;
  trigger_cnt : Z;
  low_temp_trigger_cnt : Z;
  uvlo_trigger_cnt : Z;
  is_fast_charge : bool;
  enable_fast_charge : bool;
  fast_charge_enable_count : Z;
  fast_charge_disable_count : Z
}.

(** struct cm_track_capacity (cm->track). *)
Record cm_track_capacity : Type := {
  cap_tracking : bool;
  state : cm_cap_track_state;
  start_cap : Z;
  start_clbcnt : Z;
  start_time : Z;
  end_vol : Z;
  end_cur : Z
}.

(** struct charger_manager without the descriptor it points to. *)
Record charger_manager : Type := {
  emergency_stop : cm_event_types;
  charger_enabled : bool;
  charging_status : Z;
  charging_start_time : Z;
  charging_end_time : Z;
  fullbatt_vchk_jiffies_at : Z;
  tzd_batt : bool;
  track : cm_track_capacity
}.

(** The static variables of the file and of its functions. *)
Record statics : Type := {
  cm_suspended : bool;
  cm_timer_set : bool;
  cm_suspend_duration_ms : Z;
  allow_charger_enable : bool;
  is_charger_mode : bool;
  env_str : string;            (* uevent_notify *)
  env_str_save : string;       (* uevent_notify *)
  jeita_status : Z;            (* cm_manager_get_jeita_status *)
  last_jeita_status : Z;       (* cm_manager_jeita_current_monitor *)
  temp_up_trigger : Z;
  temp_down_trigger : Z;
  is_normal : bool;
  last_fuel_cap : Z;           (* cm_batt_works *)
  retry_cnt : Z                (* cm_track_capacity_work *)
}.

(** Requests to the outside: the power-supply bus, the thermal zone, the
    alarm timer and the tracker file. *)
Inductive request : Type :=
| ReqLookup (name : string)
| ReqGet (name : string) (psp : power_supply_property)
| ReqSet (name : string) (psp : power_supply_property) (val : Z)
| ReqThermal
| ReqAlarmRemaining
| ReqOpen
| ReqRead
| ReqWrite (w0 w1 : Z).

(** The answer to a request: whether the named supply (or the file)
    exists, the return code, and up to two values. *)
Record response : Type := {
  r_found : bool;
  r_ret : Z;
  r_val : Z;
  r_val2 : Z
}.

(** What the driver does to the outside. *)
Inductive event : Type :=
| EvBus (rq : request)
| EvUevent (msg : string)           (* kobject_uevent, with env_str *)
| EvChanged                         (* power_supply_changed(cm->charger_psy) *)
| EvPoweroff                        (* orderly_poweroff *)
| EvWork (work : string) (delay_ms : Z)
| EvAlarmCancel.

Record world : Type := {
  calls : nat;
  log : list event;
  ktime_ms : Z;        (* ktime_to_ms(ktime_get()) *)
  boottime_s : Z;      (* ktime_get_boottime() in seconds *)
  jiffies : Z
}.

Record machine : Type := {
  cm : charger_manager;
  desc : charger_desc;
  gl : statics;
  hw : world
}.

(** *** Field updates

    [setter eta p] builds the function that replaces field [p] in the
    eta-expansion [eta] of a record. *)
Ltac setter eta p :=
  let v := fresh "v" in
  let r := fresh "r" in
  intros v r;
  let t := eval cbv beta delta [eta] in (eta r) in
  match eval pattern (p r) in t with
  | ?f _ => exact (f v)
  end.

Definition eta_desc (d : charger_desc) : charger_desc :=
  Build_charger_desc
    (psy_charger_stat d) (psy_fast_charger_stat d) (psy_fuel_gauge d)
    (battery_present d) (fullbatt_vchkdrop_ms d) (fullbatt_vchkdrop_uV d)
    (fullbatt_uV d) (fullbatt_uA d) (first_fullbatt_uA d) (fullbatt_soc d)
    (fullbatt_full_capacity d) (shutdown_voltage d) (trickle_time_out d)
    (cap_one_time d) (wdt_interval d) (temp_min d) (temp_max d) (temp_diff d)
    (measure_battery_temp d) (charging_max_duration_ms d)
    (discharging_max_duration_ms d) (normal_charge_voltage_max d)
    (normal_charge_voltage_drop d) (fast_charge_voltage_max d)
    (fast_charge_voltage_drop d) (jeita_tab_size d) (jeita_tab_array d)
    (externally_control d) (cap_table d) (charge_voltage_max d)
    (charge_voltage_drop d) (jeita_tab d) (jeita_disabled d) (temperature d)
    (thm_adjust_cur d) (charger_type d) (cap d) (trickle_time d)
    (trickle_start_time d) (update_capacity_time d) (last_query_time d)
    (charger_status d) (force_set_full d) (first_trigger_cnt d)
    (trigger_cnt d) (low_temp_trigger_cnt d) (uvlo_trigger_cnt d)
    (is_fast_charge d) (enable_fast_charge d) (fast_charge_enable_count d)
    (fast_charge_disable_count d).

Definition set_charge_voltage_max : Z -> charger_desc -> charger_desc :=
  ltac:(setter eta_desc charge_voltage_max).
Definition set_charge_voltage_drop : Z -> charger_desc -> charger_desc :=
  ltac:(setter eta_desc charge_voltage_drop).
Definition set_jeita_tab
  : list charger_jeita_table -> charger_desc -> charger_desc :=
  ltac:(setter eta_desc jeita_tab).
Definition set_temperature : Z -> charger_desc -> charger_desc :=
  ltac:(setter eta_desc temperature).
Definition set_thm_adjust_cur : Z -> charger_desc -> charger_desc :=
  ltac:(setter eta_desc thm_adjust_cur).
Definition set_cap : Z -> charger_desc -> charger_desc :=
  ltac:(setter eta_desc cap).
Definition set_trickle_time : Z -> charger_desc -> charger_desc :=
  ltac:(setter eta_desc trickle_time).
Definition set_trickle_start_time : Z -> charger_desc -> charger_desc :=
  ltac:(setter eta_desc trickle_start_time).
Definition set_update_capacity_time : Z -> charger_desc -> charger_desc :=
  ltac:(setter eta_desc update_capacity_time).
Definition set_last_query_time : Z -> charger_desc -> charger_desc :=
  ltac:(setter eta_desc last_query_time).
Definition set_charger_status : Z -> charger_desc -> charger_desc :=
  ltac:(setter eta_desc charger_status).
Definition set_force_set_full : bool -> charger_desc -> charger_desc :=
  ltac:(setter eta_desc force_set_full).
Definition set_first_trigger_cnt : Z -> charger_desc -> charger_desc :=
  ltac:(setter eta_desc first_trigger_cnt).
Definition set_trigger_cnt : Z -> charger_desc -> charger_desc :=
  ltac:(setter eta_desc trigger_cnt).
Definition set_low_temp_trigger_cnt : Z -> charger_desc -> charger_desc :=
  ltac:(setter eta_desc low_temp_trigger_cnt).
Definition set_uvlo_trigger_cnt : Z -> charger_desc -> charger_desc :=
  ltac:(setter eta_desc uvlo_trigger_cnt).
Definition set_enable_fast_charge : bool -> charger_desc -> charger_desc :=
  ltac:(setter eta_desc enable_fast_charge).
Definition set_fast_charge_enable_count : Z -> charger_desc -> charger_desc :=
  ltac:(setter eta_desc fast_charge_enable_count).
Definition set_fast_charge_disable_count : Z -> charger_desc -> charger_desc :=
  ltac:(setter eta_desc fast_charge_disable_count).

Definition eta_track (t : cm_track_capacity) : cm_track_capacity :=
  Build_cm_track_capacity (cap_tracking t) (state t) (start_cap t)
    (start_clbcnt t) (start_time t) (end_vol t) (end_cur t).

Definition set_state : cm_cap_track_state -> cm_track_capacity -> cm_track_capacity :=
  ltac:(setter eta_track state).
Definition set_start_cap : Z -> cm_track_capacity -> cm_track_capacity :=
  ltac:(setter eta_track start_cap).
Definition set_start_clbcnt : Z -> cm_track_capacity -> cm_track_capacity :=
  ltac:(setter eta_track start_clbcnt).
Definition set_start_time : Z -> cm_track_capacity -> cm_track_capacity :=
  ltac:(setter eta_track start_time).

Definition eta_cm (c : charger_manager) : charger_manager :=
  Build_charger_manager (emergency_stop c) (charger_enabled c)
    (charging_status c) (charging_start_time c) (charging_end_time c)
    (fullbatt_vchk_jiffies_at c) (tzd_batt c) (track c).

Definition set_emergency_stop : cm_event_types -> charger_manager -> charger_manager :=
  ltac:(setter eta_cm emergency_stop).
Definition set_charger_enabled : bool -> charger_manager -> charger_manager :=
  ltac:(setter eta_cm charger_enabled).
Definition set_charging_status : Z -> charger_manager -> charger_manager :=
  ltac:(setter eta_cm charging_status).
Definition set_charging_start_time : Z -> charger_manager -> charger_manager :=
  ltac:(setter eta_cm charging_start_time).
Definition set_charging_end_time : Z -> charger_manager -> charger_manager :=
  ltac:(setter eta_cm charging_end_time).
Definition set_fullbatt_vchk_jiffies_at : Z -> charger_manager -> charger_manager :=
  ltac:(setter eta_cm fullbatt_vchk_jiffies_at).
Definition set_track : cm_track_capacity -> charger_manager -> charger_manager :=
  ltac:(setter eta_cm track).

Definition eta_statics (g : statics) : statics :=
  Build_statics (cm_suspended g) (cm_timer_set g) (cm_suspend_duration_ms g)
    (allow_charger_enable g) (is_charger_mode g) (env_str g) (env_str_save g)
    (jeita_status g) (last_jeita_status g) (temp_up_trigger g)
    (temp_down_trigger g) (is_normal g) (last_fuel_cap g) (retry_cnt g).

Definition set_cm_suspended : bool -> statics -> statics :=
  ltac:(setter eta_statics cm_suspended).
Definition set_cm_timer_set : bool -> statics -> statics :=
  ltac:(setter eta_statics cm_timer_set).
Definition set_cm_suspend_duration_ms : Z -> statics -> statics :=
  ltac:(setter eta_statics cm_suspend_duration_ms).
Definition set_env_str : string -> statics -> statics :=
  ltac:(setter eta_statics env_str).
Definition set_env_str_save : string -> statics -> statics :=
  ltac:(setter eta_statics env_str_save).
Definition set_jeita_status : Z -> statics -> statics :=
  ltac:(setter eta_statics jeita_status).
Definition set_last_jeita_status : Z -> statics -> statics :=
  ltac:(setter eta_statics last_jeita_status).
Definition set_temp_up_trigger : Z -> statics -> statics :=
  ltac:(setter eta_statics temp_up_trigger).
Definition set_temp_down_trigger : Z -> statics -> statics :=
  ltac:(setter eta_statics temp_down_trigger).
Definition set_is_normal : bool -> statics -> statics :=
  ltac:(setter eta_statics is_normal).
Definition set_last_fuel_cap : Z -> statics -> statics :=
  ltac:(setter eta_statics last_fuel_cap).
Definition set_retry_cnt : Z -> statics -> statics :=
  ltac:(setter eta_statics retry_cnt).

Definition on_cm (f : charger_manager -> charger_manager) (st : machine) : machine :=
  {| cm := f (cm st); desc := desc st; gl := gl st; hw := hw st |}.
Definition on_desc (f : charger_desc -> charger_desc) (st : machine) : machine :=
  {| cm := cm st; desc := f (desc st); gl := gl st; hw := hw st |}.
Definition on_gl (f : statics -> statics) (st : machine) : machine :=
  {| cm := cm st; desc := desc st; gl := f (gl st); hw := hw st |}.
Definition on_hw (f : world -> world) (st : machine) : machine :=
  {| cm := cm st; desc := desc st; gl := gl st; hw := f (hw st) |}.
Definition on_track (f : cm_track_capacity -> cm_track_capacity) (st : machine)
  : machine :=
  on_cm (fun c => set_track (f (track c)) c) st.

(** Appending to the log of the world. *)
Definition emit (e : event) (st : machine) : machine :=
  on_hw (fun w => {| calls := calls w; log := log w ++ [e];
                     ktime_ms := ktime_ms w; boottime_s := boottime_s w;
                     jiffies := jiffies w |}) st.

Definition neqz (z : Z) : bool := negb (z =? 0).

(** Option bind for the functions that take fuel. *)
Notation "'let?' p := e 'in' k" :=
  (match e with Some p => k | None => None end)
  (at level 10, p pattern, e at level 200, k at level 200, only parsing).

Section Driver.

(** The answers of the outside world. *)
Variable bus : nat -> request -> response.

(** Modelled from the spec: power_supply_ocv2cap_simple belongs to the
    power-supply core, which is not among the sources; the spec says the
    starting OCV is mapped through a lookup table to a capacity. *)
Variable power_supply_ocv2cap_simple : list (Z * Z) -> Z -> Z.

(** *** The outside world *)

Definition ask (rq : request) (st : machine) : response * machine :=
  (bus (calls (hw st)) rq,
   on_hw (fun w => {| calls := S (calls w); log := log w ++ [EvBus rq];
                      ktime_ms := ktime_ms w; boottime_s := boottime_s w;
                      jiffies := jiffies w |}) st).

Definition power_supply_get_by_name (name : string) (st : machine)
  : bool * machine :=
  let '(r, st) := ask (ReqLookup name) st in (r_found r, st).

Definition power_supply_get_property (name : string)
  (psp : power_supply_property) (st : machine) : Z * Z * machine :=
  let '(r, st) := ask (ReqGet name psp) st in
  (wrap32 (r_ret r), wrap32 (r_val r), st).

Definition power_supply_set_property (name : string)
  (psp : power_supply_property) (val : Z) (st : machine) : Z * machine :=
  let '(r, st) := ask (ReqSet name psp val) st in (wrap32 (r_ret r), st).

(** *** Sensors *)

(** The body shared by get_batt_uA, get_batt_uV, get_batt_ocv and the
    other readers of one fuel-gauge property: look the gauge up, read,
    return the error code and the value. *)
Definition fuel_gauge_get (psp : power_supply_property) (st : machine)
  : Z * Z * machine :=
  let '(found, st) := power_supply_get_by_name (psy_fuel_gauge (desc st)) st in
  if negb found then (- ENODEV, 0, st) else
  let '(ret, v, st) := power_supply_get_property (psy_fuel_gauge (desc st)) psp st in
  if neqz ret then (ret, 0, st) else (0, v, st).

Definition get_batt_uA := fuel_gauge_get POWER_SUPPLY_PROP_CURRENT_AVG.
Definition get_batt_cur_now := fuel_gauge_get POWER_SUPPLY_PROP_CURRENT_NOW.
Definition get_batt_uV := fuel_gauge_get POWER_SUPPLY_PROP_VOLTAGE_AVG.
Definition get_batt_ocv := fuel_gauge_get POWER_SUPPLY_PROP_VOLTAGE_OCV.
Definition get_batt_vol_now := fuel_gauge_get POWER_SUPPLY_PROP_VOLTAGE_NOW.
Definition get_batt_boot_vol := fuel_gauge_get POWER_SUPPLY_PROP_VOLTAGE_BOOT.
Definition get_batt_cap := fuel_gauge_get POWER_SUPPLY_PROP_CAPACITY.
Definition get_charge_voltage :=
  fuel_gauge_get POWER_SUPPLY_PROP_CONSTANT_CHARGE_VOLTAGE.
Definition get_batt_total_cap :=
  fuel_gauge_get POWER_SUPPLY_PROP_ENERGY_FULL_DESIGN.
Definition get_batt_energy_now := fuel_gauge_get POWER_SUPPLY_PROP_ENERGY_NOW.
Definition get_boot_cap := fuel_gauge_get POWER_SUPPLY_PROP_CAPACITY_LEVEL.
Definition cm_get_battery_temperature_by_psy :=
  fuel_gauge_get POWER_SUPPLY_PROP_TEMP.

(** The body shared by set_batt_total_cap, set_batt_cap and
    adjust_fuel_cap. *)
Definition fuel_gauge_set (psp : power_supply_property) (val : Z)
  (st : machine) : Z * machine :=
  let '(found, st) := power_supply_get_by_name (psy_fuel_gauge (desc st)) st in
  if negb found then (- ENODEV, st) else
  power_supply_set_property (psy_fuel_gauge (desc st)) psp val st.

Definition set_batt_total_cap (total_cap : Z) :=
  fuel_gauge_set POWER_SUPPLY_PROP_ENERGY_FULL_DESIGN (mul32 total_cap 1000).
Definition set_batt_cap (cap : Z) :=
  fuel_gauge_set POWER_SUPPLY_PROP_CAPACITY cap.
Definition adjust_fuel_cap (cap : Z) :=
  fuel_gauge_set POWER_SUPPLY_PROP_CALIBRATE cap.

(** The loop of is_batt_present (CM_CHARGER_STAT) and of
    is_ext_pwr_online: the first charger that answers with a non-zero
    value decides. *)
Fixpoint charger_stat_any (psp : power_supply_property)
  (names : list string) (st : machine) : bool * machine :=
  match names with
  | [] => (false, st)
  | n :: rest =>
    let '(found, st) := power_supply_get_by_name n st in
    if negb found then charger_stat_any psp rest st else
    let '(ret, v, st) := power_supply_get_property n psp st in
    if (ret =? 0) && neqz v then (true, st)
    else charger_stat_any psp rest st
  end.

Definition is_batt_present (st : machine) : bool * machine :=
  match battery_present (desc st) with
  | CM_BATTERY_PRESENT => (true, st)
  | CM_NO_BATTERY => (false, st)
  | CM_FUEL_GAUGE =>
    let '(found, st) := power_supply_get_by_name (psy_fuel_gauge (desc st)) st in
    if negb found then (false, st) else
    let '(ret, v, st) :=
      power_supply_get_property (psy_fuel_gauge (desc st))
        POWER_SUPPLY_PROP_PRESENT st in
    ((ret =? 0) && neqz v, st)
  | CM_CHARGER_STAT =>
    charger_stat_any POWER_SUPPLY_PROP_PRESENT (psy_charger_stat (desc st)) st
  end.

Definition is_ext_pwr_online (st : machine) : bool * machine :=
  charger_stat_any POWER_SUPPLY_PROP_ONLINE (psy_charger_stat (desc st)) st.

(** The loop of get_charger_current, get_charger_limit_current,
    get_charger_input_current and get_charger_type: the first charger
    that answers without error gives the value; [ret] is the last
    return code. *)
Fixpoint charger_stat_first (psp : power_supply_property)
  (names : list string) (ret : Z) (st : machine) : Z * Z * machine :=
  match names with
  | [] => (ret, 0, st)
  | n :: rest =>
    let '(found, st) := power_supply_get_by_name n st in
    if negb found then charger_stat_first psp rest ret st else
    let '(ret, v, st) := power_supply_get_property n psp st in
    if ret =? 0 then (0, v, st) else charger_stat_first psp rest ret st
  end.

Definition get_charger_current (st : machine) :=
  charger_stat_first POWER_SUPPLY_PROP_CONSTANT_CHARGE_CURRENT
    (psy_charger_stat (desc st)) (- ENODEV) st.
Definition get_charger_limit_current (st : machine) :=
  charger_stat_first POWER_SUPPLY_PROP_INPUT_CURRENT_LIMIT
    (psy_charger_stat (desc st)) (- ENODEV) st.
Definition get_charger_input_current (st : machine) :=
  charger_stat_first POWER_SUPPLY_PROP_INPUT_CURRENT_NOW
    (psy_charger_stat (desc st)) (- ENODEV) st.

(** The loop of is_charging. *)
Fixpoint is_charging_loop (names : list string) (st : machine)
  : bool * machine :=
  match names with
  | [] => (false, st)
  | n :: rest =>
    if is_event (emergency_stop (cm st)) then is_charging_loop rest st else
    if negb (charger_enabled (cm st)) then is_charging_loop rest st else
    let '(found, st) := power_supply_get_by_name n st in
    if negb found then is_charging_loop rest st else
    let '(ret, v, st) :=
      power_supply_get_property n POWER_SUPPLY_PROP_ONLINE st in
    if neqz ret then is_charging_loop rest st else
    if v =? 0 then is_charging_loop rest st else
    let '(ret, v, st) :=
      power_supply_get_property n POWER_SUPPLY_PROP_STATUS st in
    if neqz ret then is_charging_loop rest st else
    if (v =? POWER_SUPPLY_STATUS_FULL)
       || (v =? POWER_SUPPLY_STATUS_DISCHARGING)
       || (v =? POWER_SUPPLY_STATUS_NOT_CHARGING)
    then is_charging_loop rest st
    else (true, st)
  end.

Definition is_charging (st : machine) : bool * machine :=
  let '(present, st) := is_batt_present st in
  if negb present then (false, st) else
  is_charging_loop (psy_charger_stat (desc st)) st.

Definition cm_primary_charger_enable (enable : bool) (st : machine)
  : bool * machine :=
  match psy_charger_stat (desc st) with
  | [] => (false, st)
  | primary :: _ =>
    let '(found, st) := power_supply_get_by_name primary st in
    if negb found then (false, st) else
    let '(ret, st) :=
      power_supply_set_property primary POWER_SUPPLY_PROP_CHARGE_ENABLED
        (if enable then 1 else 0) st in
    if neqz ret then (false, st) else (true, st)
  end.

(** *** Full-battery detector *)

(** The voltage and current criterion of is_full_charged, once both
    readings are there: the soft-full counter first, the full counter
    after it. *)
Definition is_full_charged_vi (uV uA : Z) (st : machine) : bool * machine :=
  let st :=
    if (0 <? first_fullbatt_uA (desc st))
       && (fullbatt_uV (desc st) <=? uV)
       && (fullbatt_uA (desc st) <? uA)
       && (uA <=? first_fullbatt_uA (desc st))
       && (0 <=? uA)
    then
      let c := add32 (first_trigger_cnt (desc st)) 1 in
      let st := on_desc (set_first_trigger_cnt c) st in
      if 1 <? c then on_desc (set_force_set_full true) st else st
    else on_desc (set_first_trigger_cnt 0) st in
  if (fullbatt_uV (desc st) <=? uV)
     && (uA <=? fullbatt_uA (desc st))
     && (0 <=? uA)
  then
    let c := add32 (trigger_cnt (desc st)) 1 in
    let st := on_desc (set_trigger_cnt c) st in
    if 1 <? c then
      if CM_CAP_FULL_PERCENT <=? cap (desc st) then
        let '(_, st) :=
          if c =? 2 then adjust_fuel_cap CM_FORCE_SET_FUEL_CAP_FULL st
          else (0, st) in
        (true, on_desc (set_force_set_full true) st)
      else
        let '(_, st) := adjust_fuel_cap CM_FORCE_SET_FUEL_CAP_FULL st in
        let '(_, st) :=
          if c =? 2 then cm_primary_charger_enable false st
          else (false, st) in
        (false, on_desc (set_force_set_full true) st)
    else (false, st)
  else (false, on_desc (set_trigger_cnt 0) st).

Definition is_full_charged (st : machine) : bool * machine :=
  let '(present, st) := is_batt_present st in
  if negb present then (false, st) else
  let fuel_gauge := psy_fuel_gauge (desc st) in
  let '(found, st) := power_supply_get_by_name fuel_gauge st in
  if negb found then (false, st) else
  let '(full, st) :=
    if 0 <? fullbatt_full_capacity (desc st) then
      let '(ret, v, st) :=
        power_supply_get_property fuel_gauge POWER_SUPPLY_PROP_CHARGE_FULL st in
      ((ret =? 0) && (fullbatt_full_capacity (desc st) <? v), st)
    else (false, st) in
  if full then (true, st) else
  if (0 <? fullbatt_uV (desc st)) && (0 <? fullbatt_uA (desc st)) then
    let '(ret, uV, st) := get_batt_uV st in
    if neqz ret then (false, st) else
    let '(ret, uA, st) := get_batt_uA st in
    if neqz ret then (false, st) else
    is_full_charged_vi uV uA st
  else
  if 0 <? fullbatt_soc (desc st) then
    let '(ret, v, st) :=
      power_supply_get_property fuel_gauge POWER_SUPPLY_PROP_CAPACITY st in
    ((ret =? 0) && (fullbatt_soc (desc st) <=? v), st)
  else (false, st).

(** The way of is_full_charged to its voltage and current criterion: the
    two readings and the state they are judged in, when the battery is
    there, the gauge is found, the charge counter has not already
    decided, both thresholds are set and both reads succeed. *)
Definition is_full_charged_reads (st : machine) : option (Z * Z * machine) :=
  let '(present, st) := is_batt_present st in
  if negb present then None else
  let fuel_gauge := psy_fuel_gauge (desc st) in
  let '(found, st) := power_supply_get_by_name fuel_gauge st in
  if negb found then None else
  let '(full, st) :=
    if 0 <? fullbatt_full_capacity (desc st) then
      let '(ret, v, st) :=
        power_supply_get_property fuel_gauge POWER_SUPPLY_PROP_CHARGE_FULL st in
      ((ret =? 0) && (fullbatt_full_capacity (desc st) <? v), st)
    else (false, st) in
  if full then None else
  if (0 <? fullbatt_uV (desc st)) && (0 <? fullbatt_uA (desc st)) then
    let '(ret, uV, st) := get_batt_uV st in
    if neqz ret then None else
    let '(ret, uA, st) := get_batt_uA st in
    if neqz ret then None else
    Some (uV, uA, st)
  else None.

(** *** Event notification *)

(** strncpy and strncmp look at the first UEVENT_BUF_SIZE characters. *)
Definition strn (s : string) : string := substring 0 UEVENT_BUF_SIZE s.
Definition strncmp_eq (a b : string) : bool := String.eqb (strn a) (strn b).

(** uevent_notify; [None] is the null event of the resume path.  The
    payload of [EvUevent] is env_str at the time of kobject_uevent.  (A
    null event while suspended would be handed to strncmp; no caller
    does that and the model leaves the state alone.) *)
Definition uevent_notify (event : option string) (st : machine) : machine :=
  if cm_suspended (gl st) then
    match event with
    | None => st
    | Some ev =>
      if String.eqb (env_str_save (gl st)) EmptyString then
        if strncmp_eq (env_str (gl st)) ev then st
        else on_gl (set_env_str_save (strn ev)) st
      else
        if strncmp_eq (env_str_save (gl st)) ev then st
        else on_gl (set_env_str_save (strn ev)) st
    end
  else
    match event with
    | None =>
      if String.eqb (env_str_save (gl st)) EmptyString then st
      else
        let msg := strn (env_str_save (gl st)) in
        let st := on_gl (set_env_str msg) st in
        let st := emit (EvUevent msg) st in
        on_gl (set_env_str_save EmptyString) st
    | Some ev =>
      if strncmp_eq (env_str (gl st)) ev then st
      else
        let st := on_gl (set_env_str (strn ev)) st in
        emit (EvUevent (strn ev)) st
    end.

(** *** Fast-charge commands *)

Definition cm_set_main_charger_current (cmd : Z) (st : machine)
  : Z * machine :=
  match psy_charger_stat (desc st) with
  | [] => (- ENODEV, st)
  | main :: _ =>
    let '(found, st) := power_supply_get_by_name main st in
    if negb found then (- ENODEV, st) else
    power_supply_set_property main POWER_SUPPLY_PROP_STATUS cmd st
  end.

Definition cm_set_second_charger_current (st : machine) : Z * machine :=
  match nth_error (psy_charger_stat (desc st)) 1 with
  | None => (0, st)
  | Some second =>
    let '(found, st) := power_supply_get_by_name second st in
    if negb found then (- ENODEV, st) else
    power_supply_set_property second POWER_SUPPLY_PROP_STATUS
      CM_FAST_CHARGE_ENABLE_CMD st
  end.

Definition cm_enable_second_charger (enable : bool) (st : machine)
  : Z * machine :=
  match nth_error (psy_charger_stat (desc st)) 1 with
  | None => (0, st)
  | Some second =>
    let '(found, st) := power_supply_get_by_name second st in
    if negb found then (- ENODEV, st) else
    power_supply_set_property second POWER_SUPPLY_PROP_STATUS
      (if enable then 1 else 0) st
  end.

(** The caller has checked that psy_fast_charger_stat[0] is not NULL. *)
Definition cm_adjust_fast_charge_voltage (cmd : Z) (st : machine)
  : Z * machine :=
  let fast := hd EmptyString (psy_fast_charger_stat (desc st)) in
  let '(found, st) := power_supply_get_by_name fast st in
  if negb found then (- ENODEV, st) else
  power_supply_set_property fast POWER_SUPPLY_PROP_VOLTAGE_MAX cmd st.

(** *** JEITA zone *)

(** The descending scan of cm_manager_get_jeita_status: started with
    [n] = jeita_tab_size it returns the index at which the loop breaks,
    or -1. *)
Fixpoint jeita_scan (tab : list charger_jeita_table) (cur_temp : Z) (n : nat)
  : Z :=
  match n with
  | O => -1
  | S i =>
    let row := nth i tab jeita_row_zero in
    if ((temp row <=? cur_temp) && (0 <? Z.of_nat i))
       || ((temp row <? cur_temp) && (Z.of_nat i =? 0))
    then Z.of_nat i
    else jeita_scan tab cur_temp i
  end.

Definition jeita_row (st : machine) (i : nat) : charger_jeita_table :=
  nth i (jeita_tab (desc st)) jeita_row_zero.

Definition cm_manager_get_jeita_status (cur_temp : Z) (st : machine)
  : Z * machine :=
  let i := jeita_scan (jeita_tab (desc st)) cur_temp
             (Z.to_nat (jeita_tab_size (desc st))) in
  let js := jeita_status (gl st) in
  let js' :=
    if i =? 3 then STATUS_ABOVE_T3
    else if i =? 2 then
      if negb (js =? STATUS_ABOVE_T3)
         || (cur_temp <=? recovery_temp (jeita_row st 3))
      then STATUS_T2_TO_T3 else js
    else if i =? 1 then
      if (negb (js =? STATUS_T2_TO_T3)
          || (cur_temp <=? recovery_temp (jeita_row st 2)))
         && (negb (js =? STATUS_T0_TO_T1)
             || (recovery_temp (jeita_row st 1) <=? cur_temp))
      then STATUS_T1_TO_T2 else js
    else if i =? 0 then
      if negb (js =? STATUS_BELOW_T0)
         || (recovery_temp (jeita_row st 0) <=? cur_temp)
      then STATUS_T0_TO_T1 else js
    else STATUS_BELOW_T0 in
  (js', on_gl (set_jeita_status js') st).

(** The loop of try_charger_enable_by_psy. *)
Fixpoint try_charger_enable_by_psy_loop (names : list string)
  (enable : bool) (st : machine) : Z * machine :=
  match names with
  | [] => (0, st)
  | n :: rest =>
    let '(found, st) := power_supply_get_by_name n st in
    if negb found then try_charger_enable_by_psy_loop rest enable st else
    let '(err, st) :=
      power_supply_set_property n POWER_SUPPLY_PROP_STATUS
        (if enable then 1 else 0) st in
    if neqz err then (err, st) else
    match nth_error (psy_charger_stat (desc st)) 1 with
    | Some _ => (0, st)
    | None => try_charger_enable_by_psy_loop rest enable st
    end
  end.

Definition try_charger_enable_by_psy (enable : bool) (st : machine)
  : Z * machine :=
  try_charger_enable_by_psy_loop (psy_charger_stat (desc st)) enable st.

(** The loop of cm_manager_adjust_current that pushes the termination
    voltage and the target current to every charger; [ret] is the last
    return code. *)
Fixpoint adjust_current_loop (names : list string) (term_volt target_cur : Z)
  (ret : Z) (st : machine) : Z * machine :=
  match names with
  | [] => (ret, st)
  | n :: rest =>
    let '(found, st) := power_supply_get_by_name n st in
    if negb found then adjust_current_loop rest term_volt target_cur ret st
    else
    let '(ret, st) :=
      power_supply_set_property n
        POWER_SUPPLY_PROP_CONSTANT_CHARGE_VOLTAGE_MAX term_volt st in
    if neqz ret then adjust_current_loop rest term_volt target_cur ret st
    else
    let '(ret, st) :=
      power_supply_set_property n
        POWER_SUPPLY_PROP_CONSTANT_CHARGE_CURRENT target_cur st in
    adjust_current_loop rest term_volt target_cur ret st
  end.

(** *** Enabling and disabling the chargers

    try_charger_enable, try_fast_charger_enable, the fast-charge checks
    and cm_manager_adjust_current call each other in the source; here
    they are one recursion on the fuel. *)

Fixpoint try_charger_enable (fuel : nat) (enable : bool) (st : machine)
  {struct fuel} : option (Z * machine) :=
  match fuel with
  | O => None
  | S fuel =>
    let? (_, st) := try_fast_charger_enable fuel enable st in
    if Bool.eqb enable (charger_enabled (cm st)) then Some (0, st) else
    if enable then
      if is_event (emergency_stop (cm st)) then Some (- EAGAIN, st) else
      let '(present, st) := is_batt_present st in
      if negb present && negb (allow_charger_enable (gl st))
      then Some (0, st) else
      let st := on_cm (set_charging_start_time (ktime_ms (hw st))) st in
      let st := on_cm (set_charging_end_time 0) st in
      let '(err, st) := try_charger_enable_by_psy enable st in
      Some (err, if err =? 0 then on_cm (set_charger_enabled enable) st
                 else st)
    else
      let st := on_cm (set_charging_start_time 0) st in
      let st := on_cm (set_charging_end_time (ktime_ms (hw st))) st in
      let '(err, st) := try_charger_enable_by_psy enable st in
      Some (err, if err =? 0 then on_cm (set_charger_enabled enable) st
                 else st)
  end

with try_fast_charger_enable (fuel : nat) (enable : bool) (st : machine)
  {struct fuel} : option (Z * machine) :=
  match fuel with
  | O => None
  | S fuel =>
    if enable then
      let? (err, st) := cm_fast_charge_enable_check fuel st in
      if neqz err then Some (err, st) else
      let? (err, st) := cm_fast_charge_disable_check fuel st in
      if neqz err then Some (err, st) else Some (0, st)
    else
      let? (err, st) := cm_fast_charge_disable fuel st in
      if neqz err then Some (err, st) else Some (0, st)
  end

with cm_fast_charge_enable_check (fuel : nat) (st : machine)
  {struct fuel} : option (Z * machine) :=
  match fuel with
  | O => None
  | S fuel =>
    if is_event (emergency_stop (cm st)) then Some (- EAGAIN, st) else
    match psy_fast_charger_stat (desc st) with
    | [] => Some (0, st)
    | _ :: _ =>
      if negb (is_fast_charge (desc st)) || enable_fast_charge (desc st)
      then Some (0, st) else
      let '(ret, batt_uV, st) := get_batt_uV st in
      if neqz ret then Some (ret, st) else
      let '(ret, batt_uA, st) := get_batt_uA st in
      if neqz ret then Some (ret, st) else
      let st :=
        if CM_FAST_CHARGE_ENABLE_BATTERY_VOLTAGE <? batt_uV
        then on_desc (fun d => set_fast_charge_enable_count
                                 (add32 (fast_charge_enable_count d) 1) d) st
        else on_desc (set_fast_charge_enable_count 0) st in
      if fast_charge_enable_count (desc st) <? CM_FAST_CHARGE_ENABLE_COUNT
      then Some (0, st) else
      let st := on_desc (set_fast_charge_enable_count 0) st in
      let '(ret, st) :=
        cm_set_main_charger_current CM_FAST_CHARGE_ENABLE_CMD st in
      if neqz ret then
        let '(_, st) :=
          cm_set_main_charger_current CM_FAST_CHARGE_DISABLE_CMD st in
        Some (ret, st)
      else
      let '(ret, st) := cm_set_second_charger_current st in
      if neqz ret then
        let '(_, st) :=
          cm_set_main_charger_current CM_FAST_CHARGE_DISABLE_CMD st in
        Some (ret, st)
      else
      let '(ret, st) :=
        cm_adjust_fast_charge_voltage CM_FAST_CHARGE_VOLTAGE_9V st in
      if neqz ret then
        let '(_, st) :=
          cm_set_main_charger_current CM_FAST_CHARGE_DISABLE_CMD st in
        Some (ret, st)
      else
      let '(ret, st) := cm_enable_second_charger true st in
      if neqz ret then
        let '(_, st) :=
          cm_set_main_charger_current CM_FAST_CHARGE_DISABLE_CMD st in
        Some (ret, st)
      else
      let st :=
        if neqz (fast_charge_voltage_max (desc st))
        then on_desc (fun d => set_charge_voltage_max
                                 (fast_charge_voltage_max d) d) st
        else st in
      let st :=
        if neqz (fast_charge_voltage_drop (desc st))
        then on_desc (fun d => set_charge_voltage_drop
                                 (fast_charge_voltage_drop d) d) st
        else st in
      let? st :=
        if neqz (jeita_tab_size (desc st)) then
          let st := on_desc (fun d => set_jeita_tab
                                        (jeita_tab_array d CM_JEITA_FCHG) d) st in
          let '(cur_jeita_status, st) :=
            cm_manager_get_jeita_status (temperature (desc st)) st in
          let cur_jeita_status :=
            if jeita_disabled (desc st) then STATUS_T1_TO_T2
            else cur_jeita_status in
          let? (_, st) := cm_manager_adjust_current fuel cur_jeita_status st in
          Some st
        else Some st in
      Some (0, on_desc (set_enable_fast_charge true) st)
    end
  end

with cm_fast_charge_disable (fuel : nat) (st : machine)
  {struct fuel} : option (Z * machine) :=
  match fuel with
  | O => None
  | S fuel =>
    if negb (enable_fast_charge (desc st)) then Some (0, st) else
    let '(ret, st) := cm_enable_second_charger false st in
    if neqz ret then Some (ret, st) else
    let '(ret, st) :=
      cm_adjust_fast_charge_voltage CM_FAST_CHARGE_VOLTAGE_5V st in
    if neqz ret then Some (ret, st) else
    let '(ret, st) :=
      cm_set_main_charger_current CM_FAST_CHARGE_DISABLE_CMD st in
    if neqz ret then Some (ret, st) else
    let st :=
      if neqz (normal_charge_voltage_max (desc st))
      then on_desc (fun d => set_charge_voltage_max
                               (normal_charge_voltage_max d) d) st
      else st in
    let st :=
      if neqz (normal_charge_voltage_drop (desc st))
      then on_desc (fun d => set_charge_voltage_drop
                               (normal_charge_voltage_drop d) d) st
      else st in
    let? st :=
      if neqz (jeita_tab_size (desc st)) then
        let st := on_desc (fun d => set_jeita_tab
                                      (jeita_tab_array d CM_JEITA_DCP) d) st in
        let '(cur_jeita_status, st) :=
          cm_manager_get_jeita_status (temperature (desc st)) st in
        let cur_jeita_status :=
          if jeita_disabled (desc st) then STATUS_T1_TO_T2
          else cur_jeita_status in
        let? (_, st) := cm_manager_adjust_current fuel cur_jeita_status st in
        Some st
      else Some st in
    Some (0, on_desc (set_enable_fast_charge false) st)
  end

with cm_fast_charge_disable_check (fuel : nat) (st : machine)
  {struct fuel} : option (Z * machine) :=
  match fuel with
  | O => None
  | S fuel =>
    if negb (enable_fast_charge (desc st)) then Some (0, st) else
    let '(ret, batt_uV, st) := get_batt_uV st in
    if neqz ret then Some (ret, st) else
    let '(ret, batt_uA, st) := get_batt_uA st in
    if neqz ret then Some (ret, st) else
    let st :=
      if batt_uV <? CM_FAST_CHARGE_DISABLE_BATTERY_VOLTAGE
      then on_desc (fun d => set_fast_charge_disable_count
                               (add32 (fast_charge_disable_count d) 1) d) st
      else on_desc (set_fast_charge_disable_count 0) st in
    if fast_charge_disable_count (desc st) <? CM_FAST_CHARGE_DISABLE_COUNT
    then Some (0, st) else
    let st := on_desc (set_fast_charge_disable_count 0) st in
    let? (ret, st) := cm_fast_charge_disable fuel st in
    if neqz ret then Some (ret, st) else Some (0, st)
  end

with cm_manager_adjust_current (fuel : nat) (jeita_status : Z) (st : machine)
  {struct fuel} : option (bool * machine) :=
  match fuel with
  | O => None
  | S fuel =>
    if neqz (charging_status (cm st))
       && (Z.land (charging_status (cm st))
                  (Z.lor CM_CHARGE_TEMP_OVERHEAT CM_CHARGE_TEMP_COLD) =? 0)
    then Some (true, st) else
    let jeita_status :=
      if jeita_tab_size (desc st) <? jeita_status
      then jeita_tab_size (desc st) else jeita_status in
    if (jeita_status =? 0) || (jeita_status =? jeita_tab_size (desc st)) then
      let st := uevent_notify (Some "Discharging") st in
      let? (_, st) := try_charger_enable fuel false st in
      let st :=
        if jeita_status =? 0
        then on_cm (fun c => set_charging_status
                               (Z.lor (charging_status c) CM_CHARGE_TEMP_COLD) c) st
        else on_cm (fun c => set_charging_status
                               (Z.lor (charging_status c) CM_CHARGE_TEMP_OVERHEAT) c) st in
      Some (false, st)
    else
      let row := jeita_row st (Z.to_nat jeita_status) in
      let term_volt := term_volt row in
      let target_cur :=
        if (0 <=? thm_adjust_cur (desc st))
           && (thm_adjust_cur (desc st) <? current_ua row)
        then thm_adjust_cur (desc st) else current_ua row in
      let '(ret, st) :=
        adjust_current_loop (psy_charger_stat (desc st)) term_volt target_cur
          (- ENODEV) st in
      if neqz ret then Some (false, st) else
      let? (_, st) := try_charger_enable fuel true st in
      Some (true,
            on_cm (fun c => set_charging_status
                     (Z.ldiff (charging_status c)
                        (Z.lor CM_CHARGE_TEMP_OVERHEAT CM_CHARGE_TEMP_COLD)) c) st)
  end.

Definition try_charger_restart (fuel : nat) (st : machine)
  : option (Z * machine) :=
  if is_event (emergency_stop (cm st)) then Some (- EAGAIN, st) else
  let? (err, st) := try_charger_enable fuel false st in
  if neqz err then Some (err, st) else
  try_charger_enable fuel true st.

(** *** Recharge check after full *)

Definition fullbatt_vchk (fuel : nat) (st : machine) : option machine :=
  let st := on_cm (set_fullbatt_vchk_jiffies_at 0) st in
  if (fullbatt_vchkdrop_uV (desc st) =? 0)
     || (fullbatt_vchkdrop_ms (desc st) =? 0)
  then Some st else
  let '(err, batt_ocv, st) := get_batt_ocv st in
  if neqz err then Some st else
  let diff := sub32 (fullbatt_uV (desc st)) batt_ocv in
  if diff <? 0 then Some st else
  if fullbatt_vchkdrop_uV (desc st) <=? diff then
    let? (_, st) := try_charger_restart fuel st in
    Some (uevent_notify (Some "Recharging") st)
  else Some st.

(** *** Guards *)

Definition wrapu64 (z : Z) : Z := z mod 18446744073709551616.

Definition has_bit (status bit : Z) : bool := neqz (Z.land status bit).

(** check_charging_duration; the result is the int the caller tests. *)
Definition check_charging_duration (fuel : nat) (st : machine)
  : option (Z * machine) :=
  let curr := ktime_ms (hw st) in
  if (charging_max_duration_ms (desc st) =? 0)
     && (discharging_max_duration_ms (desc st) =? 0)
  then Some (0, st) else
  if neqz (charging_status (cm st))
     && negb (has_bit (charging_status (cm st)) CM_CHARGE_DURATION_ABNORMAL)
  then Some (0, st) else
  let '(ret, batt_ocv, st) := get_batt_ocv st in
  if neqz ret then Some (ret, st) else
  let diff := sub32 (fullbatt_uV (desc st)) batt_ocv in
  let? (ret, st) :=
    if charger_enabled (cm st) then
      let duration := wrapu64 (curr - charging_start_time (cm st)) in
      if (charging_max_duration_ms (desc st) <? duration)
         && (diff <? fullbatt_vchkdrop_uV (desc st))
      then
        let st := uevent_notify (Some "Discharging") st in
        let? (_, st) := try_charger_enable fuel false st in
        Some (1, on_cm (fun c => set_charging_status
                          (Z.lor (charging_status c)
                                 CM_CHARGE_DURATION_ABNORMAL) c) st)
      else Some (0, st)
    else
      let '(online, st) := is_ext_pwr_online st in
      if online && negb (charger_enabled (cm st))
         && has_bit (charging_status (cm st)) CM_CHARGE_DURATION_ABNORMAL
      then
        let duration := wrapu64 (curr - charging_end_time (cm st)) in
        if discharging_max_duration_ms (desc st) <? duration then
          let '(online, st) := is_ext_pwr_online st in
          if online then
            let st := uevent_notify (Some "Recharging") st in
            let? (_, st) := try_charger_enable fuel true st in
            Some (1, on_cm (fun c => set_charging_status
                              (Z.ldiff (charging_status c)
                                       CM_CHARGE_DURATION_ABNORMAL) c) st)
          else Some (0, st)
        else Some (0, st)
      else Some (0, st) in
  if has_bit (charging_status (cm st)) CM_CHARGE_DURATION_ABNORMAL
  then Some (1, st) else Some (ret, st).

Definition cm_get_battery_temperature (st : machine) : Z * Z * machine :=
  if negb (measure_battery_temp (desc st)) then (- ENODEV, 0, st) else
  if tzd_batt (cm st) then
    let '(r, st) := ask ReqThermal st in
    let ret := wrap32 (r_ret r) in
    if ret =? 0 then (0, Z.quot (wrap32 (r_val r)) 100, st)
    else (ret, wrap32 (r_val r), st)
  else (0, temperature (desc st), st).

Definition upper_limit (st : machine) : Z :=
  if is_event (emergency_stop (cm st))
  then sub32 (temp_max (desc st)) (temp_diff (desc st))
  else temp_max (desc st).

Definition lower_limit (st : machine) : Z :=
  if is_event (emergency_stop (cm st))
  then add32 (temp_min (desc st)) (temp_diff (desc st))
  else temp_min (desc st).

Definition cm_check_thermal_status (st : machine)
  : cm_event_types * machine :=
  let '(ret, temp, st) := cm_get_battery_temperature st in
  if neqz ret then (CM_EVENT_UNKNOWN, st) else
  if upper_limit st <? temp then (CM_EVENT_BATT_OVERHEAT, st)
  else if temp <? lower_limit st then (CM_EVENT_BATT_COLD, st)
  else (CM_EVENT_UNKNOWN, st).

Definition cm_check_charge_voltage (fuel : nat) (st : machine)
  : option (Z * machine) :=
  if (charge_voltage_max (desc st) =? 0) || (charge_voltage_drop (desc st) =? 0)
  then Some (- EINVAL, st) else
  if neqz (charging_status (cm st))
     && negb (has_bit (charging_status (cm st)) CM_CHARGE_VOLTAGE_ABNORMAL)
  then Some (- EINVAL, st) else
  let '(found, st) := power_supply_get_by_name (psy_fuel_gauge (desc st)) st in
  if negb found then Some (- ENODEV, st) else
  let '(ret, charge_vol, st) :=
    power_supply_get_property (psy_fuel_gauge (desc st))
      POWER_SUPPLY_PROP_CONSTANT_CHARGE_VOLTAGE st in
  if neqz ret then Some (ret, st) else
  if charger_enabled (cm st) && (charge_voltage_max (desc st) <? charge_vol)
  then
    let st := uevent_notify (Some "Discharging") st in
    let? (_, st) := try_charger_enable fuel false st in
    let st := on_cm (fun c => set_charging_status
                       (Z.lor (charging_status c)
                              CM_CHARGE_VOLTAGE_ABNORMAL) c) st in
    Some (0, emit EvChanged st)
  else
    let '(online, st) := is_ext_pwr_online st in
    if online && negb (charger_enabled (cm st))
       && (charge_vol <=? sub32 (charge_voltage_max (desc st))
                                (charge_voltage_drop (desc st)))
       && has_bit (charging_status (cm st)) CM_CHARGE_VOLTAGE_ABNORMAL
    then
      let st := uevent_notify (Some "Recharging") st in
      let? (_, st) := try_charger_enable fuel true st in
      let st := on_cm (fun c => set_charging_status
                         (Z.ldiff (charging_status c)
                                  CM_CHARGE_VOLTAGE_ABNORMAL) c) st in
      Some (0, emit EvChanged st)
    else if has_bit (charging_status (cm st)) CM_CHARGE_VOLTAGE_ABNORMAL
    then Some (0, st)
    else Some (- EINVAL, st).

(** The loop of cm_check_charge_health: [Some health] after the last
    charger, [None] with the error code when a read fails. *)
Fixpoint charge_health_loop (names : list string) (health : Z) (st : machine)
  : (Z + Z) * machine :=
  match names with
  | [] => (inl health, st)
  | n :: rest =>
    let '(found, st) := power_supply_get_by_name n st in
    if negb found then charge_health_loop rest health st else
    let '(ret, v, st) :=
      power_supply_get_property n POWER_SUPPLY_PROP_HEALTH st in
    if neqz ret then (inr ret, st) else charge_health_loop rest v st
  end.

Definition cm_check_charge_health (fuel : nat) (st : machine)
  : option (Z * machine) :=
  if neqz (charging_status (cm st))
     && negb (has_bit (charging_status (cm st)) CM_CHARGE_HEALTH_ABNORMAL)
  then Some (- EINVAL, st) else
  let '(res, st) :=
    charge_health_loop (psy_charger_stat (desc st))
      POWER_SUPPLY_HEALTH_UNKNOWN st in
  match res with
  | inr ret => Some (ret, st)
  | inl health =>
    if health =? POWER_SUPPLY_HEALTH_UNKNOWN then Some (- ENODEV, st) else
    if charger_enabled (cm st) && negb (health =? POWER_SUPPLY_HEALTH_GOOD)
    then
      let st := uevent_notify (Some "Discharging") st in
      let? (_, st) := try_charger_enable fuel false st in
      Some (0, on_cm (fun c => set_charging_status
                        (Z.lor (charging_status c)
                               CM_CHARGE_HEALTH_ABNORMAL) c) st)
    else
      let '(online, st) := is_ext_pwr_online st in
      if online && negb (charger_enabled (cm st))
         && (health =? POWER_SUPPLY_HEALTH_GOOD)
         && has_bit (charging_status (cm st)) CM_CHARGE_HEALTH_ABNORMAL
      then
        let st := uevent_notify (Some "Recharging") st in
        let? (_, st) := try_charger_enable fuel true st in
        Some (0, on_cm (fun c => set_charging_status
                          (Z.ldiff (charging_status c)
                                   CM_CHARGE_HEALTH_ABNORMAL) c) st)
      else if has_bit (charging_status (cm st)) CM_CHARGE_HEALTH_ABNORMAL
      then Some (0, st)
      else Some (- EINVAL, st)
  end.

Fixpoint cm_feed_watchdog_loop (names : list string) (st : machine)
  : Z * machine :=
  match names with
  | [] => (0, st)
  | n :: rest =>
    let '(found, st) := power_supply_get_by_name n st in
    if negb found then cm_feed_watchdog_loop rest st else
    let '(err, st) :=
      power_supply_set_property n POWER_SUPPLY_PROP_FEED_WATCHDOG
        (wdt_interval (desc st)) st in
    if neqz err then (err, st) else cm_feed_watchdog_loop rest st
  end.

Definition cm_feed_watchdog (st : machine) : Z * machine :=
  if wdt_interval (desc st) =? 0 then (0, st) else
  cm_feed_watchdog_loop (psy_charger_stat (desc st)) st.

(** *** JEITA current monitor *)

Definition cm_manager_jeita_current_monitor (fuel : nat) (st : machine)
  : option (Z * machine) :=
  if jeita_tab_size (desc st) =? 0 then Some (0, st) else
  let '(online, st) := is_ext_pwr_online st in
  if negb online then
    Some (0, if negb (last_jeita_status (gl st) =? -1)
             then on_gl (set_last_jeita_status (-1)) st else st)
  else
  if jeita_disabled (desc st) then
    if negb (last_jeita_status (gl st) =? STATUS_T1_TO_T2) then
      let st := on_gl (set_last_jeita_status STATUS_T1_TO_T2) st in
      let st := on_desc (set_thm_adjust_cur (- EINVAL)) st in
      let? (_, st) :=
        cm_manager_adjust_current fuel (last_jeita_status (gl st)) st in
      Some (0, st)
    else Some (0, st)
  else
  let '(cur_jeita_status, st) :=
    cm_manager_get_jeita_status (temperature (desc st)) st in
  let? st :=
    if last_jeita_status (gl st) =? -1 then
      let? (normal, st) := cm_manager_adjust_current fuel cur_jeita_status st in
      let st := on_gl (set_is_normal normal) st in
      Some (on_gl (set_last_jeita_status cur_jeita_status) st)
    else if last_jeita_status (gl st) <? cur_jeita_status then
      let st := on_gl (set_temp_down_trigger 0) st in
      let st := on_gl (fun g => set_temp_up_trigger
                                  (add32 (temp_up_trigger g) 1) g) st in
      if 2 <? temp_up_trigger (gl st) then
        let? (normal, st) := cm_manager_adjust_current fuel cur_jeita_status st in
        let st := on_gl (set_is_normal normal) st in
        Some (on_gl (set_last_jeita_status cur_jeita_status) st)
      else Some st
    else if cur_jeita_status <? last_jeita_status (gl st) then
      let st := on_gl (set_temp_up_trigger 0) st in
      let st := on_gl (fun g => set_temp_down_trigger
                                  (add32 (temp_down_trigger g) 1) g) st in
      if 2 <? temp_down_trigger (gl st) then
        let? (normal, st) := cm_manager_adjust_current fuel cur_jeita_status st in
        let st := on_gl (set_is_normal normal) st in
        Some (on_gl (set_last_jeita_status cur_jeita_status) st)
      else Some st
    else
      let st := on_gl (set_temp_up_trigger 0) st in
      Some (on_gl (set_temp_down_trigger 0) st) in
  if negb (is_normal (gl st)) then Some (- EAGAIN, st) else Some (0, st).

(** *** The monitor tick *)

Definition _cm_monitor (fuel : nat) (st : machine) : option (bool * machine) :=
  let '(ret, st) := cm_feed_watchdog st in
  if neqz ret then Some (false, st) else
  if existsb (fun b => b) (externally_control (desc st))
  then Some (false, st) else
  let '(temp_alrt, st) := cm_check_thermal_status st in
  if is_event temp_alrt && is_event (emergency_stop (cm st))
  then Some (false, st) else
  let? (ret, st) := cm_manager_jeita_current_monitor fuel st in
  if neqz ret then Some (false, st) else
  if is_event temp_alrt then
    let st := on_cm (set_emergency_stop temp_alrt) st in
    let? (err, st) := try_charger_enable fuel false st in
    Some (true, if err =? 0
                then uevent_notify (Some (default_event_names temp_alrt)) st
                else st)
  else
  let? (hit, st) :=
    if is_event (emergency_stop (cm st)) then Some (false, st) else
    let? (ret, st) := cm_check_charge_voltage fuel st in
    Some (ret =? 0, st) in
  if hit then Some (true, st) else
  let? (hit, st) :=
    if is_event (emergency_stop (cm st)) then Some (false, st) else
    let? (ret, st) := cm_check_charge_health fuel st in
    Some (ret =? 0, st) in
  if hit then Some (true, st) else
  let? (hit, st) :=
    if is_event (emergency_stop (cm st)) then Some (false, st) else
    let? (ret, st) := check_charging_duration fuel st in
    Some (neqz ret, st) in
  if hit then Some (true, st) else
  let '(hit, st) :=
    if is_event (emergency_stop (cm st)) then (false, st) else
    let '(online, st) := is_ext_pwr_online st in
    (online && negb (charger_enabled (cm st)), st) in
  if hit then
    let? st := fullbatt_vchk fuel st in Some (true, st)
  else
  let '(hit, st) :=
    if is_event (emergency_stop (cm st)) then (false, st) else
    let '(full, st) := is_full_charged st in
    (full && charger_enabled (cm st), st) in
  if hit then
    let st := uevent_notify (Some (default_event_names CM_EVENT_BATT_FULL)) st in
    let? (_, st) := try_charger_enable fuel false st in
    let? st := fullbatt_vchk fuel st in
    Some (true, st)
  else
    let st := on_cm (set_emergency_stop CM_EVENT_UNKNOWN) st in
    let st := on_cm (set_charging_status 0) st in
    let '(online, st) := is_ext_pwr_online st in
    if online then
      let? (err, st) := try_charger_enable fuel true st in
      Some (true, if err =? 0 then uevent_notify (Some "CHARGING") st else st)
    else Some (true, st).

(** *** Capacity tracker *)

(** Modelled from the spec: jiffies_to_msecs belongs to the timer core,
    which is not among the sources; the spec only says that intervals
    are converted between scheduler ticks and milliseconds. *)
Variable jiffies_to_msecs : Z -> Z.

(** The words of the persistent file for a capacity. *)
Definition track_encode (capacity : Z) : Z * Z :=
  (Z.lxor capacity CM_TRACK_CAPACITY_KEY0,
   Z.lxor capacity CM_TRACK_CAPACITY_KEY1).

(** The capacity and the check value read back from two words. *)
Definition track_decode (w0 w1 : Z) : Z * Z :=
  (Z.lxor w0 CM_TRACK_CAPACITY_KEY0, Z.lxor w1 CM_TRACK_CAPACITY_KEY1).

(** cm_track_capacity_work.  [ReqOpen] answers whether filp_open gave a
    file, [ReqRead] gives the return code of kernel_read and the two
    words of file_buf. *)
Definition cm_track_capacity_work (st : machine) : machine :=
  let '(r, st) := ask ReqOpen st in
  if negb (r_found r) then
    if match state (track (cm st)) with CAP_TRACK_INIT => true | _ => false end
       && (0 <? retry_cnt (gl st))
    then
      let st := on_gl (fun g => set_retry_cnt (sub32 (retry_cnt g) 1) g) st in
      emit (EvWork "track_capacity_work" 5000) st
    else on_track (set_state CAP_TRACK_ERR) st
  else
  let '(ret, total_cap, st) := get_batt_total_cap st in
  if neqz ret then st else
  let total_cap := wrapu32 total_cap / 1000 in
  match state (track (cm st)) with
  | CAP_TRACK_INIT =>
    let st := on_track (set_state CAP_TRACK_IDLE) st in
    let '(r, st) := ask ReqRead st in
    if r_ret r <? 0 then st else
    let '(capacity, check_capacity) :=
      track_decode (wrapu32 (r_val r)) (wrapu32 (r_val2 r)) in
    if negb (capacity =? check_capacity) then st else
    if wrapu32 (abs32 (total_cap - capacity)) <? total_cap / 2
    then let '(_, st) := set_batt_total_cap (wrap32 capacity) st in st
    else st
  | CAP_TRACK_DONE =>
    let st := on_track (set_state CAP_TRACK_IDLE) st in
    let '(w0, w1) := track_encode total_cap in
    let '(_, st) := ask (ReqWrite w0 w1) st in st
  | _ => on_track (set_state CAP_TRACK_IDLE) st
  end.

Definition cm_track_capacity_monitor (st : machine) : machine :=
  if negb (cap_tracking (track (cm st))) then st else
  let '(present, st) := is_batt_present st in
  if negb present then st else
  if (CM_TRACK_HIGH_TEMP_THRESHOLD <? temperature (desc st))
     || (temperature (desc st) <? CM_TRACK_LOW_TEMP_THRESHOLD)
  then st else
  let '(ret, cur_now, st) := get_batt_cur_now st in
  if neqz ret then st else
  let '(ret, batt_uV, st) := get_batt_uV st in
  if neqz ret then st else
  let '(ret, ocv, st) := get_batt_ocv st in
  if neqz ret then st else
  let '(ret, boot_volt, st) := get_batt_boot_vol st in
  if neqz ret then st else
  match state (track (cm st)) with
  | CAP_TRACK_ERR => st
  | CAP_TRACK_IDLE =>
    if if is_charger_mode (gl st)
       then (CM_TRACK_CAPACITY_SHUTDOWN_START_VOLTAGE <? boot_volt)
            || (CM_TRACK_CAPACITY_START_VOLTAGE <? ocv)
       else (CM_TRACK_CAPACITY_START_CURRENT <? abs32 cur_now)
            || (CM_TRACK_CAPACITY_START_VOLTAGE <? ocv)
    then st else
    let start_cap :=
      mul32 (power_supply_ocv2cap_simple (cap_table (desc st))
               (if is_charger_mode (gl st) then boot_volt else ocv)) 10 in
    let st := on_track (set_start_cap start_cap) st in
    if CM_TRACK_START_CAP_THRESHOLD <? start_cap then
      on_track (set_start_cap 0) st
    else
    let '(ret, clbcnt, st) := get_batt_energy_now st in
    if neqz ret then st else
    let st := on_track (set_start_time (boottime_s (hw st))) st in
    let st := on_track (set_start_clbcnt clbcnt) st in
    on_track (set_state CAP_TRACK_UPDATING) st
  | CAP_TRACK_UPDATING =>
    if CM_TRACK_TIMEOUT_THRESHOLD
         <? boottime_s (hw st) - start_time (track (cm st))
    then on_track (set_state CAP_TRACK_IDLE) st else
    if (end_vol (track (cm st)) <? batt_uV)
       && (cur_now <? end_cur (track (cm st)))
    then
      let '(ret, clbcnt, st) := get_batt_energy_now st in
      if neqz ret then st else
      let '(ret, total_cap, st) := get_batt_total_cap st in
      if neqz ret then st else
      let total_cap := wrapu32 total_cap / 1000 in
      let capacity :=
        Z.quot (sub32 clbcnt (start_clbcnt (track (cm st)))) 1000 in
      let capacity :=
        wrap32 (wrapu32 (total_cap * wrapu32 (start_cap (track (cm st)))) / 1000
                + capacity) in
      if wrapu32 (abs32 (capacity - total_cap)) <? total_cap / 2 then
        let '(_, st) := set_batt_total_cap capacity st in
        let st := on_track (set_state CAP_TRACK_DONE) st in
        emit (EvWork "track_capacity_work" 0) st
      else on_track (set_state CAP_TRACK_IDLE) st
    else st
  | _ => st
  end.

(** *** Under-voltage check *)

Definition cm_uvlo_check_work (st : machine) : machine :=
  let '(ret, batt_uV, st) := get_batt_uV st in
  if neqz ret then st else
  let st :=
    if batt_uV <? shutdown_voltage (desc st)
    then on_desc (fun d => set_uvlo_trigger_cnt
                             (add32 (uvlo_trigger_cnt d) 1) d) st
    else on_desc (set_uvlo_trigger_cnt 0) st in
  let st :=
    if CM_UVLO_CALIBRATION_CNT_THRESHOLD <=? uvlo_trigger_cnt (desc st) then
      let '(_, st) := set_batt_cap 0 st in emit EvPoweroff st
    else st in
  if batt_uV <? CM_UVLO_CALIBRATION_VOLTAGE_THRESHOLD
  then emit (EvWork "uvlo_work" 800) st else st.

(** *** Capacity filter *)

(** (flush_time / cap_one_time) * 10 *)
Definition flush_step (flush_time : Z) (d : charger_desc) : Z :=
  mul32 (div32 flush_time (cap_one_time d)) 10.

(** case POWER_SUPPLY_STATUS_CHARGING of cm_batt_works: the new value of
    fuel_cap and the state. *)
Definition cm_batt_works_charging (fuel_cap bat_uA period_time flush_time : Z)
  (st : machine) : Z * machine :=
  let st := on_gl (set_last_fuel_cap fuel_cap) st in
  let d := desc st in
  let fuel_cap :=
    if fuel_cap <? cap d then
      if 0 <=? bat_uA then cap d
      else
        let fuel_cap :=
          if (period_time <? cap_one_time d) && (5 <=? sub32 (cap d) fuel_cap)
          then sub32 (cap d) 5 else fuel_cap in
        if flush_step flush_time d <=? sub32 (cap d) fuel_cap
        then sub32 (cap d) (flush_step flush_time d) else fuel_cap
    else if cap d <? fuel_cap then
      let fuel_cap :=
        if (period_time <? cap_one_time d) && (5 <=? sub32 fuel_cap (cap d))
        then add32 (cap d) 5 else fuel_cap in
      if flush_step flush_time d <=? sub32 fuel_cap (cap d)
      then add32 (cap d) (flush_step flush_time d) else fuel_cap
    else fuel_cap in
  let fuel_cap :=
    if (986 <=? cap d) && (cap d <=? 994) && (CM_CAP_FULL_PERCENT <=? fuel_cap)
    then 994 else fuel_cap in
  let st :=
    if (986 <=? cap d) && (trickle_time_out d <=? trickle_time d)
       && (0 <? trickle_time_out d) && (0 <? bat_uA)
    then on_desc (set_force_set_full true) st else st in
  (fuel_cap, st).

(** case POWER_SUPPLY_STATUS_NOT_CHARGING and
    case POWER_SUPPLY_STATUS_DISCHARGING. *)
Definition cm_batt_works_discharging (fuel_cap period_time flush_time : Z)
  (st : machine) : Z * machine :=
  let d := desc st in
  if cap d <=? fuel_cap then
    (cap d, on_gl (set_last_fuel_cap fuel_cap) st)
  else if CM_HCAP_THRESHOLD <=? cap d then
    if CM_HCAP_DECREASE_STEP <=? sub32 (last_fuel_cap (gl st)) fuel_cap then
      let fuel_cap :=
        if CM_CAP_ONE_PERCENT <=? sub32 (cap d) fuel_cap
        then sub32 (cap d) CM_CAP_ONE_PERCENT
        else sub32 (cap d) CM_HCAP_DECREASE_STEP in
      (fuel_cap,
       on_gl (fun g => set_last_fuel_cap
                         (sub32 (last_fuel_cap g) CM_HCAP_DECREASE_STEP) g) st)
    else (cap d, st)
  else
    let fuel_cap :=
      if (period_time <? cap_one_time d) && (5 <=? sub32 (cap d) fuel_cap)
      then sub32 (cap d) 5 else fuel_cap in
    let fuel_cap :=
      if flush_step flush_time d <=? sub32 (cap d) fuel_cap
      then sub32 (cap d) (flush_step flush_time d)
      else if CM_CAP_ONE_PERCENT <? sub32 (cap d) fuel_cap
      then sub32 (cap d) CM_CAP_ONE_PERCENT
      else fuel_cap in
    (fuel_cap, st).

(** case POWER_SUPPLY_STATUS_FULL. *)
Definition cm_batt_works_full (fuel_cap batt_ocV bat_uA cur_time : Z)
  (st : machine) : Z * machine :=
  let st := on_gl (set_last_fuel_cap fuel_cap) st in
  let st := on_desc (set_update_capacity_time (wrap32 cur_time)) st in
  let st :=
    if (batt_ocV <? sub32 (sub32 (fullbatt_uV (desc st))
                                 (fullbatt_vchkdrop_uV (desc st))) 50000)
       && (bat_uA <? 0)
    then on_desc (set_force_set_full false) st else st in
  let '(online, st) := is_ext_pwr_online st in
  if online then
    let fuel_cap :=
      if negb (fuel_cap =? CM_CAP_FULL_PERCENT) then CM_CAP_FULL_PERCENT
      else fuel_cap in
    let fuel_cap :=
      if cap (desc st) <? fuel_cap then add32 (cap (desc st)) 1
      else fuel_cap in
    (fuel_cap, st)
  else (fuel_cap, st).

(** The end of cm_batt_works: publish the filtered value. *)
Definition cm_batt_works_publish (fuel_cap batt_uV cur_time : Z)
  (st : machine) : machine :=
  let st :=
    if batt_uV <? CM_UVLO_CALIBRATION_VOLTAGE_THRESHOLD
    then emit (EvWork "uvlo_work" 100) st else st in
  let st :=
    if negb (fuel_cap =? cap (desc st)) then
      let st :=
        if negb (DIV_ROUND_CLOSEST fuel_cap 10
                 =? DIV_ROUND_CLOSEST (cap (desc st)) 10)
        then
          let st := on_desc (set_cap fuel_cap) st in
          let st := on_desc (set_update_capacity_time (wrap32 cur_time)) st in
          emit EvChanged st
        else st in
      let st := on_desc (set_cap fuel_cap) st in
      if uvlo_trigger_cnt (desc st) <? CM_UVLO_CALIBRATION_CNT_THRESHOLD
      then let '(_, st) := set_batt_cap (cap (desc st)) st in st else st
    else st in
  let st := emit (EvWork "cap_update_work" 15000) st in
  cm_track_capacity_monitor st.

(** The low-temperature cut-off at the head of cm_batt_works: below
    CM_LOW_TEMP_REGION and CM_LOW_TEMP_SHUTDOWN_VALTAGE the gauge value is
    replaced by 0 once the counter has passed 1. *)
Definition cm_batt_works_low_temp (cur_temp batt_uV fuel_cap : Z)
  (st : machine) : Z * machine :=
  if (cur_temp <=? CM_LOW_TEMP_REGION)
     && (batt_uV <=? CM_LOW_TEMP_SHUTDOWN_VALTAGE)
  then
    let cnt := low_temp_trigger_cnt (desc st) in
    let st := on_desc (set_low_temp_trigger_cnt (add32 cnt 1)) st in
    (if 1 <? cnt then 0 else fuel_cap, st)
  else if neqz (low_temp_trigger_cnt (desc st))
  then (fuel_cap, on_desc (set_low_temp_trigger_cnt 0) st)
  else (fuel_cap, st).

(** The clamp of fuel_cap into 0 .. CM_CAP_FULL_PERCENT. *)
Definition clamp_fuel_cap (fuel_cap : Z) : Z :=
  if CM_CAP_FULL_PERCENT <? fuel_cap then CM_CAP_FULL_PERCENT
  else if fuel_cap <? 0 then 0 else fuel_cap.

(** chg_sts of cm_batt_works. *)
Definition cm_batt_works_chg_sts (st : machine) : Z * machine :=
  let '(full, st) := is_full_charged st in
  if full then (POWER_SUPPLY_STATUS_FULL, st) else
  let '(charging, st) := is_charging st in
  if charging then (POWER_SUPPLY_STATUS_CHARGING, st) else
  let '(online, st) := is_ext_pwr_online st in
  if online then (POWER_SUPPLY_STATUS_NOT_CHARGING, st)
  else (POWER_SUPPLY_STATUS_DISCHARGING, st).

(** The record of the charging time above 98.6%. *)
Definition cm_batt_works_trickle (chg_sts cur_time : Z) (st : machine)
  : machine :=
  if chg_sts =? POWER_SUPPLY_STATUS_CHARGING then
    if 986 <=? cap (desc st) then
      on_desc (fun d => set_trickle_time
                          (wrap32 (cur_time - trickle_start_time d)) d) st
    else
      let st := on_desc (set_trickle_start_time (wrap32 cur_time)) st in
      on_desc (set_trickle_time 0) st
  else
    let st := on_desc (set_trickle_start_time (wrap32 cur_time)) st in
    on_desc (fun d => set_trickle_time
                        (add32 (trickle_time_out d) (cap_one_time d)) d) st.

(** cm->desc->charger_status. *)
Definition cm_batt_works_status (chg_sts : Z) (st : machine) : Z * machine :=
  let '(status, st) :=
    if force_set_full (desc st) then
      let '(online, st) := is_ext_pwr_online st in
      (if online then POWER_SUPPLY_STATUS_FULL else chg_sts, st)
    else (chg_sts, st) in
  (status, on_desc (set_charger_status status) st).

(** switch (cm->desc->charger_status). *)
Definition cm_batt_works_switch
  (status fuel_cap batt_ocV bat_uA period_time flush_time cur_time : Z)
  (st : machine) : Z * machine :=
  if status =? POWER_SUPPLY_STATUS_CHARGING then
    cm_batt_works_charging fuel_cap bat_uA period_time flush_time st
  else if (status =? POWER_SUPPLY_STATUS_NOT_CHARGING)
          || (status =? POWER_SUPPLY_STATUS_DISCHARGING) then
    cm_batt_works_discharging fuel_cap period_time flush_time st
  else if status =? POWER_SUPPLY_STATUS_FULL then
    cm_batt_works_full fuel_cap batt_ocV bat_uA cur_time st
  else (fuel_cap, st).

(** cm_batt_works once its sensors have been read. *)
Definition cm_batt_works_filter
  (batt_uV batt_ocV bat_uA fuel_cap cur_temp : Z) (st : machine) : machine :=
  let st := on_desc (set_temperature cur_temp) st in
  let '(fuel_cap, st) := cm_batt_works_low_temp cur_temp batt_uV fuel_cap st in
  let fuel_cap := clamp_fuel_cap fuel_cap in
  let st :=
    if last_fuel_cap (gl st) =? CM_CAP_MAGIC_NUM
    then on_gl (set_last_fuel_cap fuel_cap) st else st in
  let cur_time := boottime_s (hw st) in
  let '(chg_sts, st) := cm_batt_works_chg_sts st in
  let st := cm_batt_works_trickle chg_sts cur_time st in
  let flush_time := wrap32 (cur_time - update_capacity_time (desc st)) in
  let period_time := wrap32 (cur_time - last_query_time (desc st)) in
  let st := on_desc (set_last_query_time (wrap32 cur_time)) st in
  let '(status, st) := cm_batt_works_status chg_sts st in
  let '(fuel_cap, st) :=
    cm_batt_works_switch status fuel_cap batt_ocV bat_uA period_time
      flush_time cur_time st in
  cm_batt_works_publish fuel_cap batt_uV cur_time st.

Definition cm_batt_works (st : machine) : machine :=
  let '(ret, batt_uV, st) := get_batt_uV st in
  if neqz ret then st else
  let '(ret, batt_ocV, st) := get_batt_ocv st in
  if neqz ret then st else
  let '(ret, bat_uA, st) := get_batt_uA st in
  if neqz ret then st else
  let '(ret, fuel_cap, st) := get_batt_cap st in
  if neqz ret then st else
  let '(ret, chg_cur, st) := get_charger_current st in
  if neqz ret then st else
  let '(ret, chg_limit_cur, st) := get_charger_limit_current st in
  if neqz ret then st else
  let '(_, input_cur, st) := get_charger_input_current st in
  let '(_, chg_vol, st) := get_charge_voltage st in
  let '(ret, cur_temp, st) := cm_get_battery_temperature_by_psy st in
  if neqz ret then st else
  cm_batt_works_filter batt_uV batt_ocV bat_uA fuel_cap cur_temp st.

(** case POWER_SUPPLY_PROP_CAPACITY of charger_get_property: the return
    code and val->intval. *)
Definition charger_get_property_CAPACITY (st : machine) : Z * Z * machine :=
  let '(present, st) := is_batt_present st in
  if negb present then (0, 100, st) else
  let v := DIV_ROUND_CLOSEST (cap (desc st)) 10 in
  (0, if 100 <? v then 100 else if v <? 0 then 0 else v, st).

(** *** Resume *)

Definition CM_JIFFIES_SMALL : Z := 2.

(** Modelled from the spec: time_after_eq comes from linux/jiffies.h,
    which is not among the sources; the spec only says that the recheck
    of a full battery is scheduled again on resume.  The kernel macro
    compares two tick counts of the wrapping clock by the sign of their
    difference taken as a long. *)
Definition time_after_eq (a b : Z) : bool :=
  0 <=? (a - b + 9223372036854775808) mod 18446744073709551616
        - 9223372036854775808.

(** cm_suspend_complete.  cm_suspend_duration_ms, now and delay are
    unsigned long: their arithmetic wraps at 2^64. *)
Definition cm_suspend_complete (fuel : nat) (st : machine) : option machine :=
  let st :=
    if cm_suspended (gl st) then on_gl (set_cm_suspended false) st else st in
  let st :=
    if cm_timer_set (gl st) then
      let st := emit EvAlarmCancel st in
      let st := on_gl (set_cm_timer_set false) st in
      let '(r, st) := ask ReqAlarmRemaining st in
      let st :=
        if 0 <? r_val r
        then on_gl (fun g => set_cm_suspend_duration_ms
                               (wrapu64 (cm_suspend_duration_ms g - r_val r))
                               g) st
        else st in
      emit (EvWork "setup_polling" 0) st
    else st in
  let? (_, st) := _cm_monitor fuel st in
  let st := cm_batt_works st in
  let st :=
    if neqz (fullbatt_vchk_jiffies_at (cm st)) then
      let now := wrapu64 (jiffies (hw st) + CM_JIFFIES_SMALL) in
      let delay :=
        if time_after_eq now (fullbatt_vchk_jiffies_at (cm st))
        then wrapu64 (jiffies_to_msecs
                        (wrapu64 (now - fullbatt_vchk_jiffies_at (cm st))))
        else 0 in
      let delay :=
        if cm_suspend_duration_ms (gl st) <? delay
        then delay - cm_suspend_duration_ms (gl st) else 0 in
      emit (EvWork "fullbatt_vchk_work" delay) st
    else st in
  Some st.

(** *** The first value of the reported capacity

    The lines of charger_manager_probe (4515 to 4530) that store the
    boot capacity of the gauge in cm->desc->cap as it is read, and set
    the thermal limit, the temperature and the two time stamps; the
    error code with which probe returns there, or 0. *)
Definition charger_manager_probe_cap (st : machine) : Z * machine :=
  let '(ret, boot_cap, st) := get_boot_cap st in
  if neqz ret then (ret, st) else
  let st := on_desc (set_cap boot_cap) st in
  let st := on_desc (set_thm_adjust_cur (- EINVAL)) st in
  let '(ret, t, st) := cm_get_battery_temperature_by_psy st in
  if neqz ret then (ret, st) else
  let st := on_desc (set_temperature t) st in
  let st := on_desc (set_update_capacity_time (boottime_s (hw st))) st in
  (0, on_desc (set_last_query_time (boottime_s (hw st))) st).

End Driver.

(** ** Runs of the driver *)

(** The clock of the world set to [t] seconds since boot. *)
Definition at_boottime (t : Z) (st : machine) : machine :=
  on_hw (fun w => {| calls := calls w; log := log w; ktime_ms := ktime_ms w;
                     boottime_s := t; jiffies := jiffies w |}) st.

(** The capacity-update work run once at each of the given times; the
    states after each run. *)
Fixpoint cm_batt_works_runs (bus : nat -> request -> response)
  (ocv2cap : list (Z * Z) -> Z -> Z) (times : list Z) (st : machine)
  : list machine :=
  match times with
  | [] => []
  | t :: rest =>
    let st' := cm_batt_works bus ocv2cap (at_boottime t st) in
    st' :: cm_batt_works_runs bus ocv2cap rest st'
  end.

(** The longest time since boot, in seconds, for which
    (flush_time / cap_one_time) * 10 cannot leave the range of an int. *)
Definition UPTIME_MAX : Z := 214748364.

(** The times are in ascending order, start at [prev] or later and stay
    below UPTIME_MAX. *)
Fixpoint clock_ok (prev : Z) (times : list Z) : Prop :=
  match times with
  | [] => True
  | t :: rest => prev <= t <= UPTIME_MAX /\ clock_ok t rest
  end.

(** Two per-mille values round to different whole percents. *)
Definition percent_differs (a b : Z) : bool :=
  negb (DIV_ROUND_CLOSEST a 10 =? DIV_ROUND_CLOSEST b 10).

(** The number of change notifications one capacity update emits when the
    filtered value is [new] and the reported one was [old]. *)
Definition changes_emitted (new old : Z) : nat :=
  if negb (new =? old) && percent_differs new old then 1%nat else 0%nat.

(** ** The fast-charge handshake *)

(** The four steps of the handshake of cm_fast_charge_enable_check, in the
    order of the source. *)
Definition handshake_steps (bus : nat -> request -> response)
  : list (machine -> Z * machine) :=
  [ cm_set_main_charger_current bus CM_FAST_CHARGE_ENABLE_CMD;
    cm_set_second_charger_current bus;
    cm_adjust_fast_charge_voltage bus CM_FAST_CHARGE_VOLTAGE_9V;
    cm_enable_second_charger bus true ].

(** Steps run one after the other up to the first that returns an error:
    its return code and the state it left, or 0 and the state after the
    last step. *)
Fixpoint run_steps (steps : list (machine -> Z * machine)) (st : machine)
  : Z * machine :=
  match steps with
  | [] => (0, st)
  | step :: rest =>
    let '(ret, st) := step st in
    if neqz ret then (ret, st) else run_steps rest st
  end.

(** The requests of a handshake in which every step succeeds: the primary
    charger commanded to fast charge, the secondary charger, when there is
    one, given its current, the fast charger raised to 9 V, the secondary
    charger enabled. *)
Definition handshake_requests (d : charger_desc) : list request :=
  let main := hd EmptyString (psy_charger_stat d) in
  let fast := hd EmptyString (psy_fast_charger_stat d) in
  [ReqLookup main;
   ReqSet main POWER_SUPPLY_PROP_STATUS CM_FAST_CHARGE_ENABLE_CMD]
  ++ match nth_error (psy_charger_stat d) 1 with
     | Some second =>
       [ReqLookup second;
        ReqSet second POWER_SUPPLY_PROP_STATUS CM_FAST_CHARGE_ENABLE_CMD]
     | None => []
     end
  ++ [ReqLookup fast;
      ReqSet fast POWER_SUPPLY_PROP_VOLTAGE_MAX CM_FAST_CHARGE_VOLTAGE_9V]
  ++ match nth_error (psy_charger_stat d) 1 with
     | Some second =>
       [ReqLookup second; ReqSet second POWER_SUPPLY_PROP_STATUS 1]
     | None => []
     end.

(** ** Runs of the JEITA monitor and of suspend and resume *)

(** One tick of the JEITA monitor at battery temperature [t], which
    cm_batt_works has stored in the description. *)
Definition jeita_tick (bus : nat -> request -> response) (fuel : nat)
  (t : Z) (st : machine) : option machine :=
  let? (_, st) :=
    cm_manager_jeita_current_monitor bus fuel (on_desc (set_temperature t) st) in
  Some st.

(** The zone in force (last_jeita_status) after each tick of a run. *)
Fixpoint jeita_run (bus : nat -> request -> response) (fuel : nat)
  (temps : list Z) (st : machine) : option (list Z) :=
  match temps with
  | [] => Some []
  | t :: rest =>
    let? st := jeita_tick bus fuel t st in
    let? zones := jeita_run bus fuel rest st in
    Some (last_jeita_status (gl st) :: zones)
  end.

(** The messages handed to kobject_uevent, oldest first. *)
Fixpoint uevents (l : list event) : list string :=
  match l with
  | [] => []
  | EvUevent msg :: rest => msg :: uevents rest
  | _ :: rest => uevents rest
  end.

(** The events of a suspended period, then the resume. *)
Definition suspend_resume (bus : nat -> request -> response)
  (ocv2cap : list (Z * Z) -> Z -> Z) (jiffies_to_msecs : Z -> Z)
  (fuel : nat) (events : list string) (st : machine) : option machine :=
  let st := on_gl (set_cm_suspended true) st in
  let st := fold_left (fun s ev => uevent_notify (Some ev) s) events st in
  cm_suspend_complete bus ocv2cap jiffies_to_msecs fuel st.

(** ** A board for the examples *)

(** The four rows of a JEITA table: thresholds at 0, 15, 45 and 55 degrees
    in tenths of a degree. *)
Definition board_jeita : list charger_jeita_table :=
  [ {| temp := 0; recovery_temp := 30;
       current_ua := 500000; term_volt := 4200000 |};
    {| temp := 150; recovery_temp := 180;
       current_ua := 1000000; term_volt := 4350000 |};
    {| temp := 450; recovery_temp := 420;
       current_ua := 1500000; term_volt := 4350000 |};
    {| temp := 550; recovery_temp := 520;
       current_ua := 700000; term_volt := 4100000 |} ].

(** The description of the board; whether a battery is assumed and whether
    fast charge is wanted are left open. *)
Definition board_desc_with (present : cm_battery_present) (fast : bool)
  : charger_desc := {|
  psy_charger_stat := ["chg0"; "chg1"];
  psy_fast_charger_stat := ["fchg"];
  psy_fuel_gauge := "fg";
  battery_present := present;
  fullbatt_vchkdrop_ms := 30000; fullbatt_vchkdrop_uV := 50000;
  fullbatt_uV := 4350000; fullbatt_uA := 150000; first_fullbatt_uA := 300000;
  fullbatt_soc := 0; fullbatt_full_capacity := 0;
  shutdown_voltage := 3200000; trickle_time_out := 1500; cap_one_time := 30;
  wdt_interval := 0; temp_min := 0; temp_max := 500; temp_diff := 50;
  measure_battery_temp := true;
  charging_max_duration_ms := 0; discharging_max_duration_ms := 0;
  normal_charge_voltage_max := 6500000; normal_charge_voltage_drop := 700000;
  fast_charge_voltage_max := 10500000; fast_charge_voltage_drop := 700000;
  jeita_tab_size := 4; jeita_tab_array := fun _ => board_jeita;
  externally_control := [false]; cap_table := [];
  charge_voltage_max := 6500000; charge_voltage_drop := 700000;
  jeita_tab := board_jeita; jeita_disabled := false;
  temperature := 250; thm_adjust_cur := - EINVAL; charger_type := 0;
  cap := 500; trickle_time := 0; trickle_start_time := 0;
  update_capacity_time := 0; last_query_time := 0; charger_status := 0;
  force_set_full := false; first_trigger_cnt := 0; trigger_cnt := 0;
  low_temp_trigger_cnt := 0; uvlo_trigger_cnt := 0;
  is_fast_charge := fast; enable_fast_charge := false;
  fast_charge_enable_count := 0; fast_charge_disable_count := 0 |}.

Definition board_desc : charger_desc :=
  board_desc_with CM_BATTERY_PRESENT false.

Definition board_cm : charger_manager := {|
  emergency_stop := CM_EVENT_UNKNOWN; charger_enabled := false;
  charging_status := 0; charging_start_time := 0; charging_end_time := 0;
  fullbatt_vchk_jiffies_at := 0; tzd_batt := false;
  track := {| cap_tracking := false; state := CAP_TRACK_INIT; start_cap := 0;
              start_clbcnt := 0; start_time := 0; end_vol := 0;
              end_cur := 0 |} |}.

Definition board_statics : statics := {|
  cm_suspended := false; cm_timer_set := false; cm_suspend_duration_ms := 0;
  allow_charger_enable := false; is_charger_mode := false;
  env_str := EmptyString; env_str_save := EmptyString;
  jeita_status := 0; last_jeita_status := -1;
  temp_up_trigger := 0; temp_down_trigger := 0;
  is_normal := true; last_fuel_cap := CM_CAP_MAGIC_NUM; retry_cnt := 5 |}.

Definition board_world : world :=
  {| calls := 0; log := []; ktime_ms := 1000; boottime_s := 100;
     jiffies := 0 |}.

Definition board : machine :=
  {| cm := board_cm; desc := board_desc; gl := board_statics;
     hw := board_world |}.

(** A supply that is found and answers [v] without error. *)
Definition answer (v : Z) : response :=
  {| r_found := true; r_ret := 0; r_val := v; r_val2 := 0 |}.

(** A bus on which every supply is found and every request succeeds: the
    cable is in, the battery at [uV] microvolt and [uA] microampere, the
    gauge at [soc] per mille. *)
Definition plugged_bus (uV uA soc : Z) (n : nat) (rq : request) : response :=
  match rq with
  | ReqGet _ POWER_SUPPLY_PROP_ONLINE => answer 1
  | ReqGet _ POWER_SUPPLY_PROP_STATUS => answer POWER_SUPPLY_STATUS_CHARGING
  | ReqGet _ POWER_SUPPLY_PROP_HEALTH => answer POWER_SUPPLY_HEALTH_GOOD
  | ReqGet _ POWER_SUPPLY_PROP_VOLTAGE_AVG => answer uV
  | ReqGet _ POWER_SUPPLY_PROP_VOLTAGE_OCV => answer uV
  | ReqGet _ POWER_SUPPLY_PROP_CURRENT_AVG => answer uA
  | ReqGet _ POWER_SUPPLY_PROP_CAPACITY => answer soc
  | ReqGet _ POWER_SUPPLY_PROP_TEMP => answer 250
  | ReqGet _ POWER_SUPPLY_PROP_CONSTANT_CHARGE_VOLTAGE => answer 5000000
  | _ => answer 0
  end.

(** The same with the cable out. *)
Definition unplugged_bus (uV uA soc : Z) (n : nat) (rq : request) : response :=
  match rq with
  | ReqGet _ POWER_SUPPLY_PROP_ONLINE => answer 0
  | ReqGet _ POWER_SUPPLY_PROP_STATUS => answer POWER_SUPPLY_STATUS_DISCHARGING
  | _ => plugged_bus uV uA soc n rq
  end.

(** The board with fast charge wanted and the voltage condition met on the
    check before. *)
Definition fast_board : machine :=
  on_desc (set_fast_charge_enable_count 1)
    {| cm := board_cm; desc := board_desc_with CM_BATTERY_PRESENT true;
       gl := board_statics; hw := board_world |}.



(** The board told that there is no battery. *)
Definition no_battery_board : machine :=
  {| cm := board_cm; desc := board_desc_with CM_NO_BATTERY false;
     gl := board_statics; hw := board_world |}.

(** The board after the message "Charging" has been delivered. *)
Definition charging_board : machine := on_gl (set_env_str "Charging") board.

(** A plugged bus on which the battery current is [uA1] during the first
    five requests and [uA2] afterwards. *)
Definition tapering_bus (uV uA1 uA2 : Z) (n : nat) (rq : request) : response :=
  match rq with
  | ReqGet _ POWER_SUPPLY_PROP_CURRENT_AVG =>
    answer (if Nat.ltb n 5 then uA1 else uA2)
  | _ => plugged_bus uV uA1 0 n rq
  end.


(** A bus on which the tracker file opens and holds the words [w0] and
    [w1], and the gauge reports a design capacity of 3000 mAh. *)
Definition track_bus (w0 w1 : Z) (n : nat) (rq : request) : response :=
  match rq with
  | ReqRead => {| r_found := true; r_ret := 8; r_val := w0; r_val2 := w1 |}
  | ReqGet _ POWER_SUPPLY_PROP_ENERGY_FULL_DESIGN => answer 3000000
  | _ => answer 0
  end.

(** The state in which is_full_charged judges its readings, or [st] when
    it does not come to that. *)
Definition reads_state (bus : nat -> request -> response) (st : machine)
  : machine :=
  match is_full_charged_reads bus st with
  | Some (_, _, s) => s
  | None => st
  end.

(** The plugged bus of the examples: 3.8 V, 0.5 A into the battery, the
    gauge at 51 percent. *)
Definition steady_bus : nat -> request -> response :=
  plugged_bus 3800000 500000 510.

(** The gauge at 60 percent. *)
Definition sixty_bus : nat -> request -> response :=
  plugged_bus 3800000 500000 600.

(** The battery at 4.36 V, the current staying at 200 mA. *)
Definition soft_full_bus : nat -> request -> response :=
  tapering_bus 4360000 200000 200000.

(** The battery at 4.36 V, the current going from 200 mA to 100 mA. *)
Definition taper_bus : nat -> request -> response :=
  tapering_bus 4360000 200000 100000.

(** The cable out. *)
Definition battery_bus : nat -> request -> response :=
  unplugged_bus 3800000 (-200000) 500.

(** An open-circuit-voltage table that is never consulted in the
    examples. *)
Definition no_ocv_table (table : list (Z * Z)) (ocv : Z) : Z := 0.

(** The tracker file of a 3000 mAh battery with its second word
    overwritten by 0. *)
Definition torn_file_bus : nat -> request -> response :=
  track_bus (fst (track_encode 3000)) 0.

(** ** What a function leaves alone *)

(** The number of change notifications (power_supply_changed) in a log. *)
Fixpoint n_changed (l : list event) : nat :=
  match l with
  | [] => O
  | EvChanged :: rest => S (n_changed rest)
  | _ :: rest => n_changed rest
  end.

(** [log_ext st st']: the log of [st'] continues the log of [st]. *)
Definition log_ext (st st' : machine) : Prop :=
  exists l, log (hw st') = log (hw st) ++ l.

(** [only_bus st st']: between [st] and [st'] the driver has talked to the
    bus and done nothing else. *)
Record only_bus (st st' : machine) : Prop := {
  ob_cm : cm st' = cm st;
  ob_desc : desc st' = desc st;
  ob_gl : gl st' = gl st;
  ob_ktime : ktime_ms (hw st') = ktime_ms (hw st);
  ob_boot : boottime_s (hw st') = boottime_s (hw st);
  ob_jiffies : jiffies (hw st') = jiffies (hw st);
  ob_changed : n_changed (log (hw st')) = n_changed (log (hw st));
  ob_log : log_ext st st'
}.

(** What every step of cm_batt_works before the switch leaves alone. *)
Record keeps_cap (st st' : machine) : Prop := {
  kc_cap : cap (desc st') = cap (desc st);
  kc_one : cap_one_time (desc st') = cap_one_time (desc st);
  kc_upd : update_capacity_time (desc st') = update_capacity_time (desc st);
  kc_names : psy_charger_stat (desc st') = psy_charger_stat (desc st);
  kc_boot : boottime_s (hw st') = boottime_s (hw st);
  kc_changed : n_changed (log (hw st')) = n_changed (log (hw st))
}.

(** Fast charge is off and the enable counter is at 0: the state of the
    calls nested in the handshake. *)
Definition fast_idle (st : machine) : Prop :=
  enable_fast_charge (desc st) = false
  /\ fast_charge_enable_count (desc st) = 0.

(** ** Conditions of the recursion in cm_fast_charge_disable *)

(** Every supply is found and every request returns 0. *)
Definition never_fails (bus : nat -> request -> response) : Prop :=
  forall n rq, r_found (bus n rq) = true /\ r_ret (bus n rq) = 0.

(** Fast charge is enabled, a charger is named, nothing is latched in
    charging_status, and
    the battery, at 60 degrees, is above the last row of every JEITA
    table of the board. *)
Definition hot_while_fast (st : machine) : Prop :=
  enable_fast_charge (desc st) = true
  /\ psy_charger_stat (desc st) <> []
  /\ charging_status (cm st) = 0
  /\ jeita_disabled (desc st) = false
  /\ jeita_tab_size (desc st) = 4
  /\ (forall k, jeita_tab_array (desc st) k = board_jeita)
  /\ temperature (desc st) = 600.

(** ** The uevent buffer across a run *)

(** The message that waits for the resume path, as a running driver sees
    it: none while suspended. *)
Definition pending (g : statics) : string :=
  if cm_suspended g then EmptyString else env_str_save g.

(** Neither the suspend flag nor the waiting message has changed. *)
Record keeps_buffer (st st' : machine) : Prop := {
  kb_suspended : cm_suspended (gl st') = cm_suspended (gl st);
  kb_pending : pending (gl st') = pending (gl st)
}.

(** ** Emergency stop *)

(** An emergency stop is latched and the chargers are off. *)
Definition stopped (st : machine) : Prop :=
  is_event (emergency_stop (cm st)) = true
  /\ charger_enabled (cm st) = false.
(** ** Queries *)

(** A lookup of a supply or the reading of one of its properties. *)
Definition is_query (e : event) : bool :=
  match e with
  | EvBus (ReqLookup _) | EvBus (ReqGet _ _) => true
  | _ => false
  end.

(** Between [st] and [st'] the driver has looked supplies up and read
    properties, and has done nothing else to the outside. *)
Definition only_queries (st st' : machine) : Prop :=
  exists l, log (hw st') = log (hw st) ++ l /\ forallb is_query l = true.

(** ** Power-off requests *)

(** The number of orderly_poweroff calls in a log. *)
Fixpoint n_poweroff (l : list event) : nat :=
  match l with
  | [] => O
  | EvPoweroff :: rest => S (n_poweroff rest)
  | _ :: rest => n_poweroff rest
  end.

(** ** Queued work *)

(** The number of times a work item has been queued in a log. *)
Fixpoint n_work (l : list event) : nat :=
  match l with
  | [] => O
  | EvWork _ _ :: rest => S (n_work rest)
  | _ :: rest => n_work rest
  end.

(** ** External power *)

(** What one charger answers to the question of is_ext_pwr_online, on a
    bus whose answers do not depend on the moment: it is found, and its
    ONLINE property reads without error as a non-zero value. *)
Definition answers_online (bus : nat -> request -> response) (n : string)
  : bool :=
  r_found (bus O (ReqLookup n))
  && (wrap32 (r_ret (bus O (ReqGet n POWER_SUPPLY_PROP_ONLINE))) =? 0)
  && neqz (wrap32 (r_val (bus O (ReqGet n POWER_SUPPLY_PROP_ONLINE)))).

(** What one charger answers to the questions of is_charging, on a bus
    whose answers do not depend on the moment: it is found, online, and
    its status reads without error as none of full, discharging and not
    charging. *)
Definition answers_charging (bus : nat -> request -> response) (n : string)
  : bool :=
  let online := bus O (ReqGet n POWER_SUPPLY_PROP_ONLINE) in
  let status := bus O (ReqGet n POWER_SUPPLY_PROP_STATUS) in
  r_found (bus O (ReqLookup n))
  && (wrap32 (r_ret online) =? 0)
  && neqz (wrap32 (r_val online))
  && (wrap32 (r_ret status) =? 0)
  && negb ((wrap32 (r_val status) =? POWER_SUPPLY_STATUS_FULL)
           || (wrap32 (r_val status) =? POWER_SUPPLY_STATUS_DISCHARGING)
           || (wrap32 (r_val status) =? POWER_SUPPLY_STATUS_NOT_CHARGING)).

(** ** The answers to a handshake *)

(** A supply that is looked up is found; any other request returns 0. *)
Definition accepted (r : response) (rq : request) : bool :=
  match rq with
  | ReqLookup _ => r_found r
  | _ => wrap32 (r_ret r) =? 0
  end.

(** The error code with which the driver gives up on a request that is
    not accepted. *)
Definition refusal (r : response) (rq : request) : Z :=
  match rq with
  | ReqLookup _ => - ENODEV
  | _ => wrap32 (r_ret r)
  end.

(** The requests [rqs], sent one after the other from call [n] on, are
    all accepted. *)
Fixpoint all_accepted (bus : nat -> request -> response) (n : nat)
  (rqs : list request) : bool :=
  match rqs with
  | [] => true
  | rq :: rest => accepted (bus n rq) rq && all_accepted bus (S n) rest
  end.

(** The requests that command the primary charger back to normal
    charging, sent from call [n] on: the lookup and, when the charger is
    found, the command. *)
Definition rollback_requests (bus : nat -> request -> response) (n : nat)
  (d : charger_desc) : list request :=
  let main := hd EmptyString (psy_charger_stat d) in
  ReqLookup main
  :: (if r_found (bus n (ReqLookup main))
      then [ReqSet main POWER_SUPPLY_PROP_STATUS CM_FAST_CHARGE_DISABLE_CMD]
      else []).

(** ** More boards and buses for the examples *)

(** The board under an overheat stop, the chargers off. *)
Definition stopped_board : machine :=
  on_cm (set_emergency_stop CM_EVENT_BATT_OVERHEAT) board.

(** The board with the zone from 15 to 45 degrees in force and both
    trigger counters at 0. *)
Definition zone_board : machine :=
  on_gl (set_last_jeita_status STATUS_T1_TO_T2)
    (on_gl (set_jeita_status STATUS_T1_TO_T2) board).

(** The board reporting 100 percent, the full criterion counted once. *)
Definition topped_board : machine :=
  on_desc (set_cap 1000) (on_desc (set_trigger_cnt 1) board).

(** The battery at 4.36 V taking 100 mA, the gauge at 100 percent. *)
Definition topped_bus : nat -> request -> response :=
  plugged_bus 4360000 100000 1000.

(** The battery at 3.1 V, below the shutdown voltage of the board. *)
Definition low_bus : nat -> request -> response :=
  unplugged_bus 3100000 (-200000) 10.

(** A bus on which the tracker file never opens. *)
Definition no_file_bus (n : nat) (rq : request) : response :=
  match rq with
  | ReqOpen => {| r_found := false; r_ret := 0; r_val := 0; r_val2 := 0 |}
  | _ => steady_bus n rq
  end.

(** The board with fast charge wanted and both of its counters at 0. *)
Definition fresh_fast_board : machine :=
  on_desc (set_fast_charge_enable_count 0) fast_board.

(** The state, if any, that a function taking fuel returns. *)
Definition state_after {A : Type} (r : option (A * machine)) (st : machine)
  : machine :=
  match r with
  | Some (_, s) => s
  | None => st
  end.

Definition set_temp_max : Z -> charger_desc -> charger_desc :=
  ltac:(setter eta_desc temp_max).
Definition set_temp_diff : Z -> charger_desc -> charger_desc :=
  ltac:(setter eta_desc temp_diff).

(** The board under an overheat stop at 47 degrees: below temp_max, above
    temp_max - temp_diff. *)
Definition warm_stopped_board : machine :=
  on_desc (set_temperature 470) stopped_board.

(** A board whose limits cross under a stop: temp_min 0, temp_max 8 and
    temp_diff 5 degrees, so that the lower limit is 5 and the upper one 3
    degrees; the battery is at 4 degrees. *)
Definition crossed_board : machine :=
  on_desc (set_temperature 40)
    (on_desc (set_temp_diff 50) (on_desc (set_temp_max 80) stopped_board)).

(** The board with its chargers enabled. *)
Definition enabled_board : machine := on_cm (set_charger_enabled true) board.

(** The steady bus with a gauge that reports a boot capacity of 1005 per
    mille. *)
Definition overfull_bus (n : nat) (rq : request) : response :=
  match rq with
  | ReqGet _ POWER_SUPPLY_PROP_CAPACITY_LEVEL => answer 1005
  | _ => steady_bus n rq
  end.

(** The board as probe leaves it with that gauge. *)
Definition overfull_board : machine :=
  snd (charger_manager_probe_cap overfull_bus board).

(** The steady bus on which the secondary charger refuses its fast-charge
    current with -EIO. *)
Definition stalled_bus (n : nat) (rq : request) : response :=
  match rq with
  | ReqSet "chg1" POWER_SUPPLY_PROP_STATUS 2 =>
    {| r_found := true; r_ret := -5; r_val := 0; r_val2 := 0 |}
  | _ => steady_bus n rq
  end.

(** The board with a learned capacity to be written to the file. *)
Definition done_board : machine := on_track (set_state CAP_TRACK_DONE) board.

(** A bus on which the tracker file holds the words of 3000 mAh. *)
Definition kept_file_bus : nat -> request -> response :=
  track_bus (Z.lxor 3000 CM_TRACK_CAPACITY_KEY0)
            (Z.lxor 3000 CM_TRACK_CAPACITY_KEY1).

(** * Properties *)

(** ** Machine integers *)

Lemma wrap32_id (z : Z) : INT_MIN <= z <= INT_MAX -> wrap32 z = z.
Proof.
  unfold INT_MIN, INT_MAX, wrap32. intros H.
  rewrite Z.mod_small by lia. lia.
Qed.

Lemma wrap32_range (z : Z) : INT_MIN <= wrap32 z <= INT_MAX.
Proof.
  unfold INT_MIN, INT_MAX, wrap32.
  pose proof (Z.mod_pos_bound (z + 2147483648) 4294967296 ltac:(lia)). lia.
Qed.

Ltac unwrap :=
  unfold add32, sub32, mul32, div32, in_int, INT_MIN, INT_MAX in *;
  repeat match goal with
         | |- context [wrap32 ?z] =>
             rewrite (wrap32_id z) by (unfold INT_MIN, INT_MAX; lia)
         | H : context [wrap32 ?z] |- _ =>
             rewrite (wrap32_id z) in H by (unfold INT_MIN, INT_MAX; lia)
         end.

(** Reduction of projections applied to updated records. *)
Ltac rsimpl :=
  cbn [temp recovery_temp current_ua term_volt psy_charger_stat
       psy_fast_charger_stat psy_fuel_gauge battery_present
       fullbatt_vchkdrop_ms fullbatt_vchkdrop_uV fullbatt_uV fullbatt_uA
       first_fullbatt_uA fullbatt_soc fullbatt_full_capacity shutdown_voltage
       trickle_time_out cap_one_time wdt_interval temp_min temp_max temp_diff
       measure_battery_temp charging_max_duration_ms
       discharging_max_duration_ms normal_charge_voltage_max
       normal_charge_voltage_drop fast_charge_voltage_max
       fast_charge_voltage_drop jeita_tab_size jeita_tab_array
       externally_control cap_table charge_voltage_max charge_voltage_drop
       jeita_tab jeita_disabled temperature thm_adjust_cur charger_type cap
       trickle_time trickle_start_time update_capacity_time last_query_time
       charger_status force_set_full first_trigger_cnt trigger_cnt
       low_temp_trigger_cnt uvlo_trigger_cnt is_fast_charge
       enable_fast_charge fast_charge_enable_count fast_charge_disable_count
       cap_tracking state start_cap start_clbcnt start_time end_vol end_cur
       emergency_stop charger_enabled charging_status charging_start_time
       charging_end_time fullbatt_vchk_jiffies_at tzd_batt track cm_suspended
       cm_timer_set cm_suspend_duration_ms allow_charger_enable
       is_charger_mode env_str env_str_save jeita_status last_jeita_status
       temp_up_trigger temp_down_trigger is_normal last_fuel_cap retry_cnt
       r_found r_ret r_val r_val2 calls log ktime_ms boottime_s jiffies cm
       desc gl hw set_charge_voltage_max set_charge_voltage_drop
       set_jeita_tab set_temperature set_thm_adjust_cur set_cap
       set_trickle_time set_trickle_start_time set_update_capacity_time
       set_last_query_time set_charger_status set_force_set_full
       set_first_trigger_cnt set_trigger_cnt set_low_temp_trigger_cnt
       set_uvlo_trigger_cnt set_enable_fast_charge
       set_fast_charge_enable_count set_fast_charge_disable_count set_state
       set_start_cap set_start_clbcnt set_start_time set_emergency_stop
       set_charger_enabled set_charging_status set_charging_start_time
       set_charging_end_time set_fullbatt_vchk_jiffies_at set_track
       set_cm_suspended set_cm_timer_set set_cm_suspend_duration_ms
       set_env_str set_env_str_save set_jeita_status set_last_jeita_status
       set_temp_up_trigger set_temp_down_trigger set_is_normal
       set_last_fuel_cap set_retry_cnt on_cm on_desc on_gl on_hw on_track
       emit fst snd negb andb orb neqz] in *.

(** ** What a function leaves alone *)


Lemma n_changed_app (l1 l2 : list event) :
  n_changed (l1 ++ l2) = (n_changed l1 + n_changed l2)%nat.
Proof.
  induction l1 as [|e l1 IH]; simpl; auto.
  destruct e; simpl; rewrite IH; auto.
Qed.


Lemma log_ext_refl (st : machine) : log_ext st st.
Proof. exists []. now rewrite app_nil_r. Qed.

Lemma log_ext_trans (a b c : machine) : log_ext a b -> log_ext b c -> log_ext a c.
Proof.
  intros [l1 E1] [l2 E2]. exists (l1 ++ l2). now rewrite E2, E1, app_assoc.
Qed.


Lemma only_bus_refl (st : machine) : only_bus st st.
Proof. constructor; auto using log_ext_refl. Qed.

Lemma only_bus_trans (a b c : machine) :
  only_bus a b -> only_bus b c -> only_bus a c.
Proof.
  intros [] []. constructor; try congruence. eapply log_ext_trans; eauto.
Qed.

Create HintDb frame.
Create HintDb capframe.

(** Case analysis on the calls and tests of the hypotheses that unfold a
    function of the driver. *)
Ltac split_in H :=
  match type of H with
  | context [match ?c with _ => _ end] =>
      first [ is_var c; destruct c
            | let E := fresh "E" in destruct c eqn:E ];
      cbv beta iota in H
  end.

Ltac explode :=
  repeat match goal with
  | H : _ = _ |- _ => split_in H
  | H : (_, _) = (_, _) |- _ => inversion H; subst; clear H
  | H : Some _ = Some _ |- _ => inversion H; subst; clear H
  | H : None = Some _ |- _ => discriminate H
  | H : Some _ = None |- _ => discriminate H
  end.

Ltac note_frames :=
  repeat match goal with
  | E : ?g ?s0 = (_, ?s1) |- _ =>
      lazymatch goal with
      | _ : only_bus s0 s1 |- _ => fail
      | _ => idtac
      end;
      assert (only_bus s0 s1) by (eauto 2 with frame)
  end.

Ltac chain :=
  solve [ apply only_bus_refl
        | assumption
        | match goal with
          | F : only_bus ?a ?b |- only_bus ?a ?c =>
              apply (only_bus_trans a b c F); chain
          end ].

Ltac frame_solve H :=
  cbv beta iota zeta in H;
  repeat split_in H;
  try discriminate;
  lazymatch type of H with
  | (_, _) = (_, _) => inversion H; subst; clear H
  | _ => idtac
  end;
  note_frames; chain.

Section Properties.

Variable bus : nat -> request -> response.
Variable power_supply_ocv2cap_simple : list (Z * Z) -> Z -> Z.

(** *** The sensors only talk to the bus *)

Lemma ask_only_bus rq st r st' : ask bus rq st = (r, st') -> only_bus st st'.
Proof.
  unfold ask. intros E. inversion E; subst; clear E.
  constructor; try reflexivity; simpl.
  - rewrite n_changed_app. simpl. lia.
  - now exists [EvBus rq].
Qed.
#[local] Hint Resolve ask_only_bus : frame.

Lemma power_supply_get_by_name_only_bus n st r st' :
  power_supply_get_by_name bus n st = (r, st') -> only_bus st st'.
Proof. unfold power_supply_get_by_name. intros H. frame_solve H. Qed.
#[local] Hint Resolve power_supply_get_by_name_only_bus : frame.

Lemma power_supply_get_property_only_bus n p st r st' :
  power_supply_get_property bus n p st = (r, st') -> only_bus st st'.
Proof. unfold power_supply_get_property. intros H. frame_solve H. Qed.
#[local] Hint Resolve power_supply_get_property_only_bus : frame.

Lemma power_supply_set_property_only_bus n p v st r st' :
  power_supply_set_property bus n p v st = (r, st') -> only_bus st st'.
Proof. unfold power_supply_set_property. intros H. frame_solve H. Qed.
#[local] Hint Resolve power_supply_set_property_only_bus : frame.

Lemma fuel_gauge_get_only_bus p st r st' :
  fuel_gauge_get bus p st = (r, st') -> only_bus st st'.
Proof. unfold fuel_gauge_get. intros H. frame_solve H. Qed.
#[local] Hint Resolve fuel_gauge_get_only_bus : frame.

Lemma fuel_gauge_set_only_bus p v st r st' :
  fuel_gauge_set bus p v st = (r, st') -> only_bus st st'.
Proof. unfold fuel_gauge_set. intros H. frame_solve H. Qed.
#[local] Hint Resolve fuel_gauge_set_only_bus : frame.

Lemma charger_stat_any_only_bus p names : forall st r st',
  charger_stat_any bus p names st = (r, st') -> only_bus st st'.
Proof.
  induction names as [|n rest IH]; intros st r st' H;
    cbn [charger_stat_any] in H; frame_solve H.
Qed.
#[local] Hint Resolve charger_stat_any_only_bus : frame.

Lemma charger_stat_first_only_bus p names : forall ret st r st',
  charger_stat_first bus p names ret st = (r, st') -> only_bus st st'.
Proof.
  induction names as [|n rest IH]; intros ret st r st' H;
    cbn [charger_stat_first] in H; frame_solve H.
Qed.
#[local] Hint Resolve charger_stat_first_only_bus : frame.

Lemma is_batt_present_only_bus st r st' :
  is_batt_present bus st = (r, st') -> only_bus st st'.
Proof. unfold is_batt_present. intros H. frame_solve H. Qed.
#[local] Hint Resolve is_batt_present_only_bus : frame.

Lemma is_ext_pwr_online_only_bus st r st' :
  is_ext_pwr_online bus st = (r, st') -> only_bus st st'.
Proof. unfold is_ext_pwr_online. intros H. frame_solve H. Qed.
#[local] Hint Resolve is_ext_pwr_online_only_bus : frame.

Lemma is_charging_loop_only_bus names : forall st r st',
  is_charging_loop bus names st = (r, st') -> only_bus st st'.
Proof.
  induction names as [|n rest IH]; intros st r st' H;
    cbn [is_charging_loop] in H; frame_solve H.
Qed.
#[local] Hint Resolve is_charging_loop_only_bus : frame.

Lemma is_charging_only_bus st r st' :
  is_charging bus st = (r, st') -> only_bus st st'.
Proof. unfold is_charging. intros H. frame_solve H. Qed.
#[local] Hint Resolve is_charging_only_bus : frame.

Lemma cm_primary_charger_enable_only_bus e st r st' :
  cm_primary_charger_enable bus e st = (r, st') -> only_bus st st'.
Proof. unfold cm_primary_charger_enable. intros H. frame_solve H. Qed.
#[local] Hint Resolve cm_primary_charger_enable_only_bus : frame.

Lemma cm_set_main_charger_current_only_bus c st r st' :
  cm_set_main_charger_current bus c st = (r, st') -> only_bus st st'.
Proof. unfold cm_set_main_charger_current. intros H. frame_solve H. Qed.
#[local] Hint Resolve cm_set_main_charger_current_only_bus : frame.

Lemma cm_set_second_charger_current_only_bus st r st' :
  cm_set_second_charger_current bus st = (r, st') -> only_bus st st'.
Proof. unfold cm_set_second_charger_current. intros H. frame_solve H. Qed.
#[local] Hint Resolve cm_set_second_charger_current_only_bus : frame.

Lemma cm_enable_second_charger_only_bus e st r st' :
  cm_enable_second_charger bus e st = (r, st') -> only_bus st st'.
Proof. unfold cm_enable_second_charger. intros H. frame_solve H. Qed.
#[local] Hint Resolve cm_enable_second_charger_only_bus : frame.

Lemma cm_adjust_fast_charge_voltage_only_bus c st r st' :
  cm_adjust_fast_charge_voltage bus c st = (r, st') -> only_bus st st'.
Proof. unfold cm_adjust_fast_charge_voltage. intros H. frame_solve H. Qed.
#[local] Hint Resolve cm_adjust_fast_charge_voltage_only_bus : frame.

Lemma try_charger_enable_by_psy_loop_only_bus names : forall e st r st',
  try_charger_enable_by_psy_loop bus names e st = (r, st') -> only_bus st st'.
Proof.
  induction names as [|n rest IH]; intros e st r st' H;
    cbn [try_charger_enable_by_psy_loop] in H; frame_solve H.
Qed.
#[local] Hint Resolve try_charger_enable_by_psy_loop_only_bus : frame.

Lemma try_charger_enable_by_psy_only_bus e st r st' :
  try_charger_enable_by_psy bus e st = (r, st') -> only_bus st st'.
Proof. unfold try_charger_enable_by_psy. intros H. frame_solve H. Qed.
#[local] Hint Resolve try_charger_enable_by_psy_only_bus : frame.

Lemma adjust_current_loop_only_bus names : forall tv tc ret st r st',
  adjust_current_loop bus names tv tc ret st = (r, st') -> only_bus st st'.
Proof.
  induction names as [|n rest IH]; intros tv tc ret st r st' H;
    cbn [adjust_current_loop] in H; frame_solve H.
Qed.
#[local] Hint Resolve adjust_current_loop_only_bus : frame.

(** *** Thermal status *)

Lemma cm_get_battery_temperature_only_bus st r st' :
  cm_get_battery_temperature bus st = (r, st') -> only_bus st st'.
Proof. unfold cm_get_battery_temperature. intros H. frame_solve H. Qed.
#[local] Hint Resolve cm_get_battery_temperature_only_bus : frame.

(** C4, amended.  When the temperature is read, the thermal status
    check returns Overheat exactly when it exceeds the upper limit, and
    Cold exactly when it does not exceed the upper limit and is below
    the lower limit: the overheat test comes first.  The limits are
    temp_max - temp_diff and temp_min + temp_diff while an emergency
    stop is latched and temp_max and temp_min otherwise.  Cold is
    therefore returned exactly below the lower limit as long as the
    lower limit is not above the upper one.  (The limits are assumed
    not to leave the range of an int.) *)
Theorem cm_check_thermal_status_limits (st st1 : machine) (t : Z) :
  cm_get_battery_temperature bus st = (0, t, st1) ->
  in_int (temp_max (desc st) - temp_diff (desc st)) ->
  in_int (temp_min (desc st) + temp_diff (desc st)) ->
  let latched := is_event (emergency_stop (cm st)) in
  let upper := if latched then temp_max (desc st) - temp_diff (desc st)
               else temp_max (desc st) in
  let lower := if latched then temp_min (desc st) + temp_diff (desc st)
               else temp_min (desc st) in
  (fst (cm_check_thermal_status bus st) = CM_EVENT_BATT_OVERHEAT <-> upper < t)
  /\ (fst (cm_check_thermal_status bus st) = CM_EVENT_BATT_COLD
      <-> t <= upper /\ t < lower)
  /\ (lower <= upper ->
      (fst (cm_check_thermal_status bus st) = CM_EVENT_BATT_COLD
       <-> t < lower)).
Proof.
  intros Hread Hup Hlo latched upper lower.
  assert (Hcm : cm st1 = cm st /\ desc st1 = desc st).
  { apply cm_get_battery_temperature_only_bus in Hread.
    destruct Hread; auto. }
  destruct Hcm as [Hcm Hdesc].
  unfold cm_check_thermal_status. rewrite Hread. cbn [neqz Z.eqb negb].
  unfold upper_limit, lower_limit. rewrite Hcm, Hdesc.
  subst upper lower latched. unfold in_int in *.
  destruct (is_event (emergency_stop (cm st))); unwrap;
    repeat match goal with
           | |- context [?a <? ?b] => destruct (Z.ltb_spec a b)
           end; cbn [fst];
    repeat match goal with
           | |- _ /\ _ => split
           | |- _ <-> _ => split
           | |- _ -> _ => intro
           end;
    first [discriminate | reflexivity | lia].
Qed.

(** *** Capacity tracker *)

Lemma lxor_u32 (a b : Z) :
  0 <= a < 4294967296 -> 0 <= b < 4294967296 ->
  0 <= Z.lxor a b < 4294967296.
Proof.
  intros Ha Hb. split; [apply Z.lxor_nonneg; lia|].
  assert (Hn : 0 <= Z.lxor a b) by (apply Z.lxor_nonneg; lia).
  destruct (Z.eq_dec (Z.lxor a b) 0) as [->|Hz]; [lia|].
  change 4294967296 with (2 ^ 32). apply Z.log2_lt_pow2; [lia|].
  pose proof (Z.log2_lxor a b ltac:(lia) ltac:(lia)) as Hl.
  assert (Z.log2 a < 32).
  { destruct (Z.eq_dec a 0) as [->|]; [cbn; lia|].
    apply Z.log2_lt_pow2; [lia|]. change (2 ^ 32) with 4294967296. lia. }
  assert (Z.log2 b < 32).
  { destruct (Z.eq_dec b 0) as [->|]; [cbn; lia|].
    apply Z.log2_lt_pow2; [lia|]. change (2 ^ 32) with 4294967296. lia. }
  lia.
Qed.

Lemma lxor_cancel (a k : Z) : Z.lxor (Z.lxor a k) k = a.
Proof. now rewrite Z.lxor_assoc, Z.lxor_nilpotent, Z.lxor_0_r. Qed.

Lemma wrapu32_id (z : Z) : 0 <= z < 4294967296 -> wrapu32 z = z.
Proof. intros H. unfold wrapu32. now rewrite Z.mod_small. Qed.

(** C9.  What the tracker writes it reads back.  For a 32-bit capacity
    c, the two words of the tracker file are c xor K0 and c xor K1 and
    decode to c twice.  A tracker in state Done whose gauge reports the
    design capacity c writes exactly these two words; a tracker at
    start-up that reads them decodes c and, when c is within half of
    the design capacity the gauge reports then, writes c to the gauge
    as the new design capacity; and when the second word read is not
    c xor K1 the check fails, nothing is written to the gauge and the
    tracker is Idle. *)
Theorem track_file_round_trip (c : Z) :
  0 <= c < 4294967296 ->
  let w0 := Z.lxor c CM_TRACK_CAPACITY_KEY0 in
  let w1 := Z.lxor c CM_TRACK_CAPACITY_KEY1 in
  track_encode c = (w0, w1)
  /\ track_decode w0 w1 = (c, c)
  /\ (forall st : machine,
        let n := calls (hw st) in
        let fg := psy_fuel_gauge (desc st) in
        let design := bus (S (S n))
                        (ReqGet fg POWER_SUPPLY_PROP_ENERGY_FULL_DESIGN) in
        state (track (cm st)) = CAP_TRACK_DONE ->
        r_found (bus n ReqOpen) = true ->
        r_found (bus (S n) (ReqLookup fg)) = true ->
        wrap32 (r_ret design) = 0 ->
        wrapu32 (wrap32 (r_val design)) / 1000 = c ->
        let st' := cm_track_capacity_work bus st in
        state (track (cm st')) = CAP_TRACK_IDLE
        /\ desc st' = desc st
        /\ log (hw st') =
           log (hw st) ++
             [EvBus ReqOpen; EvBus (ReqLookup fg);
              EvBus (ReqGet fg POWER_SUPPLY_PROP_ENERGY_FULL_DESIGN);
              EvBus (ReqWrite w0 w1)])
  /\ (forall (st : machine) (r1 : Z),
        let n := calls (hw st) in
        let fg := psy_fuel_gauge (desc st) in
        let design := bus (S (S n))
                        (ReqGet fg POWER_SUPPLY_PROP_ENERGY_FULL_DESIGN) in
        let total := wrapu32 (wrap32 (r_val design)) / 1000 in
        state (track (cm st)) = CAP_TRACK_INIT ->
        r_found (bus n ReqOpen) = true ->
        r_found (bus (S n) (ReqLookup fg)) = true ->
        wrap32 (r_ret design) = 0 ->
        0 <= r_ret (bus (S (S (S n))) ReqRead) ->
        r_val (bus (S (S (S n))) ReqRead) = w0 ->
        r_val2 (bus (S (S (S n))) ReqRead) = r1 ->
        0 <= r1 < 4294967296 ->
        let st' := cm_track_capacity_work bus st in
        state (track (cm st')) = CAP_TRACK_IDLE
        /\ desc st' = desc st
        /\ log (hw st') =
           log (hw st) ++
             [EvBus ReqOpen; EvBus (ReqLookup fg);
              EvBus (ReqGet fg POWER_SUPPLY_PROP_ENERGY_FULL_DESIGN);
              EvBus ReqRead]
             ++ (if (r1 =? w1)
                    && (wrapu32 (abs32 (total - c)) <? total / 2)
                 then
                   EvBus (ReqLookup fg)
                   :: (if r_found (bus (S (S (S (S n)))) (ReqLookup fg))
                       then [EvBus (ReqSet fg
                                      POWER_SUPPLY_PROP_ENERGY_FULL_DESIGN
                                      (mul32 (wrap32 c) 1000))]
                       else [])
                 else [])).
Proof.
  intros Hc w0 w1.
  assert (Hk0 : 0 <= CM_TRACK_CAPACITY_KEY0 < 4294967296)
    by (unfold CM_TRACK_CAPACITY_KEY0; lia).
  assert (Hk1 : 0 <= CM_TRACK_CAPACITY_KEY1 < 4294967296)
    by (unfold CM_TRACK_CAPACITY_KEY1; lia).
  split; [reflexivity|]. split.
  { unfold track_decode, w0, w1. now rewrite !lxor_cancel. }
  split.
  - intros st n fg design Hdone Hopen Hfg Hret Hcap st'.
    subst st' n fg design.
    unfold cm_track_capacity_work, get_batt_total_cap,
      fuel_gauge_get, power_supply_get_by_name, power_supply_get_property,
      ask.
    rsimpl. rewrite Hopen. rsimpl. rewrite Hfg. rsimpl.
    rewrite Hret. repeat (progress change (neqz 0) with false; rsimpl).
    rewrite Hdone, Hcap. unfold track_encode. rsimpl.
    rewrite <- !app_assoc. cbn [app]. auto.
  - intros st r1 n fg design total Hinit Hopen Hfg Hret Hrd Hv Hv2 Hr1 st'.
    subst st' n fg design total.
    unfold cm_track_capacity_work, get_batt_total_cap,
      fuel_gauge_get, power_supply_get_by_name, power_supply_get_property,
      ask.
    rsimpl. rewrite Hopen. rsimpl. rewrite Hfg. rsimpl.
    rewrite Hret. repeat (progress change (neqz 0) with false; rsimpl).
    rewrite Hinit. rsimpl.
    destruct (Z.ltb_spec (r_ret (bus (S (S (S (calls (hw st))))) ReqRead)) 0);
      [lia|].
    rewrite Hv, Hv2. unfold track_decode, w0.
    rewrite (wrapu32_id (Z.lxor c _)) by (apply lxor_u32; lia).
    rewrite (wrapu32_id r1) by lia.
    rewrite lxor_cancel.
    assert (Heq : (c =? Z.lxor r1 CM_TRACK_CAPACITY_KEY1) = (r1 =? w1)).
    { unfold w1.
      destruct (Z.eqb_spec c (Z.lxor r1 CM_TRACK_CAPACITY_KEY1)) as [E|E],
               (Z.eqb_spec r1 (Z.lxor c CM_TRACK_CAPACITY_KEY1)) as [F|F];
        try reflexivity; exfalso.
      - apply F. rewrite E. now rewrite lxor_cancel.
      - apply E. rewrite F. now rewrite lxor_cancel. }
    rewrite Heq.
    destruct (r1 =? w1); cbn [negb andb]; rsimpl;
      [|rewrite <- ?app_assoc; cbn [app]; rewrite ?app_nil_r; auto].
    match goal with
    | |- context [if ?a <? ?b then _ else _] => destruct (a <? b)
    end; rsimpl;
      [|rewrite <- ?app_assoc; cbn [app]; rewrite ?app_nil_r; auto].
    unfold set_batt_total_cap, fuel_gauge_set, power_supply_get_by_name,
      power_supply_set_property, ask. rsimpl.
    destruct (r_found (bus (S (S (S (S (calls (hw st))))))
                         (ReqLookup (psy_fuel_gauge (desc st)))));
      rsimpl; rewrite <- !app_assoc; cbn [app]; auto.
Qed.

(** *** Published capacity *)

Lemma charger_get_property_CAPACITY_spec (st : machine) :
  let '(present, s1) := is_batt_present bus st in
  let v := DIV_ROUND_CLOSEST (cap (desc st)) 10 in
  fst (charger_get_property_CAPACITY bus st) =
    (0, if present
        then (if 100 <? v then 100 else if v <? 0 then 0 else v)
        else 100).
Proof.
  unfold charger_get_property_CAPACITY.
  destruct (is_batt_present bus st) as [present s1] eqn:E.
  apply is_batt_present_only_bus in E. destruct E as [_ Hd _ _ _ _ _ _].
  destruct present; cbn [negb fst]; rewrite ?Hd; reflexivity.
Qed.

(** *** Capacity filter *)


Lemma keeps_cap_refl st : keeps_cap st st.
Proof. constructor; reflexivity. Qed.

Lemma keeps_cap_trans a b c : keeps_cap a b -> keeps_cap b c -> keeps_cap a c.
Proof. intros [] []. constructor; congruence. Qed.

Lemma only_bus_keeps_cap st st' : only_bus st st' -> keeps_cap st st'.
Proof. intros []. constructor; congruence. Qed.

(** Goals about fields of a state built by field updates from states
    related by [only_bus] or [keeps_cap]. *)
Ltac norm_fields :=
  rsimpl;
  repeat (first [ rewrite n_changed_app
                | match goal with
                  | H : ?l = _ |- context [?l] => rewrite H
                  end ];
          rsimpl; cbn [n_changed andb]).

Ltac fields :=
  repeat match goal with
         | F : only_bus _ _ |- _ => destruct F
         | F : keeps_cap _ _ |- _ => destruct F
         end;
  try constructor; norm_fields;
  first [ reflexivity | congruence | lia ].

Ltac note_caps :=
  note_frames;
  repeat match goal with
  | E : ?g ?s0 = (_, ?s1) |- _ =>
      lazymatch goal with
      | _ : only_bus s0 s1 |- _ => fail
      | _ : keeps_cap s0 s1 |- _ => fail
      | _ => idtac
      end;
      assert (keeps_cap s0 s1) by (eauto 2 with capframe)
  end.

Lemma is_full_charged_keeps_cap st r st' :
  is_full_charged bus st = (r, st') -> keeps_cap st st'.
Proof.
  unfold is_full_charged, is_full_charged_vi. intros H. cbv beta iota zeta in H.
  explode; note_frames; fields.
Qed.
#[local] Hint Resolve is_full_charged_keeps_cap : capframe.

Lemma cm_batt_works_low_temp_keeps_cap t v f st f' st' :
  cm_batt_works_low_temp t v f st = (f', st') -> keeps_cap st st'.
Proof.
  unfold cm_batt_works_low_temp. intros H. cbv beta iota zeta in H.
  explode; fields.
Qed.
#[local] Hint Resolve cm_batt_works_low_temp_keeps_cap : capframe.

Lemma clamp_fuel_cap_range f : 0 <= clamp_fuel_cap f <= 1000.
Proof.
  unfold clamp_fuel_cap, CM_CAP_FULL_PERCENT.
  destruct (Z.ltb_spec 1000 f); [lia|]. destruct (Z.ltb_spec f 0); lia.
Qed.

Lemma cm_batt_works_chg_sts_keeps_cap st r st' :
  cm_batt_works_chg_sts bus st = (r, st') -> keeps_cap st st'.
Proof.
  unfold cm_batt_works_chg_sts. intros H. cbv beta iota zeta in H.
  explode; note_caps; fields.
Qed.
#[local] Hint Resolve cm_batt_works_chg_sts_keeps_cap : capframe.

Lemma cm_batt_works_trickle_keeps_cap c t st :
  keeps_cap st (cm_batt_works_trickle c t st).
Proof.
  unfold cm_batt_works_trickle.
  destruct (c =? POWER_SUPPLY_STATUS_CHARGING);
    [destruct (986 <=? cap (desc st))|]; fields.
Qed.

Lemma cm_batt_works_status_keeps_cap c st r st' :
  cm_batt_works_status bus c st = (r, st') ->
  keeps_cap st st' /\ charger_status (desc st') = r.
Proof.
  unfold cm_batt_works_status. intros H. cbv beta iota zeta in H.
  explode; note_caps; split; fields.
Qed.

(** Case analysis on integer comparisons, unwrapping the 32-bit
    arithmetic whose operands the context bounds. *)
Ltac no_match t :=
  lazymatch t with
  | context [match _ with _ => _ end] => fail
  | _ => idtac
  end.

Ltac zcases :=
  repeat (unwrap;
          match goal with
          | |- context [?a <=? ?b] =>
              no_match a; no_match b; destruct (Z.leb_spec a b)
          | |- context [?a <? ?b] =>
              no_match a; no_match b; destruct (Z.ltb_spec a b)
          | |- context [?a =? ?b] =>
              no_match a; no_match b; destruct (Z.eqb_spec a b)
          end;
          cbn [andb orb negb fst snd]);
  unwrap.

Lemma cm_batt_works_charging_range fc ua period flush st :
  0 <= fc <= 1000 -> 0 <= cap (desc st) <= 1000 ->
  0 <= flush_step flush (desc st) ->
  let '(fc', st') := cm_batt_works_charging fc ua period flush st in
  0 <= fc' <= 1000
  /\ cap (desc st') = cap (desc st)
  /\ charger_status (desc st') = charger_status (desc st)
  /\ update_capacity_time (desc st') = update_capacity_time (desc st)
  /\ n_changed (log (hw st')) = n_changed (log (hw st)).
Proof.
  intros Hfc Hcap Hx. unfold cm_batt_works_charging, CM_CAP_FULL_PERCENT.
  rsimpl. generalize dependent (flush_step flush (desc st)). intros X Hx.
  zcases; rsimpl; repeat split; try reflexivity; lia.
Qed.

Lemma cm_batt_works_discharging_range fc period flush st :
  0 <= fc <= 1000 -> 0 <= cap (desc st) <= 1000 ->
  0 <= flush_step flush (desc st) ->
  let '(fc', st') := cm_batt_works_discharging fc period flush st in
  0 <= fc' <= 1000
  /\ cap (desc st') = cap (desc st)
  /\ charger_status (desc st') = charger_status (desc st)
  /\ update_capacity_time (desc st') = update_capacity_time (desc st)
  /\ n_changed (log (hw st')) = n_changed (log (hw st)).
Proof.
  intros Hfc Hcap Hx.
  unfold cm_batt_works_discharging, CM_HCAP_THRESHOLD, CM_HCAP_DECREASE_STEP,
    CM_CAP_ONE_PERCENT.
  rsimpl. generalize dependent (flush_step flush (desc st)). intros X Hx.
  generalize (sub32 (last_fuel_cap (gl st)) fc). intros L.
  zcases; rsimpl; repeat split; try reflexivity; lia.
Qed.

Lemma cm_batt_works_full_range fc ocv ua now st :
  0 <= fc <= 1000 -> 0 <= cap (desc st) <= 1000 ->
  let '(fc', st') := cm_batt_works_full bus fc ocv ua now st in
  0 <= fc' <= 1000
  /\ cap (desc st') = cap (desc st)
  /\ charger_status (desc st') = charger_status (desc st)
  /\ update_capacity_time (desc st') = wrap32 now
  /\ n_changed (log (hw st')) = n_changed (log (hw st)).
Proof.
  intros Hfc Hcap. unfold cm_batt_works_full, CM_CAP_FULL_PERCENT.
  match goal with
  | |- context [is_ext_pwr_online bus ?s] =>
      destruct (is_ext_pwr_online bus s) as [online s1] eqn:E
  end.
  apply is_ext_pwr_online_only_bus in E. destruct E as [_ Hd _ _ _ _ Hn _].
  assert (Hc1 : cap (desc s1) = cap (desc st))
    by (rewrite Hd; destruct ((_ <? _) && _); reflexivity).
  assert (Hs1 : charger_status (desc s1) = charger_status (desc st))
    by (rewrite Hd; destruct ((_ <? _) && _); reflexivity).
  assert (Hu1 : update_capacity_time (desc s1) = wrap32 now)
    by (rewrite Hd; destruct ((_ <? _) && _); reflexivity).
  assert (Hn1 : n_changed (log (hw s1)) = n_changed (log (hw st)))
    by (rewrite Hn; destruct ((_ <? _) && _); reflexivity).
  destruct online; cbn [negb]; rewrite ?Hc1.
  - zcases; repeat split; auto; lia.
  - repeat split; auto; lia.
Qed.

Lemma cm_batt_works_switch_range status fc ocv ua period flush now st :
  0 <= fc <= 1000 -> 0 <= cap (desc st) <= 1000 ->
  0 <= flush_step flush (desc st) ->
  let '(fc', st') :=
    cm_batt_works_switch bus status fc ocv ua period flush now st in
  0 <= fc' <= 1000
  /\ cap (desc st') = cap (desc st)
  /\ charger_status (desc st') = charger_status (desc st)
  /\ (update_capacity_time (desc st') = update_capacity_time (desc st)
      \/ update_capacity_time (desc st') = wrap32 now)
  /\ n_changed (log (hw st')) = n_changed (log (hw st)).
Proof.
  intros Hfc Hcap Hx. unfold cm_batt_works_switch.
  destruct (status =? POWER_SUPPLY_STATUS_CHARGING).
  { pose proof (cm_batt_works_charging_range fc ua period flush st Hfc Hcap Hx).
    destruct (cm_batt_works_charging _ _ _ _ _). intuition. }
  destruct ((status =? POWER_SUPPLY_STATUS_NOT_CHARGING)
            || (status =? POWER_SUPPLY_STATUS_DISCHARGING)).
  { pose proof (cm_batt_works_discharging_range fc period flush st Hfc Hcap Hx).
    destruct (cm_batt_works_discharging _ _ _ _). intuition. }
  destruct (status =? POWER_SUPPLY_STATUS_FULL).
  { pose proof (cm_batt_works_full_range fc ocv ua now st Hfc Hcap).
    destruct (cm_batt_works_full _ _ _ _ _ _). intuition. }
  intuition.
Qed.

Lemma cm_track_capacity_monitor_desc st :
  let st' := cm_track_capacity_monitor bus power_supply_ocv2cap_simple st in
  desc st' = desc st
  /\ n_changed (log (hw st')) = n_changed (log (hw st)).
Proof.
  cbv zeta.
  remember (cm_track_capacity_monitor bus power_supply_ocv2cap_simple st)
    as st' eqn:H.
  symmetry in H. unfold cm_track_capacity_monitor in H.
  cbv beta iota zeta in H.
  explode; subst; note_frames; split; fields.
Qed.

Lemma cm_batt_works_publish_cap fc uV now st :
  let st' := cm_batt_works_publish bus power_supply_ocv2cap_simple
               fc uV now st in
  cap (desc st') = fc
  /\ cap_one_time (desc st') = cap_one_time (desc st)
  /\ charger_status (desc st') = charger_status (desc st)
  /\ (update_capacity_time (desc st') = update_capacity_time (desc st)
      \/ update_capacity_time (desc st') = wrap32 now)
  /\ n_changed (log (hw st')) =
     (n_changed (log (hw st)) + changes_emitted fc (cap (desc st)))%nat.
Proof.
  cbv zeta. unfold cm_batt_works_publish, changes_emitted, percent_differs.
  match goal with
  | |- context [cm_track_capacity_monitor _ _ ?s] =>
      destruct (cm_track_capacity_monitor_desc s) as [Hd Hn];
      rewrite Hd, Hn; clear Hd Hn;
      remember s as s' eqn:H
  end.
  cbv beta iota zeta in H. explode; subst; note_frames; rsimpl.
  all: repeat match goal with F : only_bus _ _ |- _ => destruct F end;
    norm_fields;
    try match goal with
        | E : negb (_ =? _) = false |- _ =>
            apply negb_false_iff, Z.eqb_eq in E
        end;
    repeat split;
    first [ reflexivity | congruence | lia
          | left; reflexivity | right; reflexivity ].
Qed.

Lemma cm_batt_works_switch_frame status fc ocv ua period flush now st :
  let '(fc', st') :=
    cm_batt_works_switch bus status fc ocv ua period flush now st in
  cap (desc st') = cap (desc st)
  /\ cap_one_time (desc st') = cap_one_time (desc st)
  /\ charger_status (desc st') = charger_status (desc st)
  /\ (update_capacity_time (desc st') = update_capacity_time (desc st)
      \/ update_capacity_time (desc st') = wrap32 now)
  /\ n_changed (log (hw st')) = n_changed (log (hw st)).
Proof.
  destruct (cm_batt_works_switch _ _ _ _ _ _ _ _ _) as [fc' st'] eqn:H.
  unfold cm_batt_works_switch, cm_batt_works_charging,
    cm_batt_works_discharging, cm_batt_works_full in H.
  cbv beta iota zeta in H. explode; note_frames.
  all: repeat match goal with F : only_bus _ _ |- _ => destruct F end;
    norm_fields; repeat split;
    first [ reflexivity | congruence | left; reflexivity
          | right; reflexivity ].
Qed.

Lemma flush_step_nonneg now d :
  0 < cap_one_time d -> 0 <= update_capacity_time d <= now ->
  now <= UPTIME_MAX ->
  0 <= flush_step (wrap32 (now - update_capacity_time d)) d.
Proof.
  unfold UPTIME_MAX, flush_step, mul32, div32. intros Ho Hu Hn.
  rewrite (wrap32_id (now - _)) by (unfold in_int, INT_MIN, INT_MAX; lia).
  assert (0 <= Z.quot (now - update_capacity_time d) (cap_one_time d)
          <= now - update_capacity_time d).
  { rewrite Z.quot_div_nonneg by lia. split.
    - apply Z.div_pos; lia.
    - apply Z.div_le_upper_bound; nia. }
  rewrite (wrap32_id (Z.quot _ _)) by (unfold in_int, INT_MIN, INT_MAX; lia).
  rewrite wrap32_id by (unfold in_int, INT_MIN, INT_MAX; lia). lia.
Qed.

(** The blocks of cm_batt_works_filter, one after the other, each with
    what it leaves alone. *)
Ltac filter_blocks st :=
  cbv zeta; unfold cm_batt_works_filter;
  let E1 := fresh "E1" in
  let s2 := fresh "s2" in
  let f1 := fresh "f1" in
  destruct (cm_batt_works_low_temp _ _ _ _) as [f1 s2] eqn:E1;
  apply cm_batt_works_low_temp_keeps_cap in E1;
  match goal with
  | |- context [cm_batt_works_chg_sts bus ?s] =>
      let K3 := fresh "K3" in
      let E2 := fresh "E2" in
      let c := fresh "c" in
      let s3 := fresh "s3" in
      let s4 := fresh "s4" in
      assert (K3 : keeps_cap s2 s)
        by (destruct (last_fuel_cap (gl s2) =? CM_CAP_MAGIC_NUM); fields);
      destruct (cm_batt_works_chg_sts bus s) as [c s4] eqn:E2;
      generalize dependent s; intros s3 K3 E2;
      apply cm_batt_works_chg_sts_keeps_cap in E2;
      let K5 := fresh "K5" in
      let s5 := fresh "s5" in
      let Hs5 := fresh "Hs5" in
      pose proof (cm_batt_works_trickle_keeps_cap c (boottime_s (hw s3)) s4)
        as K5;
      remember (cm_batt_works_trickle c (boottime_s (hw s3)) s4)
        as s5 eqn:Hs5;
      clear Hs5;
      match goal with
      | |- context [cm_batt_works_status bus c ?s'] =>
          let K6 := fresh "K6" in
          let E3 := fresh "E3" in
          let s6 := fresh "s6" in
          let s7 := fresh "s7" in
          let status := fresh "status" in
          let K7 := fresh "K7" in
          let K := fresh "K" in
          let Hb := fresh "Hb" in
          assert (K6 : keeps_cap s5 s') by fields;
          destruct (cm_batt_works_status bus c s') as [status s7] eqn:E3;
          generalize dependent s'; intros s6 K6 E3;
          apply cm_batt_works_status_keeps_cap in E3;
          destruct E3 as [K7 _];
          assert (K : keeps_cap st s7)
            by (eapply keeps_cap_trans; [|exact K7];
                eapply keeps_cap_trans; [|exact K6];
                eapply keeps_cap_trans; [|exact K5];
                eapply keeps_cap_trans; [|exact E2];
                eapply keeps_cap_trans; [|exact K3];
                eapply keeps_cap_trans; [|exact E1]; fields);
          assert (Hb : boottime_s (hw s3) = boottime_s (hw st))
            by (destruct E1, K3; rsimpl; congruence);
          assert (update_capacity_time (desc s5)
                  = update_capacity_time (desc st))
            by (destruct E1, K3, E2, K5; rsimpl; congruence);
          rewrite Hb in *
      end
  end.

(** The filter, whatever the readings: what it reports is what it
    computed, and it notifies exactly when that rounds to another
    percent. *)
Lemma cm_batt_works_filter_frame uV ocv ua soc tmp st :
  let st' := cm_batt_works_filter bus power_supply_ocv2cap_simple
               uV ocv ua soc tmp st in
  cap_one_time (desc st') = cap_one_time (desc st)
  /\ (update_capacity_time (desc st') = update_capacity_time (desc st)
      \/ update_capacity_time (desc st') = wrap32 (boottime_s (hw st)))
  /\ n_changed (log (hw st')) =
     (n_changed (log (hw st))
      + changes_emitted (cap (desc st')) (cap (desc st)))%nat.
Proof.
  filter_blocks st.
  match goal with
  | |- context [cm_batt_works_switch bus ?a ?b ?c ?d ?e ?f ?g ?s] =>
      pose proof (cm_batt_works_switch_frame a b c d e f g s) as K8;
      destruct (cm_batt_works_switch bus a b c d e f g s) as [fc s8]
  end.
  destruct K8 as (Hc8 & Ho8 & _ & Hu8 & Hn8).
  match goal with
  | |- context [cm_batt_works_publish _ _ ?a ?b ?c ?s] =>
      destruct (cm_batt_works_publish_cap a b c s)
        as (Hc9 & Ho9 & _ & Hu9 & Hn9)
  end.
  destruct K.
  repeat split.
  - congruence.
  - destruct Hu9 as [Hu9|Hu9]; [destruct Hu8 as [Hu8|Hu8]|];
      [left|right|right]; congruence.
  - rewrite Hn9, Hn8, Hc9, Hc8. congruence.
Qed.

(** The filter keeps the reported value within 0 .. 1000 when the clock
    has not gone back and the time of one percent is positive. *)
Lemma cm_batt_works_filter_range uV ocv ua soc tmp st :
  0 <= cap (desc st) <= 1000 ->
  0 < cap_one_time (desc st) ->
  0 <= update_capacity_time (desc st) <= boottime_s (hw st) ->
  boottime_s (hw st) <= UPTIME_MAX ->
  0 <= cap (desc (cm_batt_works_filter bus power_supply_ocv2cap_simple
                    uV ocv ua soc tmp st)) <= 1000.
Proof.
  intros Hcap Hone Hupd Hnow.
  filter_blocks st.
  match goal with
  | |- context [cm_batt_works_switch bus ?a ?b ?c ?d ?e ?f ?g ?s] =>
      pose proof (cm_batt_works_switch_range a b c d e f g s) as K8;
      destruct (cm_batt_works_switch bus a b c d e f g s) as [fc s8]
  end.
  match goal with
  | |- context [cm_batt_works_publish _ _ ?a ?b ?c ?s] =>
      destruct (cm_batt_works_publish_cap a b c s) as (Hc9 & _)
  end.
  rewrite Hc9. apply K8.
  - apply clamp_fuel_cap_range.
  - destruct K. lia.
  - match goal with H : update_capacity_time _ = _ |- _ => rewrite H end.
    destruct K.
    pose proof (flush_step_nonneg (boottime_s (hw st)) (desc st) Hone Hupd Hnow)
      as F.
    unfold flush_step in *. congruence.
Qed.

(** cm_batt_works either returns early, the description untouched, or
    runs the filter on the state its reads left. *)
Lemma cm_batt_works_cases st :
  only_bus st (cm_batt_works bus power_supply_ocv2cap_simple st)
  \/ exists uV ocv ua soc tmp s,
       only_bus st s
       /\ cm_batt_works bus power_supply_ocv2cap_simple st
          = cm_batt_works_filter bus power_supply_ocv2cap_simple
              uV ocv ua soc tmp s.
Proof.
  unfold cm_batt_works, get_batt_uV, get_batt_ocv, get_batt_uA,
    get_batt_cap, get_charger_current, get_charger_limit_current,
    get_charger_input_current, get_charge_voltage,
    cm_get_battery_temperature_by_psy.
  repeat match goal with
         | |- context [fuel_gauge_get bus ?p ?s] =>
             let E := fresh "E" in
             destruct (fuel_gauge_get bus p s) as [[? ?] ?] eqn:E;
             apply fuel_gauge_get_only_bus in E
         | |- context [charger_stat_first bus ?p ?l ?r ?s] =>
             let E := fresh "E" in
             destruct (charger_stat_first bus p l r s) as [[? ?] ?] eqn:E;
             apply charger_stat_first_only_bus in E
         end.
  repeat match goal with
         | H1 : only_bus st ?a, H2 : only_bus ?a ?b |- _ =>
             lazymatch goal with
             | _ : only_bus st b |- _ => fail
             | _ => pose proof (only_bus_trans _ _ _ H1 H2)
             end
         end.
  repeat match goal with
         | |- context [if neqz ?z then _ else _] =>
             destruct (neqz z); [left; assumption|]
         end.
  right. do 6 eexists. split; [|reflexivity]. assumption.
Qed.

Lemma cm_batt_works_step st :
  0 <= cap (desc st) <= 1000 ->
  0 < cap_one_time (desc st) ->
  0 <= update_capacity_time (desc st) <= boottime_s (hw st) ->
  boottime_s (hw st) <= UPTIME_MAX ->
  let st' := cm_batt_works bus power_supply_ocv2cap_simple st in
  0 <= cap (desc st') <= 1000
  /\ cap_one_time (desc st') = cap_one_time (desc st)
  /\ 0 <= update_capacity_time (desc st') <= boottime_s (hw st).
Proof.
  intros Hcap Hone Hupd Hnow. cbv zeta.
  destruct (cm_batt_works_cases st)
    as [F | (uV & ocv & ua & soc & tmp & s & F & ->)].
  - destruct F as [_ Hd _ _ _ _ _ _]. rewrite Hd. lia.
  - destruct F as [_ Hd _ _ Hb _ _ _].
    pose proof (cm_batt_works_filter_range uV ocv ua soc tmp s) as R.
    pose proof (cm_batt_works_filter_frame uV ocv ua soc tmp s) as Fr.
    cbv zeta in Fr. rewrite Hd, Hb in *.
    destruct Fr as (Ho & Hu & _).
    rewrite wrap32_id in Hu by (unfold INT_MIN, INT_MAX, UPTIME_MAX in *; lia).
    split; [apply R; assumption|]. split; [assumption|].
    destruct Hu as [-> | ->]; lia.
Qed.

Lemma cm_batt_works_runs_range times :
  forall prev st,
    0 <= cap (desc st) <= 1000 ->
    0 < cap_one_time (desc st) ->
    0 <= update_capacity_time (desc st) <= prev ->
    clock_ok prev times ->
    Forall (fun s => 0 <= cap (desc s) <= 1000)
      (cm_batt_works_runs bus power_supply_ocv2cap_simple times st).
Proof.
  induction times as [|t rest IH]; intros prev st Hcap Hone Hupd Hclk;
    cbn [cm_batt_works_runs]; [constructor|].
  destruct Hclk as [Ht Hrest].
  destruct (cm_batt_works_step (at_boottime t st)) as (Hc & Ho & Hu);
    unfold at_boottime; rsimpl; try lia.
  unfold at_boottime in *. rsimpl.
  constructor; [exact Hc|].
  apply (IH t); [exact Hc|lia|exact Hu|exact Hrest].
Qed.

(** C2, amended. Whatever the fuel gauge, the chargers and the
    thermometer answer, and whatever the times of the runs as long as
    the clock does not go back: when the reported capacity starts
    within 0 .. 1000 per mille and cap_one_time is positive, the
    reported capacity lies within 0 .. 1000 after every run of
    cm_batt_works.  The runs keep the range; they do not bring a value
    that starts outside back into it. *)
Theorem reported_capacity_in_range times st :
  0 <= cap (desc st) <= 1000 ->
  0 < cap_one_time (desc st) ->
  0 <= update_capacity_time (desc st) ->
  clock_ok (update_capacity_time (desc st)) times ->
  Forall (fun s => 0 <= cap (desc s) <= 1000)
    (cm_batt_works_runs bus power_supply_ocv2cap_simple times st).
Proof.
  intros Hcap Hone Hupd Hclk.
  apply (cm_batt_works_runs_range times (update_capacity_time (desc st)));
    auto; lia.
Qed.

Lemma changes_emitted_percent new old :
  changes_emitted new old = if percent_differs new old then 1%nat else 0%nat.
Proof.
  unfold changes_emitted, percent_differs.
  destruct (new =? old) eqn:E; cbn [negb andb]; [|reflexivity].
  apply Z.eqb_eq in E. subst. rewrite Z.eqb_refl. reflexivity.
Qed.

(** C7, amended. A run of cm_batt_works emits one change notification
    when the new reported value rounds to another whole percent than the
    previous one and none otherwise; the CAPACITY property is the
    reported per-mille value rounded to percent and clamped to 0 .. 100
    when a battery is present, and 100 when there is none. *)
Theorem capacity_notified_per_percent st :
  let st' := cm_batt_works bus power_supply_ocv2cap_simple st in
  n_changed (log (hw st')) =
    (n_changed (log (hw st))
     + if percent_differs (cap (desc st')) (cap (desc st))
       then 1 else 0)%nat
  /\ fst (charger_get_property_CAPACITY bus st) =
     (0, if fst (is_batt_present bus st)
         then (let v := DIV_ROUND_CLOSEST (cap (desc st)) 10 in
               if 100 <? v then 100 else if v <? 0 then 0 else v)
         else 100).
Proof.
  cbv zeta. split.
  - rewrite <- changes_emitted_percent.
    destruct (cm_batt_works_cases st)
      as [F | (uV & ocv & ua & soc & tmp & s & F & ->)].
    + destruct F as [_ Hd _ _ _ _ Hn _]. rewrite Hd, Hn.
      rewrite changes_emitted_percent. unfold percent_differs.
      rewrite Z.eqb_refl. cbn [negb]. lia.
    + destruct F as [_ Hd _ _ _ _ Hn _].
      pose proof (cm_batt_works_filter_frame uV ocv ua soc tmp s) as Fr.
      cbv zeta in Fr. destruct Fr as (_ & _ & Fr).
      rewrite Fr, Hd, Hn. reflexivity.
  - pose proof (charger_get_property_CAPACITY_spec st) as P.
    destruct (is_batt_present bus st) as [present s1]. cbn [fst].
    exact P.
Qed.



(** ** The full-battery detector *)

Lemma is_full_charged_reads_spec st uV uA s :
  is_full_charged_reads bus st = Some (uV, uA, s) ->
  only_bus st s
  /\ 0 < fullbatt_uA (desc st)
  /\ is_full_charged bus st = is_full_charged_vi bus uV uA s.
Proof.
  unfold is_full_charged_reads. intros H. cbv beta iota zeta in H.
  explode; note_frames.
  all: split; [chain|].
  all: split;
    [ repeat match goal with F : only_bus _ _ |- _ => destruct F end;
      match goal with
      | E : _ && (0 <? fullbatt_uA _) = true |- _ =>
          apply andb_prop in E; destruct E as [_ E];
          apply Z.ltb_lt in E; congruence
      end
    | unfold is_full_charged; cbv beta iota zeta;
      repeat match goal with
             | E : ?e = _ |- context [?e] => rewrite E; cbv beta iota zeta
             end;
      reflexivity ].
Qed.

(** The criterion in the soft-full band: the soft-full counter goes up,
    the full counter goes back to 0, nothing is asked of the bus. *)
Lemma is_full_charged_vi_soft uV uA st :
  fullbatt_uV (desc st) <= uV ->
  0 <= fullbatt_uA (desc st) < uA ->
  uA <= first_fullbatt_uA (desc st) ->
  0 <= first_trigger_cnt (desc st) < INT_MAX ->
  exists st',
    is_full_charged_vi bus uV uA st = (false, st')
    /\ first_trigger_cnt (desc st') = first_trigger_cnt (desc st) + 1
    /\ force_set_full (desc st') =
       (if 0 <? first_trigger_cnt (desc st) then true
        else force_set_full (desc st))
    /\ fullbatt_uV (desc st') = fullbatt_uV (desc st)
    /\ fullbatt_uA (desc st') = fullbatt_uA (desc st)
    /\ first_fullbatt_uA (desc st') = first_fullbatt_uA (desc st)
    /\ hw st' = hw st /\ cm st' = cm st.
Proof.
  intros HV HA HF HC. unfold is_full_charged_vi, add32, INT_MAX in *.
  rewrite wrap32_id by (unfold INT_MIN, INT_MAX; lia).
  replace (0 <? first_fullbatt_uA (desc st)) with true
    by (symmetry; apply Z.ltb_lt; lia).
  replace (fullbatt_uV (desc st) <=? uV) with true
    by (symmetry; apply Z.leb_le; lia).
  replace (fullbatt_uA (desc st) <? uA) with true
    by (symmetry; apply Z.ltb_lt; lia).
  replace (uA <=? first_fullbatt_uA (desc st)) with true
    by (symmetry; apply Z.leb_le; lia).
  replace (0 <=? uA) with true by (symmetry; apply Z.leb_le; lia).
  cbn [andb].
  destruct (1 <? first_trigger_cnt (desc st) + 1) eqn:E1;
    destruct (0 <? first_trigger_cnt (desc st)) eqn:E0;
    try (apply Z.ltb_lt in E1); try (apply Z.ltb_ge in E1);
    try (apply Z.ltb_lt in E0); try (apply Z.ltb_ge in E0); try lia.
  all: rsimpl.
  all: replace (uA <=? fullbatt_uA (desc st)) with false
      by (symmetry; apply Z.leb_gt; lia).
  all: rewrite andb_false_r; cbn [andb].
  all: eexists; split; [reflexivity|]; rsimpl; repeat split; reflexivity.
Qed.

(** C5, amended. When two consecutive evaluations of is_full_charged
    reach the voltage and current criterion with the voltage at
    fullbatt_uV or above and the current above fullbatt_uA and at most
    first_fullbatt_uA, force_set_full is true afterwards; both
    evaluations answer not full, ask nothing more of the bus after their
    readings, and leave the charger enabled as it was. *)
Theorem soft_full_after_two_evaluations st uV1 uA1 s1 uV2 uA2 s2 :
  is_full_charged_reads bus st = Some (uV1, uA1, s1) ->
  is_full_charged_reads bus (snd (is_full_charged bus st))
    = Some (uV2, uA2, s2) ->
  fullbatt_uV (desc st) <= uV1 ->
  fullbatt_uV (desc st) <= uV2 ->
  fullbatt_uA (desc st) < uA1 <= first_fullbatt_uA (desc st) ->
  fullbatt_uA (desc st) < uA2 <= first_fullbatt_uA (desc st) ->
  0 <= first_trigger_cnt (desc st) < INT_MAX - 1 ->
  let '(r1, m1) := is_full_charged bus st in
  let '(r2, m2) := is_full_charged bus m1 in
  force_set_full (desc m2) = true
  /\ r1 = false /\ r2 = false
  /\ log (hw m1) = log (hw s1) /\ log (hw m2) = log (hw s2)
  /\ charger_enabled (cm m2) = charger_enabled (cm st).
Proof.
  intros R1 R2 HV1 HV2 HA1 HA2 HC.
  destruct (is_full_charged_reads_spec _ _ _ _ R1) as (F1 & HP & Q1).
  rewrite Q1 in *.
  destruct F1 as [Fc Fd _ _ _ _ _ _].
  destruct (is_full_charged_vi_soft uV1 uA1 s1)
    as (m1 & V1 & C1 & S1 & TV & TA & TF & W1 & M1);
    rewrite ?Fd; unfold INT_MAX in *; try lia.
  rewrite V1 in *. cbn [snd] in R2.
  destruct (is_full_charged_reads_spec _ _ _ _ R2) as (F2 & _ & Q2).
  rewrite Q2.
  destruct F2 as [Gc Gd _ _ _ _ _ _].
  destruct (is_full_charged_vi_soft uV2 uA2 s2)
    as (m2 & V2 & C2 & S2 & _ & _ & _ & W2 & M2);
    rewrite ?Gd, ?TV, ?TA, ?TF, ?C1, ?Fd; unfold INT_MAX in *; try lia.
  rewrite V2.
  rewrite Gd, C1, Fd in S2.
  replace (0 <? first_trigger_cnt (desc st) + 1) with true in S2
    by (symmetry; apply Z.ltb_lt; lia).
  repeat split; try assumption; try congruence.
Qed.

(** ** Fast charge *)

Lemma cm_fast_charge_disable_off fuel st :
  enable_fast_charge (desc st) = false ->
  cm_fast_charge_disable bus (S fuel) st = Some (0, st).
Proof. intros H. cbn [cm_fast_charge_disable]. rewrite H. reflexivity. Qed.

Lemma cm_fast_charge_disable_check_off fuel st :
  enable_fast_charge (desc st) = false ->
  cm_fast_charge_disable_check bus (S fuel) st = Some (0, st).
Proof.
  intros H. cbn [cm_fast_charge_disable_check]. rewrite H. reflexivity.
Qed.


Lemma fast_idle_only_bus st st' :
  only_bus st st' -> fast_idle st -> fast_idle st'.
Proof. intros [_ Hd _ _ _ _ _ _]. unfold fast_idle. rewrite Hd. auto. Qed.

(** A nested enable check counts one voltage reading at most and leaves
    fast charge off. *)
Lemma cm_fast_charge_enable_check_idle fuel st :
  fast_idle st ->
  exists r st',
    cm_fast_charge_enable_check bus (S fuel) st = Some (r, st')
    /\ enable_fast_charge (desc st') = false
    /\ log_ext st st'.
Proof.
  intros [Hf Hc]. cbn [cm_fast_charge_enable_check].
  pose proof (log_ext_refl st) as L0.
  destruct (is_event _); [eauto|].
  destruct (psy_fast_charger_stat (desc st)); [eauto|].
  rewrite Hf, orb_false_r.
  destruct (negb _); [eauto|].
  destruct (get_batt_uV bus st) as [[r1 uV] s1] eqn:E1.
  apply fuel_gauge_get_only_bus in E1. destruct E1 as [_ Hd1 _ _ _ _ _ L1].
  destruct (neqz r1); [rewrite <- Hd1 in Hf; eauto|].
  destruct (get_batt_uA bus s1) as [[r2 uA] s2] eqn:E2.
  apply fuel_gauge_get_only_bus in E2. destruct E2 as [_ Hd2 _ _ _ _ _ L2].
  pose proof (log_ext_trans _ _ _ L1 L2) as L.
  rewrite <- Hd1, <- Hd2 in Hf, Hc.
  destruct (neqz r2); [eauto|].
  destruct (_ <? uV); rsimpl; rewrite ?Hc;
    (replace (_ <? CM_FAST_CHARGE_ENABLE_COUNT) with true by reflexivity);
    do 2 eexists; (split; [reflexivity|]); rsimpl;
    (split; [exact Hf|exact L]).
Qed.

Lemma try_fast_charger_enable_idle fuel enable st :
  fast_idle st ->
  exists r st',
    try_fast_charger_enable bus (S (S fuel)) enable st = Some (r, st')
    /\ enable_fast_charge (desc st') = false
    /\ log_ext st st'.
Proof.
  intros H. cbn [try_fast_charger_enable]. destruct enable.
  - destruct (cm_fast_charge_enable_check_idle fuel st H)
      as (r & st' & -> & Hf & L).
    destruct (neqz r); [eauto|].
    rewrite (cm_fast_charge_disable_check_off fuel st' Hf). cbn. eauto.
  - destruct H as [Hf _].
    rewrite (cm_fast_charge_disable_off fuel st Hf). cbn.
    eauto using log_ext_refl.
Qed.

(** The log of a state built by field updates on a state whose log
    continues the log of another. *)
Ltac log_tail :=
  unfold log_ext in *; rsimpl;
  repeat match goal with
         | H : exists l, _ |- _ => destruct H as [? H]
         end;
  repeat match goal with
         | H : log (hw ?a) = _ |- context [log (hw ?a)] => rewrite H
         end;
  rewrite <- ?app_assoc;
  first [ eexists; reflexivity
        | exists []; rewrite app_nil_r; reflexivity ].

Lemma try_charger_enable_idle fuel enable st :
  fast_idle st ->
  exists r st',
    try_charger_enable bus (S (S (S fuel))) enable st = Some (r, st')
    /\ enable_fast_charge (desc st') = false
    /\ log_ext st st'.
Proof.
  intros H. cbn [try_charger_enable].
  destruct (try_fast_charger_enable_idle fuel enable st H)
    as (r & s & -> & Hf & L).
  destruct (Bool.eqb _ _); [eauto|].
  destruct enable.
  - destruct (is_event _); [eauto|].
    destruct (is_batt_present bus s) as [present s1] eqn:E1.
    apply is_batt_present_only_bus in E1.
    destruct E1 as [_ Hd1 _ _ _ _ _ L1].
    destruct (negb present && _);
      [rewrite <- Hd1 in Hf; do 2 eexists;
       (split; [reflexivity|split; [exact Hf|]]);
       eapply log_ext_trans; eassumption|].
    match goal with
    | |- context [try_charger_enable_by_psy bus true ?x] =>
        destruct (try_charger_enable_by_psy bus true x) as [err s2] eqn:E2
    end.
    apply try_charger_enable_by_psy_only_bus in E2.
    destruct E2 as [_ Hd2 _ _ _ _ _ L2].
    do 2 eexists. split; [reflexivity|].
    split; [destruct (err =? 0); rsimpl; rewrite Hd2; rsimpl; congruence|].
    destruct (err =? 0); log_tail.
  - match goal with
    | |- context [try_charger_enable_by_psy bus false ?x] =>
        destruct (try_charger_enable_by_psy bus false x) as [err s2] eqn:E2
    end.
    apply try_charger_enable_by_psy_only_bus in E2.
    destruct E2 as [_ Hd2 _ _ _ _ _ L2].
    do 2 eexists. split; [reflexivity|].
    split; [destruct (err =? 0); rsimpl; rewrite Hd2; rsimpl; congruence|].
    destruct (err =? 0); log_tail.
Qed.

Lemma uevent_notify_desc ev st :
  desc (uevent_notify ev st) = desc st /\ cm (uevent_notify ev st) = cm st.
Proof.
  unfold uevent_notify.
  destruct (cm_suspended _), ev; repeat destruct (_ : bool);
    split; reflexivity.
Qed.

(** The adjustment of the JEITA current nested in the handshake returns
    and leaves fast charge off. *)
Lemma uevent_notify_log_ext ev st : log_ext st (uevent_notify ev st).
Proof.
  unfold uevent_notify, emit.
  destruct (cm_suspended _), ev; repeat destruct (_ : bool); log_tail.
Qed.

Lemma cm_manager_adjust_current_idle fuel js st :
  fast_idle st ->
  exists r st',
    cm_manager_adjust_current bus (S (S (S (S fuel)))) js st = Some (r, st')
    /\ enable_fast_charge (desc st') = false
    /\ log_ext st st'.
Proof.
  intros H. cbn [cm_manager_adjust_current].
  destruct (neqz _ && _); [destruct H; eauto using log_ext_refl|].
  destruct (_ || _).
  - destruct (try_charger_enable_idle fuel false
                (uevent_notify (Some "Discharging") st))
      as (r & s & -> & Hf & L).
    { unfold fast_idle.
      rewrite (proj1 (uevent_notify_desc _ st)). exact H. }
    pose proof (uevent_notify_log_ext (Some "Discharging") st) as L0.
    pose proof (log_ext_trans _ _ _ L0 L) as L1.
    do 2 eexists. split; [reflexivity|].
    split; [destruct (_ =? 0); rsimpl; exact Hf|].
    clear L0 L. destruct (_ =? 0); log_tail.
  - match goal with
    | |- context [adjust_current_loop bus ?a ?b ?c ?d ?x] =>
        destruct (adjust_current_loop bus a b c d x) as [ret s1] eqn:E1
    end.
    apply adjust_current_loop_only_bus in E1.
    pose proof (fast_idle_only_bus _ _ E1 H) as H1.
    destruct E1 as [_ _ _ _ _ _ _ L1].
    destruct (neqz ret); [destruct H1; eauto|].
    destruct (try_charger_enable_idle fuel true s1 H1)
      as (r & s & -> & Hf & L).
    pose proof (log_ext_trans _ _ _ L1 L) as L2.
    do 2 eexists. split; [reflexivity|]. rsimpl.
    split; [exact Hf|]. clear L1 L. log_tail.
Qed.

Lemma run_steps_handshake_only_bus st r s :
  run_steps (handshake_steps bus) st = (r, s) -> only_bus st s.
Proof.
  unfold handshake_steps. cbn [run_steps]. intros H. frame_solve H.
Qed.

(** When cm_fast_charge_enable_check comes to its handshake it returns
    what the four steps, run in their order up to the first failure,
    give: the error code of that step and the state that commanding the
    primary charger back to normal charging leaves, the flag still
    false; or 0 and the flag true. *)
Lemma cm_fast_charge_enable_check_steps fuel st uV uA s1 s2 :
  (5 <= fuel)%nat ->
  is_event (emergency_stop (cm st)) = false ->
  psy_fast_charger_stat (desc st) <> [] ->
  psy_charger_stat (desc st) <> [] ->
  is_fast_charge (desc st) = true ->
  enable_fast_charge (desc st) = false ->
  get_batt_uV bus st = (0, uV, s1) ->
  get_batt_uA bus s1 = (0, uA, s2) ->
  CM_FAST_CHARGE_ENABLE_BATTERY_VOLTAGE < uV ->
  CM_FAST_CHARGE_ENABLE_COUNT - 1
    <= fast_charge_enable_count (desc st) < INT_MAX ->
  let s3 := on_desc (set_fast_charge_enable_count 0) s2 in
  let '(ret, s4) := run_steps (handshake_steps bus) s3 in
  exists st',
    cm_fast_charge_enable_check bus fuel st = Some (ret, st')
    /\ if neqz ret
       then st' = snd (cm_set_main_charger_current bus
                         CM_FAST_CHARGE_DISABLE_CMD s4)
            /\ enable_fast_charge (desc st') = false
       else enable_fast_charge (desc st') = true /\ log_ext s4 st'.
Proof.
  intros Hfuel Hev Hfast Hmain Hwant Hoff E1 E2 HuV Hcnt s3.
  do 5 (destruct fuel as [|fuel]; [lia|]). clear Hfuel.
  destruct (run_steps (handshake_steps bus) s3) as [ret s4] eqn:R.
  pose proof (run_steps_handshake_only_bus _ _ _ R) as F4.
  pose proof E1 as F1. apply fuel_gauge_get_only_bus in F1.
  pose proof E2 as F2. apply fuel_gauge_get_only_bus in F2.
  assert (Hd : desc s2 = desc st)
    by (destruct F1, F2; congruence).
  cbn [cm_fast_charge_enable_check]. rewrite Hev.
  destruct (psy_fast_charger_stat (desc st)) as [|fast others] eqn:Ef;
    [congruence|].
  rewrite Hwant, Hoff, E1. cbn [negb orb neqz Z.eqb].
  rewrite E2. cbn [negb orb neqz Z.eqb].
  replace (CM_FAST_CHARGE_ENABLE_BATTERY_VOLTAGE <? uV) with true
    by (symmetry; apply Z.ltb_lt; exact HuV).
  assert (Hoff3 : fast_idle s3)
    by (subst s3; unfold fast_idle; rsimpl; rewrite Hd; auto).
  assert (Hoff4 : fast_idle s4) by (eapply fast_idle_only_bus; eauto).
  match goal with
  | |- context [?c <? CM_FAST_CHARGE_ENABLE_COUNT] =>
      replace (c <? CM_FAST_CHARGE_ENABLE_COUNT) with false
  end.
  2:{ symmetry. apply Z.ltb_ge. rsimpl. rewrite Hd.
      unfold add32, CM_FAST_CHARGE_ENABLE_COUNT, INT_MAX in *.
      rewrite wrap32_id by (unfold INT_MIN, INT_MAX; lia). lia. }
  change (on_desc (set_fast_charge_enable_count 0)
            (on_desc (fun d => set_fast_charge_enable_count
                                 (add32 (fast_charge_enable_count d) 1) d)
               s2)) with s3.
  assert (Back : forall r t,
             t = s4 -> neqz r = true ->
             exists st',
               (let '(_, st0) :=
                  cm_set_main_charger_current bus
                    CM_FAST_CHARGE_DISABLE_CMD t in
                Some (r, st0)) = Some (r, st')
               /\ if neqz r
                  then st' = snd (cm_set_main_charger_current bus
                                    CM_FAST_CHARGE_DISABLE_CMD s4)
                       /\ enable_fast_charge (desc st') = false
                  else enable_fast_charge (desc st') = true
                       /\ log_ext s4 st').
  { intros r t -> N. rewrite N.
    destruct (cm_set_main_charger_current bus CM_FAST_CHARGE_DISABLE_CMD s4)
      as [x t] eqn:D.
    apply cm_set_main_charger_current_only_bus in D.
    exists t. cbn [snd]. repeat split.
    eapply fast_idle_only_bus; eauto. }
  revert R. unfold handshake_steps. cbn [run_steps].
  destruct (cm_set_main_charger_current bus CM_FAST_CHARGE_ENABLE_CMD s3)
    as [r1 t1].
  destruct (neqz r1) eqn:N1;
    [intros R; inversion R; subst; apply Back; auto|].
  destruct (cm_set_second_charger_current bus t1) as [r2 t2].
  destruct (neqz r2) eqn:N2;
    [intros R; inversion R; subst; apply Back; auto|].
  destruct (cm_adjust_fast_charge_voltage bus CM_FAST_CHARGE_VOLTAGE_9V t2)
    as [r3 t3].
  destruct (neqz r3) eqn:N3;
    [intros R; inversion R; subst; apply Back; auto|].
  destruct (cm_enable_second_charger bus true t3) as [r4 t4].
  destruct (neqz r4) eqn:N4;
    [intros R; inversion R; subst; apply Back; auto|].
  intros R; inversion R; subst ret t4. clear R Back.
  cbn [neqz Z.eqb negb].
  match goal with
  | |- context [neqz (fast_charge_voltage_drop (desc ?x))] =>
      assert (H5 : fast_idle x /\ log (hw x) = log (hw s4))
        by (destruct (neqz (fast_charge_voltage_max (desc s4)));
            [destruct Hoff4; repeat split; rsimpl; assumption
            | split; [exact Hoff4|reflexivity]]);
      generalize dependent x; intros s5 [H5 L5]
  end.
  match goal with
  | |- context [neqz (jeita_tab_size (desc ?x))] =>
      assert (H6 : fast_idle x /\ log (hw x) = log (hw s4))
        by (destruct (neqz (fast_charge_voltage_drop (desc s5)));
            [destruct H5; repeat split; rsimpl; assumption
            | split; [exact H5|exact L5]]);
      generalize dependent x; intros s6 [H6 L6]
  end.
  destruct (neqz (jeita_tab_size (desc s6))).
  - unfold cm_manager_get_jeita_status. cbv beta iota zeta.
    match goal with
    | |- context [cm_manager_adjust_current bus _ ?js ?s] =>
        destruct (cm_manager_adjust_current_idle fuel js s)
          as (b & s7 & -> & Hf7 & L7);
        [destruct H6; split; rsimpl; assumption|]
    end.
    eexists. split; [reflexivity|]. split; [reflexivity|].
    destruct L7 as [l L7]. exists l. rsimpl.
    rewrite L7, L6. reflexivity.
  - eexists. split; [reflexivity|]. split; [reflexivity|].
    exists []. rsimpl. rewrite L6, app_nil_r. reflexivity.
Qed.

(** The handshake walked along the answers of the bus. *)
Ltac walk Ep :=
  cbn [run_steps];
  unfold cm_set_main_charger_current, cm_set_second_charger_current,
    cm_adjust_fast_charge_voltage, cm_enable_second_charger,
    power_supply_get_by_name, power_supply_set_property, ask, neqz;
  repeat (rsimpl; rewrite ?Ep; cbn [nth_error hd negb Nat.add];
          match goal with
          | H : ?x = true |- context [?x] => rewrite H
          | H : ?x = false |- context [?x] => rewrite H
          end);
  rsimpl; rewrite ?Ep; cbn [nth_error hd negb Nat.add].

Ltac facts H :=
  cbn [firstn all_accepted accepted Nat.add] in H;
  repeat match type of H with
         | _ && _ = true =>
             let A := fresh "A" in
             apply andb_prop in H; destruct H as [A H]
         end.

(** The four steps send the requests of the handshake as long as they
    are accepted, and stop at the first that is not, with its error
    code. *)
Lemma run_steps_handshake_answers s3 :
  psy_charger_stat (desc s3) <> [] ->
  let hs := handshake_requests (desc s3) in
  let n := calls (hw s3) in
  (all_accepted bus n hs = true ->
   exists s4,
     run_steps (handshake_steps bus) s3 = (0, s4)
     /\ log (hw s4) = log (hw s3) ++ map EvBus hs)
  /\ (forall i rq,
         nth_error hs i = Some rq ->
         all_accepted bus n (firstn i hs) = true ->
         accepted (bus (i + n)%nat rq) rq = false ->
         exists s4,
           run_steps (handshake_steps bus) s3
           = (refusal (bus (i + n)%nat rq) rq, s4)
           /\ neqz (refusal (bus (i + n)%nat rq) rq) = true
           /\ log (hw s4) = log (hw s3) ++ map EvBus (firstn (S i) hs)
           /\ calls (hw s4) = (S i + n)%nat
           /\ desc s4 = desc s3).
Proof.
  intros Hmain hs n. subst hs n.
  destruct (psy_charger_stat (desc s3)) as [|main rest] eqn:Ep;
    [congruence|]. clear Hmain.
  unfold handshake_requests, handshake_steps. rewrite Ep.
  set (fast := hd EmptyString (psy_fast_charger_stat (desc s3))).
  cbn [hd nth_error].
  destruct rest as [|second rest]; cbn [nth_error app]; split.
  - intros H. facts H. walk Ep. fold fast. walk Ep.
    eexists. split; [reflexivity|]. rsimpl.
    rewrite <- ?app_assoc. reflexivity.
  - intros i rq Hn Hacc Hrej.
    do 4 (destruct i as [|i];
          [cbn [nth_error] in Hn; inversion Hn; subst rq; clear Hn;
           facts Hacc; cbn [accepted Nat.add] in Hrej;
           cbn [refusal Nat.add firstn map]; walk Ep; fold fast; walk Ep;
           eexists; (split; [reflexivity|]); rsimpl;
           repeat match goal with |- _ /\ _ => split end;
           rewrite <- ?app_assoc; try reflexivity;
           unfold neqz; rewrite ?Hrej; reflexivity|]).
    cbn [nth_error] in Hn. destruct i; discriminate Hn.
  - intros H. facts H. walk Ep. fold fast. walk Ep.
    eexists. split; [reflexivity|]. rsimpl.
    rewrite <- ?app_assoc. reflexivity.
  - intros i rq Hn Hacc Hrej.
    do 8 (destruct i as [|i];
          [cbn [nth_error] in Hn; inversion Hn; subst rq; clear Hn;
           facts Hacc; cbn [accepted Nat.add] in Hrej;
           cbn [refusal Nat.add firstn map]; walk Ep; fold fast; walk Ep;
           eexists; (split; [reflexivity|]); rsimpl;
           repeat match goal with |- _ /\ _ => split end;
           rewrite <- ?app_assoc; try reflexivity;
           unfold neqz; rewrite ?Hrej; reflexivity|]).
    cbn [nth_error] in Hn. destruct i; discriminate Hn.
Qed.

(** C1.  When cm_fast_charge_enable_check comes to its handshake (no
    emergency stop, a fast charger named, fast charge wanted and not yet
    enabled, both readings taken, the voltage above the threshold now
    and on the check before), it sends the requests of the four steps
    in their order: the primary charger looked up and commanded to fast
    charge, the secondary charger, when there is one, looked up and
    given its current, the fast charger looked up and raised to 9 V,
    the secondary charger looked up and enabled.  When all of them are
    accepted it returns 0 with the flag true.  When one of them is not,
    it sends no later request of the handshake, looks the primary
    charger up and, when it is found, commands it back to normal
    charging, and returns the error code of the failed request with
    the flag still false. *)
Theorem fast_charge_enable_handshake fuel st uV uA s1 s2 :
  (5 <= fuel)%nat ->
  is_event (emergency_stop (cm st)) = false ->
  psy_fast_charger_stat (desc st) <> [] ->
  psy_charger_stat (desc st) <> [] ->
  is_fast_charge (desc st) = true ->
  enable_fast_charge (desc st) = false ->
  get_batt_uV bus st = (0, uV, s1) ->
  get_batt_uA bus s1 = (0, uA, s2) ->
  CM_FAST_CHARGE_ENABLE_BATTERY_VOLTAGE < uV ->
  CM_FAST_CHARGE_ENABLE_COUNT - 1
    <= fast_charge_enable_count (desc st) < INT_MAX ->
  let hs := handshake_requests (desc st) in
  let n := calls (hw s2) in
  (all_accepted bus n hs = true ->
   exists st' l,
     cm_fast_charge_enable_check bus fuel st = Some (0, st')
     /\ enable_fast_charge (desc st') = true
     /\ log (hw st') = log (hw s2) ++ map EvBus hs ++ l)
  /\ (forall i rq,
         nth_error hs i = Some rq ->
         all_accepted bus n (firstn i hs) = true ->
         accepted (bus (i + n)%nat rq) rq = false ->
         exists st',
           cm_fast_charge_enable_check bus fuel st
           = Some (refusal (bus (i + n)%nat rq) rq, st')
           /\ refusal (bus (i + n)%nat rq) rq <> 0
           /\ enable_fast_charge (desc st') = false
           /\ log (hw st') =
              log (hw s2) ++ map EvBus (firstn (S i) hs)
              ++ map EvBus (rollback_requests bus (S i + n) (desc st))).
Proof.
  intros Hfuel Hev Hfast Hmain Hwant Hoff E1 E2 HuV Hcnt hs n.
  pose proof (cm_fast_charge_enable_check_steps fuel st uV uA s1 s2
                Hfuel Hev Hfast Hmain Hwant Hoff E1 E2 HuV Hcnt) as S.
  cbv zeta in S.
  set (s3 := on_desc (set_fast_charge_enable_count 0) s2) in *.
  assert (Hd : desc s2 = desc st).
  { pose proof E1 as F1. apply fuel_gauge_get_only_bus in F1.
    pose proof E2 as F2. apply fuel_gauge_get_only_bus in F2.
    destruct F1, F2; congruence. }
  assert (Hp : psy_charger_stat (desc s3) = psy_charger_stat (desc st))
    by (subst s3; rsimpl; rewrite Hd; reflexivity).
  assert (Hhs : handshake_requests (desc s3) = hs).
  { subst hs s3. unfold handshake_requests. rsimpl. rewrite Hd.
    reflexivity. }
  assert (Hn : calls (hw s3) = n) by reflexivity.
  assert (Hl : log (hw s3) = log (hw s2)) by reflexivity.
  destruct (run_steps_handshake_answers s3) as [Ok Bad];
    [rewrite Hp; exact Hmain|].
  rewrite Hhs, Hn, Hl in Ok, Bad. split.
  - intros Hacc. destruct (Ok Hacc) as (s4 & R & L4).
    rewrite R in S. destruct S as (st' & C & Hf & [l L]).
    exists st', l. split; [exact C|]. split; [exact Hf|].
    rewrite L, L4, <- app_assoc. reflexivity.
  - intros i rq Hi Hacc Hrej.
    destruct (Bad i rq Hi Hacc Hrej) as (s4 & R & N & L4 & C4 & D4).
    rewrite R in S. destruct S as (st' & C & S). rewrite N in S.
    destruct S as [-> Hf].
    eexists. split; [exact C|].
    split; [intros Z; rewrite Z in N; discriminate N|].
    split; [exact Hf|].
    unfold cm_set_main_charger_current, rollback_requests.
    rewrite D4, Hp.
    destruct (psy_charger_stat (desc st)) as [|main rest];
      [congruence|].
    unfold power_supply_get_by_name, power_supply_set_property, ask.
    rsimpl. rewrite C4. cbn [hd].
    destruct (r_found (bus (S i + n)%nat (ReqLookup main)));
      rsimpl; rewrite L4, <- ?app_assoc; reflexivity.
Qed.

(** ** The recursion through cm_fast_charge_disable *)

Ltac step_never_fails H :=
  intros st;
  match goal with
  | |- exists st', ?f st = _ /\ _ =>
      let r := fresh "r" in
      let s := fresh "s" in
      let E := fresh "E" in
      destruct (f st) as [r s] eqn:E;
      exists s; split; [|eauto 2 with frame];
      revert E;
      unfold cm_enable_second_charger, cm_adjust_fast_charge_voltage,
        cm_set_main_charger_current, power_supply_get_by_name,
        power_supply_set_property, ask;
      repeat match goal with
             | |- context [match ?l with _ => _ end] =>
                 lazymatch l with
                 | nth_error _ _ => destruct l
                 | psy_charger_stat _ => destruct l
                 end
             end;
      rsimpl;
      rewrite ?(proj1 (H _ _)), ?(proj2 (H _ _));
      intros E; inversion E; reflexivity
  end.

Lemma cm_enable_second_charger_never_fails (H : never_fails bus) e :
  forall st, exists st',
    cm_enable_second_charger bus e st = (0, st') /\ only_bus st st'.
Proof. step_never_fails H. Qed.

Lemma cm_adjust_fast_charge_voltage_never_fails (H : never_fails bus) v :
  forall st, exists st',
    cm_adjust_fast_charge_voltage bus v st = (0, st') /\ only_bus st st'.
Proof. step_never_fails H. Qed.

Lemma cm_set_main_charger_current_never_fails (H : never_fails bus) c :
  forall st, psy_charger_stat (desc st) <> [] ->
    exists st',
      cm_set_main_charger_current bus c st = (0, st') /\ only_bus st st'.
Proof.
  intros st Hne.
  destruct (cm_set_main_charger_current bus c st) as [r s] eqn:E.
  exists s. split; [|eauto 2 with frame].
  revert E. unfold cm_set_main_charger_current, power_supply_get_by_name,
    power_supply_set_property, ask.
  destruct (psy_charger_stat (desc st)); [congruence|].
  rsimpl. rewrite ?(proj1 (H _ _)), ?(proj2 (H _ _)).
  intros E; inversion E; reflexivity.
Qed.

Lemma hot_while_fast_only_bus st st' :
  only_bus st st' -> hot_while_fast st -> hot_while_fast st'.
Proof.
  intros [Hc Hd _ _ _ _ _ _]. unfold hot_while_fast.
  rewrite Hc, Hd. auto.
Qed.

(** On a bus that never fails, with fast charge enabled and the battery
    in the hot sink zone, cm_fast_charge_disable comes back to itself
    before it has cleared enable_fast_charge: no amount of fuel lets it
    return. *)
Lemma cm_fast_charge_disable_recurses (H : never_fails bus) (n : nat) :
  forall fuel st, (fuel <= n)%nat -> hot_while_fast st ->
    cm_fast_charge_disable bus fuel st = None.
Proof.
  induction n as [|n IH]; intros fuel st Hle Hot.
  { destruct fuel; [reflexivity|lia]. }
  destruct fuel as [|fuel]; [reflexivity|].
  cbn [cm_fast_charge_disable].
  destruct Hot as (Hf & Hne & Hcs & Hjd & Hsz & Htab & Htemp).
  rewrite Hf. cbn [negb].
  destruct (cm_enable_second_charger_never_fails H false st)
    as (s1 & -> & F1).
  cbn [neqz Z.eqb negb].
  destruct (cm_adjust_fast_charge_voltage_never_fails H
              CM_FAST_CHARGE_VOLTAGE_5V s1) as (s2 & -> & F2).
  cbn [neqz Z.eqb negb].
  assert (F12 : only_bus st s2) by (eapply only_bus_trans; eauto).
  destruct (cm_set_main_charger_current_never_fails H
              CM_FAST_CHARGE_DISABLE_CMD s2) as (s3 & -> & F3).
  { destruct F12 as [_ Hd _ _ _ _ _ _]. rewrite Hd. exact Hne. }
  cbn [neqz Z.eqb negb].
  assert (F : only_bus st s3) by (eapply only_bus_trans; eauto).
  destruct F as [Hc3 Hd3 _ _ _ _ _ _].
  assert (Hot3 : hot_while_fast s3)
    by (unfold hot_while_fast; rewrite Hc3, Hd3; auto 10).
  clear - H IH Hle Hot3.
  match goal with
  | |- context [neqz (normal_charge_voltage_drop (desc ?x))] =>
      assert (H5 : hot_while_fast x)
        by (destruct (neqz (normal_charge_voltage_max (desc s3)));
            [unfold hot_while_fast in *; rsimpl; exact Hot3 | exact Hot3]);
      generalize dependent x; intros s5 H5
  end.
  match goal with
  | |- context [neqz (jeita_tab_size (desc ?x))] =>
      assert (H6 : hot_while_fast x)
        by (destruct (neqz (normal_charge_voltage_drop (desc s5)));
            [unfold hot_while_fast in *; rsimpl; exact H5 | exact H5]);
      generalize dependent x; intros s6 H6
  end.
  clear Hot3 H5.
  destruct H6 as (Hf & Hne & Hcs & Hjd & Hsz & Htab & Htemp).
  rewrite Hsz. cbn [neqz Z.eqb negb].
  unfold cm_manager_get_jeita_status. rsimpl.
  rewrite Htab, Htemp, Hsz, Hjd.
  change (jeita_scan board_jeita 600 (Z.to_nat 4)) with 3.
  cbn [Z.eqb Pos.eqb].
  destruct fuel as [|fuel]; [reflexivity|].
  cbn [cm_manager_adjust_current]. rsimpl. rewrite Hcs, Hsz.
  change (neqz 0) with false.
  change (4 <? STATUS_ABOVE_T3) with false.
  change ((STATUS_ABOVE_T3 =? 0) || (STATUS_ABOVE_T3 =? 4)) with true.
  cbv beta iota.
  destruct fuel as [|fuel]; [reflexivity|].
  cbn [try_charger_enable].
  destruct fuel as [|fuel]; [reflexivity|].
  cbn [try_fast_charger_enable].
  rewrite IH; [reflexivity|lia|].
  unfold hot_while_fast.
  rewrite (proj1 (uevent_notify_desc _ _)), (proj2 (uevent_notify_desc _ _)).
  rsimpl. auto 10.
Qed.

(** So does the voltage guard that finds the charge voltage too high
    in that state. *)
Lemma cm_check_charge_voltage_recurses (H : never_fails bus) fuel st :
  hot_while_fast st ->
  charger_enabled (cm st) = true ->
  charge_voltage_max (desc st) <> 0 ->
  charge_voltage_drop (desc st) <> 0 ->
  charge_voltage_max (desc st)
    < wrap32 (r_val (bus (S (calls (hw st)))
                       (ReqGet (psy_fuel_gauge (desc st))
                          POWER_SUPPLY_PROP_CONSTANT_CHARGE_VOLTAGE))) ->
  cm_check_charge_voltage bus fuel st = None.
Proof.
  intros Hot Hen Hmax Hdrop Hv. unfold cm_check_charge_voltage.
  apply Z.eqb_neq in Hmax, Hdrop. rewrite Hmax, Hdrop. cbn [orb].
  pose proof Hot as (Hf & Hne & Hcs & Hjd & Hsz & Htab & Htemp).
  rewrite Hcs. change (neqz 0) with false. cbn [andb].
  unfold power_supply_get_by_name, power_supply_get_property, ask.
  rsimpl. rewrite ?(proj1 (H _ _)), ?(proj2 (H _ _)). cbn [negb].
  change (neqz (wrap32 0)) with false. cbv beta iota.
  rewrite Hen. apply Z.ltb_lt in Hv. rewrite Hv. cbn [andb].
  destruct fuel as [|fuel]; [reflexivity|].
  cbn [try_charger_enable].
  destruct fuel as [|fuel]; [reflexivity|].
  cbn [try_fast_charger_enable].
  rewrite (cm_fast_charge_disable_recurses H fuel fuel); [reflexivity|lia|].
  unfold hot_while_fast.
  rewrite (proj1 (uevent_notify_desc _ _)), (proj2 (uevent_notify_desc _ _)).
  rsimpl. auto 10.
Qed.

(** ** The guards and a bit of another category *)

(** With a bit latched in charging_status and none of its own, each
    guard and the JEITA adjuster return the state they were given. *)
Lemma guards_skip_on_foreign_bit fuel st :
  charging_status (cm st) <> 0 ->
  (has_bit (charging_status (cm st)) CM_CHARGE_DURATION_ABNORMAL = false ->
   check_charging_duration bus fuel st = Some (0, st))
  /\ (has_bit (charging_status (cm st)) CM_CHARGE_VOLTAGE_ABNORMAL = false ->
      cm_check_charge_voltage bus fuel st = Some (- EINVAL, st))
  /\ (has_bit (charging_status (cm st)) CM_CHARGE_HEALTH_ABNORMAL = false ->
      cm_check_charge_health bus fuel st = Some (- EINVAL, st))
  /\ (Z.land (charging_status (cm st))
        (Z.lor CM_CHARGE_TEMP_OVERHEAT CM_CHARGE_TEMP_COLD) = 0 ->
      forall js,
        cm_manager_adjust_current bus (S fuel) js st = Some (true, st)).
Proof.
  intros Hcs.
  assert (Hn : neqz (charging_status (cm st)) = true)
    by (unfold neqz; apply negb_true_iff, Z.eqb_neq; exact Hcs).
  repeat split.
  - intros Hb. unfold check_charging_duration. rewrite Hn, Hb.
    destruct (_ && _); reflexivity.
  - intros Hb. unfold cm_check_charge_voltage. rewrite Hn, Hb.
    destruct (_ || _); reflexivity.
  - intros Hb. unfold cm_check_charge_health. rewrite Hn, Hb. reflexivity.
  - intros Hb js. cbn [cm_manager_adjust_current]. rewrite Hn, Hb.
    reflexivity.
Qed.

(** ** The uevent buffer *)

(** While suspended an event is never delivered: it replaces the
    buffered one unless it repeats it (or, with nothing buffered,
    repeats the last delivered one). *)
Lemma uevent_notify_suspended ev st :
  cm_suspended (gl st) = true ->
  let st' := uevent_notify (Some ev) st in
  hw st' = hw st
  /\ env_str (gl st') = env_str (gl st)
  /\ env_str_save (gl st') =
     (if strncmp_eq (if String.eqb (env_str_save (gl st)) EmptyString
                     then env_str (gl st) else env_str_save (gl st)) ev
      then env_str_save (gl st) else strn ev).
Proof.
  intros Hs. cbv zeta. unfold uevent_notify. rewrite Hs.
  destruct (String.eqb _ _); destruct (strncmp_eq _ _);
    repeat split; reflexivity.
Qed.

(** The null event of the resume path, had it been sent: outside
    suspend it delivers what is buffered, once, and empties the
    buffer. *)
Lemma uevent_notify_null st :
  cm_suspended (gl st) = false ->
  env_str_save (gl st) <> EmptyString ->
  let st' := uevent_notify None st in
  log (hw st') = log (hw st) ++ [EvUevent (strn (env_str_save (gl st)))]
  /\ env_str (gl st') = strn (env_str_save (gl st))
  /\ env_str_save (gl st') = EmptyString.
Proof.
  intros Hs Hb. cbv zeta. unfold uevent_notify. rewrite Hs.
  apply String.eqb_neq in Hb. rewrite Hb.
  repeat split; reflexivity.
Qed.

(** ** Resume and the uevent buffer *)

Lemma keeps_buffer_refl st : keeps_buffer st st.
Proof. constructor; reflexivity. Qed.

Lemma keeps_buffer_trans a b c :
  keeps_buffer a b -> keeps_buffer b c -> keeps_buffer a c.
Proof. intros [] []. constructor; congruence. Qed.

Lemma only_bus_keeps_buffer st st' : only_bus st st' -> keeps_buffer st st'.
Proof. intros []. constructor; congruence. Qed.

Lemma uevent_notify_suspended_flag ev st :
  cm_suspended (gl (uevent_notify (Some ev) st)) = cm_suspended (gl st).
Proof.
  unfold uevent_notify.
  destruct (cm_suspended (gl st)) eqn:E;
    repeat match goal with
           | |- context [if ?c then _ else _] => destruct c
           end; rsimpl; auto.
Qed.

Lemma uevent_notify_pending ev st :
  pending (gl (uevent_notify (Some ev) st)) = pending (gl st).
Proof.
  unfold pending. rewrite uevent_notify_suspended_flag.
  unfold uevent_notify.
  destruct (cm_suspended (gl st)) eqn:E; [reflexivity|].
  destruct (strncmp_eq _ _); reflexivity.
Qed.

(** Goals about the buffer of a state built by field updates and events
    from states related by [only_bus] or [keeps_buffer]. *)
Ltac norm_buffer :=
  rsimpl;
  repeat (first [ rewrite uevent_notify_suspended_flag
                | rewrite uevent_notify_pending
                | match goal with
                  | |- context [pending (?f ?v ?g)] =>
                      change (pending (f v g)) with (pending g)
                  | H : ?l = _ |- context [?l] => rewrite H
                  | |- context [if ?c then _ else _] => destruct c
                  end ];
          rsimpl).

Ltac buffer :=
  repeat match goal with
         | F : only_bus _ _ |- _ => destruct F
         | F : keeps_buffer _ _ |- _ => destruct F
         end;
  try constructor; norm_buffer;
  first [ reflexivity | congruence ].

Create HintDb bufframe.

Ltac note_buffers :=
  note_frames;
  repeat match goal with
  | E : ?g ?s0 = Some (_, ?s1) |- _ =>
      lazymatch goal with
      | _ : keeps_buffer s0 s1 |- _ => fail
      | _ => idtac
      end;
      assert (keeps_buffer s0 s1) by (eauto 2 with bufframe)
  | E : ?g ?s0 = Some ?s1 |- _ =>
      lazymatch goal with
      | _ : keeps_buffer s0 s1 |- _ => fail
      | _ => idtac
      end;
      assert (keeps_buffer s0 s1) by (eauto 2 with bufframe)
  | E : ?g ?s0 = (_, ?s1) |- _ =>
      lazymatch goal with
      | _ : only_bus s0 s1 |- _ => fail
      | _ : keeps_buffer s0 s1 |- _ => fail
      | _ => idtac
      end;
      assert (keeps_buffer s0 s1) by (eauto 2 with bufframe)
  end.

(** The chargers are switched and the currents adjusted without a look
    at the buffer. *)
Lemma charger_switching_keeps_buffer fuel :
  (forall e st r st',
      try_charger_enable bus fuel e st = Some (r, st') ->
      keeps_buffer st st')
  /\ (forall e st r st',
         try_fast_charger_enable bus fuel e st = Some (r, st') ->
         keeps_buffer st st')
  /\ (forall st r st',
         cm_fast_charge_enable_check bus fuel st = Some (r, st') ->
         keeps_buffer st st')
  /\ (forall st r st',
         cm_fast_charge_disable bus fuel st = Some (r, st') ->
         keeps_buffer st st')
  /\ (forall st r st',
         cm_fast_charge_disable_check bus fuel st = Some (r, st') ->
         keeps_buffer st st')
  /\ (forall js st r st',
         cm_manager_adjust_current bus fuel js st = Some (r, st') ->
         keeps_buffer st st').
Proof.
  induction fuel as [|fuel (IH1 & IH2 & IH3 & IH4 & IH5 & IH6)].
  { repeat split; intros; discriminate. }
  repeat match goal with |- _ /\ _ => split end; intros.
  - cbn [try_charger_enable] in H. explode; note_buffers; buffer.
  - cbn [try_fast_charger_enable] in H. explode; note_buffers; buffer.
  - cbn [cm_fast_charge_enable_check] in H.
    unfold cm_manager_get_jeita_status in H.
    explode; note_buffers; buffer.
  - cbn [cm_fast_charge_disable] in H.
    unfold cm_manager_get_jeita_status in H.
    explode; note_buffers; buffer.
  - cbn [cm_fast_charge_disable_check] in H. explode; note_buffers; buffer.
  - cbn [cm_manager_adjust_current] in H. explode; note_buffers; buffer.
Qed.

Lemma try_charger_enable_keeps_buffer fuel e st r st' :
  try_charger_enable bus fuel e st = Some (r, st') -> keeps_buffer st st'.
Proof. apply charger_switching_keeps_buffer. Qed.
#[local] Hint Resolve try_charger_enable_keeps_buffer : bufframe.

Lemma cm_manager_adjust_current_keeps_buffer fuel js st r st' :
  cm_manager_adjust_current bus fuel js st = Some (r, st') ->
  keeps_buffer st st'.
Proof. apply charger_switching_keeps_buffer. Qed.
#[local] Hint Resolve cm_manager_adjust_current_keeps_buffer : bufframe.

(** Proofs that a function keeps the buffer: split its paths, note what
    each call keeps, compare the fields. *)
Ltac keeps_buffer_of H :=
  cbv beta iota zeta in H; explode; subst; note_buffers; buffer.

Lemma try_charger_restart_keeps_buffer fuel st r st' :
  try_charger_restart bus fuel st = Some (r, st') -> keeps_buffer st st'.
Proof. unfold try_charger_restart. intros H. keeps_buffer_of H. Qed.
#[local] Hint Resolve try_charger_restart_keeps_buffer : bufframe.

Lemma fullbatt_vchk_keeps_buffer fuel st st' :
  fullbatt_vchk bus fuel st = Some st' -> keeps_buffer st st'.
Proof. unfold fullbatt_vchk. intros H. keeps_buffer_of H. Qed.
#[local] Hint Resolve fullbatt_vchk_keeps_buffer : bufframe.

Lemma check_charging_duration_keeps_buffer fuel st r st' :
  check_charging_duration bus fuel st = Some (r, st') -> keeps_buffer st st'.
Proof. unfold check_charging_duration. intros H. keeps_buffer_of H. Qed.
#[local] Hint Resolve check_charging_duration_keeps_buffer : bufframe.

Lemma cm_check_charge_voltage_keeps_buffer fuel st r st' :
  cm_check_charge_voltage bus fuel st = Some (r, st') -> keeps_buffer st st'.
Proof. unfold cm_check_charge_voltage. intros H. keeps_buffer_of H. Qed.
#[local] Hint Resolve cm_check_charge_voltage_keeps_buffer : bufframe.

Lemma charge_health_loop_only_bus names :
  forall h st r st',
    charge_health_loop bus names h st = (r, st') -> only_bus st st'.
Proof.
  induction names as [|n rest IH]; intros h st r st' H;
    cbn [charge_health_loop] in H.
  - inversion H. apply only_bus_refl.
  - cbv beta iota zeta in H. explode; note_frames;
      repeat match goal with
             | E : charge_health_loop bus rest _ _ = _ |- _ =>
                 apply IH in E
             end; chain.
Qed.
#[local] Hint Resolve charge_health_loop_only_bus : frame.

Lemma cm_feed_watchdog_loop_only_bus names :
  forall st r st',
    cm_feed_watchdog_loop bus names st = (r, st') -> only_bus st st'.
Proof.
  induction names as [|n rest IH]; intros st r st' H;
    cbn [cm_feed_watchdog_loop] in H.
  - inversion H. apply only_bus_refl.
  - cbv beta iota zeta in H. explode; note_frames;
      repeat match goal with
             | E : cm_feed_watchdog_loop bus rest _ = _ |- _ =>
                 apply IH in E
             end; chain.
Qed.
#[local] Hint Resolve cm_feed_watchdog_loop_only_bus : frame.

Lemma cm_feed_watchdog_only_bus st r st' :
  cm_feed_watchdog bus st = (r, st') -> only_bus st st'.
Proof. unfold cm_feed_watchdog. intros H. frame_solve H. Qed.
#[local] Hint Resolve cm_feed_watchdog_only_bus : frame.

Lemma cm_check_thermal_status_only_bus st r st' :
  cm_check_thermal_status bus st = (r, st') -> only_bus st st'.
Proof. unfold cm_check_thermal_status. intros H. frame_solve H. Qed.
#[local] Hint Resolve cm_check_thermal_status_only_bus : frame.

Lemma cm_check_charge_health_keeps_buffer fuel st r st' :
  cm_check_charge_health bus fuel st = Some (r, st') -> keeps_buffer st st'.
Proof. unfold cm_check_charge_health. intros H. keeps_buffer_of H. Qed.
#[local] Hint Resolve cm_check_charge_health_keeps_buffer : bufframe.

Lemma is_full_charged_keeps_buffer st r st' :
  is_full_charged bus st = (r, st') -> keeps_buffer st st'.
Proof.
  unfold is_full_charged, is_full_charged_vi. intros H. keeps_buffer_of H.
Qed.
#[local] Hint Resolve is_full_charged_keeps_buffer : bufframe.

Lemma cm_manager_jeita_current_monitor_keeps_buffer fuel st r st' :
  cm_manager_jeita_current_monitor bus fuel st = Some (r, st') ->
  keeps_buffer st st'.
Proof.
  unfold cm_manager_jeita_current_monitor, cm_manager_get_jeita_status.
  intros H. keeps_buffer_of H.
Qed.
#[local] Hint Resolve cm_manager_jeita_current_monitor_keeps_buffer
  : bufframe.

Lemma _cm_monitor_keeps_buffer fuel st r st' :
  _cm_monitor bus fuel st = Some (r, st') -> keeps_buffer st st'.
Proof. unfold _cm_monitor. intros H. keeps_buffer_of H. Qed.

Ltac keeps_buffer_fun f :=
  match goal with
  | |- keeps_buffer _ ?x =>
      let st' := fresh "st'" in
      let H := fresh "H" in
      remember x as st' eqn:H; symmetry in H; unfold f in H;
      keeps_buffer_of H
  end.

Lemma cm_batt_works_low_temp_keeps_buffer t v f st f' st' :
  cm_batt_works_low_temp t v f st = (f', st') -> keeps_buffer st st'.
Proof. unfold cm_batt_works_low_temp. intros H. keeps_buffer_of H. Qed.

Lemma cm_batt_works_chg_sts_keeps_buffer st r st' :
  cm_batt_works_chg_sts bus st = (r, st') -> keeps_buffer st st'.
Proof. unfold cm_batt_works_chg_sts. intros H. keeps_buffer_of H. Qed.

Lemma cm_batt_works_trickle_keeps_buffer c t st :
  keeps_buffer st (cm_batt_works_trickle c t st).
Proof. keeps_buffer_fun cm_batt_works_trickle. Qed.

Lemma cm_batt_works_status_keeps_buffer c st r st' :
  cm_batt_works_status bus c st = (r, st') -> keeps_buffer st st'.
Proof. unfold cm_batt_works_status. intros H. keeps_buffer_of H. Qed.

Lemma cm_batt_works_switch_keeps_buffer status fc ocv ua period flush now
  st r st' :
  cm_batt_works_switch bus status fc ocv ua period flush now st = (r, st') ->
  keeps_buffer st st'.
Proof.
  unfold cm_batt_works_switch, cm_batt_works_charging,
    cm_batt_works_discharging, cm_batt_works_full.
  intros H. keeps_buffer_of H.
Qed.

Lemma cm_track_capacity_monitor_keeps_buffer st :
  keeps_buffer st
    (cm_track_capacity_monitor bus power_supply_ocv2cap_simple st).
Proof. keeps_buffer_fun cm_track_capacity_monitor. Qed.

Lemma cm_batt_works_publish_keeps_buffer fc uV now st :
  keeps_buffer st
    (cm_batt_works_publish bus power_supply_ocv2cap_simple fc uV now st).
Proof.
  unfold cm_batt_works_publish.
  eapply keeps_buffer_trans; [|apply cm_track_capacity_monitor_keeps_buffer].
  match goal with
  | |- keeps_buffer _ ?x =>
      remember x as st' eqn:H; symmetry in H; unfold set_batt_cap in H;
      keeps_buffer_of H
  end.
Qed.

Lemma cm_batt_works_filter_keeps_buffer uV ocv ua soc tmp st :
  keeps_buffer st
    (cm_batt_works_filter bus power_supply_ocv2cap_simple
       uV ocv ua soc tmp st).
Proof.
  unfold cm_batt_works_filter.
  destruct (cm_batt_works_low_temp _ _ _ _) as [f1 s2] eqn:E1.
  apply cm_batt_works_low_temp_keeps_buffer in E1.
  match goal with
  | |- context [cm_batt_works_chg_sts bus ?s] =>
      assert (K3 : keeps_buffer s2 s)
        by (destruct (last_fuel_cap (gl s2) =? CM_CAP_MAGIC_NUM); buffer);
      destruct (cm_batt_works_chg_sts bus s) as [c s4] eqn:E2;
      generalize dependent s; intros s3 K3 E2
  end.
  apply cm_batt_works_chg_sts_keeps_buffer in E2.
  pose proof (cm_batt_works_trickle_keeps_buffer c (boottime_s (hw s3)) s4)
    as K5.
  remember (cm_batt_works_trickle c (boottime_s (hw s3)) s4) as s5 eqn:Hs5.
  clear Hs5.
  match goal with
  | |- context [cm_batt_works_status bus c ?s] =>
      assert (K6 : keeps_buffer s5 s) by buffer;
      destruct (cm_batt_works_status bus c s) as [status s7] eqn:E3;
      generalize dependent s; intros s6 K6 E3
  end.
  apply cm_batt_works_status_keeps_buffer in E3.
  match goal with
  | |- context [cm_batt_works_switch bus ?a ?b ?c ?d ?e ?f ?g ?s] =>
      destruct (cm_batt_works_switch bus a b c d e f g s) as [fc s8] eqn:E4
  end.
  apply cm_batt_works_switch_keeps_buffer in E4.
  eapply keeps_buffer_trans; [|apply cm_batt_works_publish_keeps_buffer].
  eapply keeps_buffer_trans; [|exact E4].
  eapply keeps_buffer_trans; [|exact E3].
  eapply keeps_buffer_trans; [|exact K6].
  eapply keeps_buffer_trans; [|exact K5].
  eapply keeps_buffer_trans; [|exact E2].
  eapply keeps_buffer_trans; [|exact K3].
  eapply keeps_buffer_trans; [|exact E1]. buffer.
Qed.

Lemma cm_batt_works_keeps_buffer st :
  keeps_buffer st (cm_batt_works bus power_supply_ocv2cap_simple st).
Proof.
  destruct (cm_batt_works_cases st)
    as [F | (uV & ocv & ua & soc & tmp & s & F & ->)].
  - apply only_bus_keeps_buffer, F.
  - eapply keeps_buffer_trans; [apply only_bus_keeps_buffer, F|].
    apply cm_batt_works_filter_keeps_buffer.
Qed.

(** Whatever is in the buffer when cm_suspend_complete is entered is
    still there when it returns: the resume path never hands it to
    kobject_uevent. *)
Lemma cm_suspend_complete_keeps_env_str_save
  (jiffies_to_msecs : Z -> Z) fuel st st' :
  cm_suspend_complete bus power_supply_ocv2cap_simple jiffies_to_msecs
    fuel st = Some st' ->
  cm_suspended (gl st') = false
  /\ env_str_save (gl st') = env_str_save (gl st).
Proof.
  unfold cm_suspend_complete. intros H.
  match type of H with
  | context [_cm_monitor bus fuel ?s] => set (s0 := s) in *
  end.
  assert (K0 : cm_suspended (gl s0) = false
               /\ env_str_save (gl s0) = env_str_save (gl st)).
  { subst s0. unfold ask, emit.
    destruct (cm_suspended (gl st)) eqn:Es, (cm_timer_set (gl st));
      repeat match goal with
             | |- context [if ?c then _ else _] => destruct c
             end; rsimpl; auto. }
  clearbody s0.
  destruct (_cm_monitor bus fuel s0) as [[r s1]|] eqn:E1; [|discriminate].
  apply _cm_monitor_keeps_buffer in E1.
  pose proof (cm_batt_works_keeps_buffer s1) as K2.
  assert (K : keeps_buffer s0 (cm_batt_works bus power_supply_ocv2cap_simple s1))
    by (eapply keeps_buffer_trans; eauto).
  destruct K as [Ks Kp]. destruct K0 as [Z0 S0].
  unfold pending in Kp. rewrite Ks, Z0 in Kp.
  cbv beta iota zeta in H. inversion H; subst. unfold emit.
  destruct (neqz _); rsimpl; split; congruence.
Qed.

(** ** The JEITA zone *)

(** X1. Whatever the table and the temperature, the zone that
    cm_manager_get_jeita_status returns and stores is one of the five
    zones, provided the stored one was. *)
Theorem jeita_status_is_a_zone t st :
  STATUS_BELOW_T0 <= jeita_status (gl st) <= STATUS_ABOVE_T3 ->
  let '(js, st') := cm_manager_get_jeita_status t st in
  STATUS_BELOW_T0 <= js <= STATUS_ABOVE_T3
  /\ jeita_status (gl st') = js.
Proof.
  unfold cm_manager_get_jeita_status, STATUS_BELOW_T0, STATUS_T0_TO_T1,
    STATUS_T1_TO_T2, STATUS_T2_TO_T3, STATUS_ABOVE_T3.
  intros H. split; [|reflexivity].
  repeat match goal with
         | |- context [if ?c then _ else _] => destruct c
         end; lia.
Qed.

(** X2. The hysteresis is stable: asking again at the same temperature
    gives the same zone. *)
Theorem jeita_status_stable t st :
  let '(js, st') := cm_manager_get_jeita_status t st in
  fst (cm_manager_get_jeita_status t st') = js.
Proof.
  unfold cm_manager_get_jeita_status, jeita_row. rsimpl.
  unfold STATUS_BELOW_T0, STATUS_T0_TO_T1, STATUS_T1_TO_T2,
    STATUS_T2_TO_T3, STATUS_ABOVE_T3.
  set (i := jeita_scan _ _ _).
  destruct (i =? 3); [reflexivity|].
  destruct (i =? 2);
    [|destruct (i =? 1); [|destruct (i =? 0); [|reflexivity]]].
  all: repeat match goal with
              | |- context [?a <=? ?b] =>
                  let E := fresh "E" in destruct (a <=? b) eqn:E
              | |- context [jeita_status ?g =? ?c] =>
                  let N := fresh "N" in
                  destruct (Z.eqb_spec (jeita_status g) c) as [N|N];
                  [rewrite N|]
              end;
    cbn [negb orb andb Z.eqb Pos.eqb]; try reflexivity; try discriminate.
Qed.

(** ** Emergency stop and the chargers *)

(** [stopped] of a state built by field updates and events from a
    stopped state. *)
Ltac stopped_wrap :=
  unfold stopped in *; rsimpl;
  rewrite ?(proj2 (uevent_notify_desc _ _));
  repeat match goal with
         | |- context [if ?c then _ else _] => destruct c
         end;
  rsimpl; rewrite ?(proj2 (uevent_notify_desc _ _));
  first [ assumption | split; tauto | split; congruence ].

Ltac note_stopped :=
  note_frames;
  repeat match goal with
  | F : only_bus ?s0 ?s1 |- _ =>
      lazymatch goal with
      | _ : stopped s1 |- _ => fail
      | _ => idtac
      end;
      assert (stopped s1)
        by (destruct F as [Fc _ _ _ _ _ _ _]; unfold stopped;
            rewrite Fc; stopped_wrap)
  | E : ?g ?s0 = Some (_, ?s1) |- _ =>
      lazymatch goal with
      | _ : stopped s1 |- _ => fail
      | _ => idtac
      end;
      assert (stopped s1)
        by (match goal with
            | IH : context [stopped] |- _ =>
                eapply IH; [|exact E]; stopped_wrap
            end)
  end.

Ltac stopped_absurd :=
  exfalso; unfold stopped in *;
  repeat match goal with H : _ /\ _ |- _ => destruct H end;
  repeat match goal with
         | Hc : charger_enabled ?c = false, E : context [charger_enabled ?c]
           |- _ => rewrite Hc in E
         end;
  cbn [eqb] in *; congruence.

Ltac stopped_of H :=
  explode; subst; note_stopped;
  first [ stopped_absurd | stopped_wrap ].

(** The chargers are switched and the currents adjusted without
    lifting an emergency stop or turning a charger on under one. *)
Lemma charger_switching_keeps_stopped fuel :
  (forall e st r st',
      stopped st -> try_charger_enable bus fuel e st = Some (r, st') ->
      stopped st')
  /\ (forall e st r st',
         stopped st -> try_fast_charger_enable bus fuel e st = Some (r, st') ->
         stopped st')
  /\ (forall st r st',
         stopped st -> cm_fast_charge_enable_check bus fuel st = Some (r, st') ->
         stopped st')
  /\ (forall st r st',
         stopped st -> cm_fast_charge_disable bus fuel st = Some (r, st') ->
         stopped st')
  /\ (forall st r st',
         stopped st -> cm_fast_charge_disable_check bus fuel st = Some (r, st') ->
         stopped st')
  /\ (forall js st r st',
         stopped st -> cm_manager_adjust_current bus fuel js st = Some (r, st') ->
         stopped st').
Proof.
  induction fuel as [|fuel (IH1 & IH2 & IH3 & IH4 & IH5 & IH6)].
  { repeat match goal with |- _ /\ _ => split end; intros; discriminate. }
  repeat match goal with |- _ /\ _ => split end; intros.
  - cbn [try_charger_enable] in H0. stopped_of H0.
  - cbn [try_fast_charger_enable] in H0. stopped_of H0.
  - cbn [cm_fast_charge_enable_check] in H0.
    destruct H as [He Hc]. rewrite He in H0. inversion H0; subst.
    split; assumption.
  - cbn [cm_fast_charge_disable] in H0.
    unfold cm_manager_get_jeita_status in H0. stopped_of H0.
  - cbn [cm_fast_charge_disable_check] in H0. stopped_of H0.
  - cbn [cm_manager_adjust_current] in H0. stopped_of H0.
Qed.

(** X3. Under an emergency stop with the chargers off, neither
    try_charger_enable, whatever it is asked, nor the JEITA adjustment
    of the current, whatever the zone, turns a charger on or lifts the
    stop: they return in a state that is still stopped. *)
Theorem emergency_stop_keeps_chargers_off fuel e js st :
  stopped st ->
  match try_charger_enable bus fuel e st with
  | Some (_, st') => stopped st'
  | None => True
  end
  /\ match cm_manager_adjust_current bus fuel js st with
     | Some (_, st') => stopped st'
     | None => True
     end.
Proof.
  intros H.
  destruct (charger_switching_keeps_stopped fuel)
    as (K1 & _ & _ & _ & _ & K6).
  split.
  - destruct (try_charger_enable bus fuel e st) as [[r st']|] eqn:E;
      [eapply K1; eauto|exact I].
  - destruct (cm_manager_adjust_current bus fuel js st) as [[r st']|] eqn:E;
      [eapply K6; eauto|exact I].
Qed.

(** X4. While an emergency stop is latched a request to enable the
    chargers does nothing at all: the state, the log of the bus
    included, is the one it was given, and the answer is -EAGAIN, or 0
    when charger_enabled was already set. *)
Theorem try_charger_enable_refused_under_emergency fuel st :
  is_event (emergency_stop (cm st)) = true ->
  try_charger_enable bus (S (S (S fuel))) true st
  = Some (if charger_enabled (cm st) then 0 else - EAGAIN, st).
Proof.
  intros H. cbn [try_charger_enable try_fast_charger_enable
                   cm_fast_charge_enable_check].
  rewrite H. cbv beta iota. change (neqz (- EAGAIN)) with true.
  cbv beta iota. rewrite H.
  destruct (charger_enabled (cm st)); reflexivity.
Qed.

(** ** The direction and the rate of the reported capacity *)

Lemma cm_batt_works_charging_bounds fc ua period flush st :
  0 <= fc <= 1000 -> 0 <= cap (desc st) <= 1000 ->
  0 <= flush_step flush (desc st) ->
  let fc' := fst (cm_batt_works_charging fc ua period flush st) in
  cap (desc st) - flush_step flush (desc st) <= fc'
    <= cap (desc st) + flush_step flush (desc st)
  /\ (0 <= ua -> cap (desc st) <= fc').
Proof.
  intros Hfc Hcap Hx. unfold cm_batt_works_charging, CM_CAP_FULL_PERCENT.
  rsimpl. generalize dependent (flush_step flush (desc st)). intros X Hx.
  zcases; rsimpl; repeat split; try reflexivity; lia.
Qed.

Lemma cm_batt_works_discharging_bounds fc period flush st :
  0 <= fc <= 1000 -> 0 <= cap (desc st) <= 1000 ->
  0 <= flush_step flush (desc st) ->
  let fc' := fst (cm_batt_works_discharging fc period flush st) in
  cap (desc st) - Z.max 10 (flush_step flush (desc st)) <= fc'
    <= cap (desc st).
Proof.
  intros Hfc Hcap Hx.
  unfold cm_batt_works_discharging, CM_HCAP_THRESHOLD, CM_HCAP_DECREASE_STEP,
    CM_CAP_ONE_PERCENT.
  rsimpl. generalize dependent (flush_step flush (desc st)). intros X Hx.
  generalize (sub32 (last_fuel_cap (gl st)) fc). intros L.
  zcases; rsimpl; repeat split; try reflexivity; lia.
Qed.

(** cm_batt_works_filter as its switch and its publication: the
    status it stores is the one it switches on. *)
Lemma cm_batt_works_filter_switch uV ocv ua soc tmp st :
  exists status fc0 period s7 fc s8,
    keeps_cap st s7
    /\ charger_status (desc s7) = status
    /\ 0 <= fc0 <= 1000
    /\ cm_batt_works_switch bus status fc0 ocv ua period
         (wrap32 (boottime_s (hw st) - update_capacity_time (desc st)))
         (boottime_s (hw st)) s7 = (fc, s8)
    /\ cm_batt_works_filter bus power_supply_ocv2cap_simple
         uV ocv ua soc tmp st
       = cm_batt_works_publish bus power_supply_ocv2cap_simple
           fc uV (boottime_s (hw st)) s8.
Proof.
  unfold cm_batt_works_filter.
  destruct (cm_batt_works_low_temp _ _ _ _) as [f1 s2] eqn:E1.
  apply cm_batt_works_low_temp_keeps_cap in E1.
  match goal with
  | |- context [cm_batt_works_chg_sts bus ?s] =>
      assert (K3 : keeps_cap s2 s)
        by (destruct (last_fuel_cap (gl s2) =? CM_CAP_MAGIC_NUM); fields);
      destruct (cm_batt_works_chg_sts bus s) as [c s4] eqn:E2;
      generalize dependent s; intros s3 K3 E2
  end.
  apply cm_batt_works_chg_sts_keeps_cap in E2.
  pose proof (cm_batt_works_trickle_keeps_cap c (boottime_s (hw s3)) s4)
    as K5.
  remember (cm_batt_works_trickle c (boottime_s (hw s3)) s4) as s5 eqn:Hs5.
  clear Hs5.
  match goal with
  | |- context [cm_batt_works_status bus c ?s] =>
      assert (K6 : keeps_cap s5 s) by fields;
      destruct (cm_batt_works_status bus c s) as [status s7] eqn:E3;
      generalize dependent s; intros s6 K6 E3
  end.
  apply cm_batt_works_status_keeps_cap in E3. destruct E3 as [K7 Hst].
  assert (K : keeps_cap st s7).
  { eapply keeps_cap_trans; [|exact K7].
    eapply keeps_cap_trans; [|exact K6].
    eapply keeps_cap_trans; [|exact K5].
    eapply keeps_cap_trans; [|exact E2].
    eapply keeps_cap_trans; [|exact K3].
    eapply keeps_cap_trans; [|exact E1]. fields. }
  assert (Hb : boottime_s (hw s3) = boottime_s (hw st))
    by (destruct E1, K3; rsimpl; congruence).
  assert (Hu : update_capacity_time (desc s5)
               = update_capacity_time (desc st))
    by (destruct E1, K3, E2, K5; rsimpl; congruence).
  rewrite Hb, Hu.
  match goal with
  | |- context [cm_batt_works_switch bus ?a ?b ?c ?d ?e ?f ?g ?s] =>
      destruct (cm_batt_works_switch bus a b c d e f g s) as [fc s8] eqn:E4;
      exists a, b, e, s, fc, s8
  end.
  split; [exact K|]. split; [exact Hst|].
  split; [apply clamp_fuel_cap_range|]. split; [exact E4|reflexivity].
Qed.

(** What one run of the filter does to the reported value, by the
    status it stores. *)
Lemma cm_batt_works_filter_bounds uV ocv ua soc tmp st :
  0 <= cap (desc st) <= 1000 ->
  0 < cap_one_time (desc st) ->
  0 <= update_capacity_time (desc st) <= boottime_s (hw st) ->
  boottime_s (hw st) <= UPTIME_MAX ->
  let st' := cm_batt_works_filter bus power_supply_ocv2cap_simple
               uV ocv ua soc tmp st in
  let step := flush_step (boottime_s (hw st)
                          - update_capacity_time (desc st)) (desc st) in
  let old := cap (desc st) in
  let new := cap (desc st') in
  (charger_status (desc st') = POWER_SUPPLY_STATUS_CHARGING ->
   old - step <= new <= old + step /\ (0 <= ua -> old <= new))
  /\ (charger_status (desc st') = POWER_SUPPLY_STATUS_NOT_CHARGING
      \/ charger_status (desc st') = POWER_SUPPLY_STATUS_DISCHARGING ->
      old - Z.max 10 step <= new <= old).
Proof.
  intros Hcap Hone Hupd Hnow. cbv zeta.
  destruct (cm_batt_works_filter_switch uV ocv ua soc tmp st)
    as (status & fc0 & period & s7 & fc & s8 & K & Hst & Hfc0 & E4 & ->).
  pose proof (flush_step_nonneg _ _ Hone Hupd Hnow) as Hx.
  rewrite wrap32_id in E4
    by (unfold INT_MIN, INT_MAX, UPTIME_MAX in *; lia).
  rewrite wrap32_id in Hx
    by (unfold INT_MIN, INT_MAX, UPTIME_MAX in *; lia).
  match goal with
  | |- context [cm_batt_works_publish _ _ ?a ?b ?c ?s] =>
      destruct (cm_batt_works_publish_cap a b c s)
        as (Hc9 & _ & Hs9 & _)
  end.
  rewrite Hc9, Hs9.
  pose proof (cm_batt_works_switch_frame status fc0 ocv ua period
                (boottime_s (hw st) - update_capacity_time (desc st))
                (boottime_s (hw st)) s7) as F.
  rewrite E4 in F. destruct F as (_ & _ & Hs8 & _).
  rewrite Hs8, Hst.
  destruct K as [Kc Ko _ _ _ _].
  assert (Hstep : flush_step (boottime_s (hw st)
                              - update_capacity_time (desc st)) (desc s7)
                  = flush_step (boottime_s (hw st)
                                - update_capacity_time (desc st)) (desc st))
    by (unfold flush_step; rewrite Ko; reflexivity).
  unfold cm_batt_works_switch in E4.
  split.
  - intros ->. cbn [Z.eqb Pos.eqb POWER_SUPPLY_STATUS_CHARGING] in E4.
    change (POWER_SUPPLY_STATUS_CHARGING =? POWER_SUPPLY_STATUS_CHARGING)
      with true in E4. cbv beta iota in E4.
    pose proof (cm_batt_works_charging_bounds fc0 ua period
                  (boottime_s (hw st) - update_capacity_time (desc st)) s7)
      as B.
    rewrite E4, Hstep, Kc in B. cbn [fst] in B. apply B; lia.
  - intros Hd.
    assert (E : cm_batt_works_discharging fc0 period
                  (boottime_s (hw st) - update_capacity_time (desc st)) s7
                = (fc, s8))
      by (destruct Hd as [Hd|Hd]; rewrite Hd in E4; exact E4).
    pose proof (cm_batt_works_discharging_bounds fc0 period
                  (boottime_s (hw st) - update_capacity_time (desc st)) s7)
      as B.
    rewrite E, Hstep, Kc in B. cbn [fst] in B. apply B; lia.
Qed.

(** X5. In not charging status the reported capacity is not allowed to
    increase: after a run of cm_batt_works that leaves the status Not
    charging or Discharging, the reported value is at most what it
    was. *)
Theorem reported_capacity_never_rises_off_charge st :
  0 <= cap (desc st) <= 1000 ->
  0 < cap_one_time (desc st) ->
  0 <= update_capacity_time (desc st) <= boottime_s (hw st) ->
  boottime_s (hw st) <= UPTIME_MAX ->
  let st' := cm_batt_works bus power_supply_ocv2cap_simple st in
  charger_status (desc st') = POWER_SUPPLY_STATUS_NOT_CHARGING
  \/ charger_status (desc st') = POWER_SUPPLY_STATUS_DISCHARGING ->
  cap (desc st') <= cap (desc st).
Proof.
  intros Hcap Hone Hupd Hnow. cbv zeta.
  destruct (cm_batt_works_cases st)
    as [F | (uV & ocv & ua & soc & tmp & s & F & ->)].
  - destruct F as [_ Hd _ _ _ _ _ _]. rewrite Hd. lia.
  - destruct F as [_ Hd _ _ Hb _ _ _]. intros Hs.
    pose proof (cm_batt_works_filter_bounds uV ocv ua soc tmp s) as B.
    cbv zeta in B. rewrite Hd, Hb in B.
    destruct B as [_ B]; try assumption.
    specialize (B Hs). lia.
Qed.

(** X6. The reported capacity moves no faster than the clock allows.
    With [step] = 10 * (seconds since the last update / cap_one_time)
    per mille: a run that leaves the status Charging moves the value
    by at most [step], and not down when the battery current is not
    negative; a run that leaves it Not charging or Discharging lowers
    it by at most the larger of [step] and 10. *)
Theorem reported_capacity_rate uV ocv ua soc tmp st :
  0 <= cap (desc st) <= 1000 ->
  0 < cap_one_time (desc st) ->
  0 <= update_capacity_time (desc st) <= boottime_s (hw st) ->
  boottime_s (hw st) <= UPTIME_MAX ->
  let st' := cm_batt_works_filter bus power_supply_ocv2cap_simple
               uV ocv ua soc tmp st in
  let step := flush_step (boottime_s (hw st)
                          - update_capacity_time (desc st)) (desc st) in
  (charger_status (desc st') = POWER_SUPPLY_STATUS_CHARGING ->
   cap (desc st) - step <= cap (desc st') <= cap (desc st) + step
   /\ (0 <= ua -> cap (desc st) <= cap (desc st')))
  /\ (charger_status (desc st') = POWER_SUPPLY_STATUS_NOT_CHARGING
      \/ charger_status (desc st') = POWER_SUPPLY_STATUS_DISCHARGING ->
      cap (desc st) - Z.max 10 step <= cap (desc st')).
Proof.
  intros Hcap Hone Hupd Hnow.
  pose proof (cm_batt_works_filter_bounds uV ocv ua soc tmp st
                Hcap Hone Hupd Hnow) as B.
  cbv zeta in *. destruct B as [B1 B2]. split; [exact B1|].
  intros Hs. apply B2 in Hs. lia.
Qed.

(** ** Repeated events *)

Lemma substring_idempotent n : forall s,
  substring 0 n (substring 0 n s) = substring 0 n s.
Proof.
  induction n as [|n IH]; intros s; destruct s as [|c s]; cbn [substring];
    try reflexivity.
  rewrite IH. reflexivity.
Qed.

Lemma strncmp_eq_strn ev : strncmp_eq (strn ev) ev = true.
Proof.
  unfold strncmp_eq, strn. rewrite substring_idempotent.
  apply String.eqb_refl.
Qed.

(** X7. An event notified twice in a row counts once: the second call
    of uevent_notify with the same message changes nothing, suspended
    or not, so it is neither delivered again nor buffered again. *)
Theorem uevent_notify_twice ev st :
  uevent_notify (Some ev) (uevent_notify (Some ev) st)
  = uevent_notify (Some ev) st.
Proof.
  unfold uevent_notify at 2 3.
  destruct (cm_suspended (gl st)) eqn:Hs;
    [destruct (String.eqb (env_str_save (gl st)) EmptyString) eqn:Hb|];
    match goal with
    | |- context [strncmp_eq ?a ev] => destruct (strncmp_eq a ev) eqn:Hc
    end;
    unfold uevent_notify, emit; rsimpl;
    rewrite ?Hs, ?Hb, ?Hc, ?strncmp_eq_strn; try reflexivity.
  - destruct (String.eqb (strn ev) EmptyString); rewrite ?Hc; reflexivity.
  - destruct (String.eqb (strn ev) EmptyString);
      try destruct (strncmp_eq (env_str (gl st)) ev); reflexivity.
Qed.

(** ** What full means *)

(** Facts about the descriptor of a later state are brought back to the
    state the chain of bus calls started from. *)
Ltac to_origin :=
  repeat match goal with F : only_bus _ _ |- _ => destruct F end;
  rsimpl;
  repeat match goal with
         | H : desc ?a = desc ?b |- _ => try rewrite H in *; clear H
         | H : cm ?a = cm ?b |- _ => try rewrite H in *; clear H
         | H : gl ?a = gl ?b |- _ => try rewrite H in *; clear H
         end;
  repeat match goal with
         | H : _ && _ = true |- _ => apply andb_prop in H; destruct H
         | H : _ && _ = false |- _ => apply andb_false_iff in H; destruct H
         end.

(** X8. With the voltage and current thresholds of a full battery
    configured and no charge-counter threshold, is_full_charged answers
    full only when the reported capacity has reached 1000 per mille; it
    has then counted the criterion at least twice and forced the full
    flag.  The capacity threshold fullbatt_soc is not consulted. *)
Theorem is_full_charged_needs_reported_full st st' :
  fullbatt_full_capacity (desc st) <= 0 ->
  0 < fullbatt_uV (desc st) ->
  0 < fullbatt_uA (desc st) ->
  is_full_charged bus st = (true, st') ->
  CM_CAP_FULL_PERCENT <= cap (desc st)
  /\ force_set_full (desc st') = true
  /\ 1 < trigger_cnt (desc st').
Proof.
  intros Hcap HV HA H.
  apply Z.ltb_lt in HV, HA. apply Z.ltb_ge in Hcap.
  unfold is_full_charged, is_full_charged_vi in H.
  cbv beta iota zeta in H. explode; note_frames; to_origin;
    try congruence.
  all: repeat match goal with H : desc _ = _ |- _ => rewrite H end; rsimpl.
  all: repeat match goal with |- _ /\ _ => split end; try reflexivity.
  all: first [apply Z.leb_le | apply Z.ltb_lt]; assumption.
Qed.

(** ** The JEITA counters *)

Lemma only_queries_refl st : only_queries st st.
Proof. exists []. rewrite app_nil_r. split; reflexivity. Qed.

Lemma only_queries_trans a b c :
  only_queries a b -> only_queries b c -> only_queries a c.
Proof.
  intros [l [H1 Q1]] [k [H2 Q2]]. exists (l ++ k).
  rewrite H2, H1, app_assoc, forallb_app, Q1, Q2. split; reflexivity.
Qed.

Lemma power_supply_get_by_name_queries n st r st' :
  power_supply_get_by_name bus n st = (r, st') -> only_queries st st'.
Proof.
  unfold power_supply_get_by_name, ask. intros H. inversion H; subst.
  exists [EvBus (ReqLookup n)]. split; reflexivity.
Qed.

Lemma power_supply_get_property_queries n p st r st' :
  power_supply_get_property bus n p st = (r, st') -> only_queries st st'.
Proof.
  unfold power_supply_get_property, ask. intros H. inversion H; subst.
  exists [EvBus (ReqGet n p)]. split; reflexivity.
Qed.

Lemma charger_stat_any_queries p names :
  forall st r st',
    charger_stat_any bus p names st = (r, st') -> only_queries st st'.
Proof.
  induction names as [|n rest IH]; intros st r st' H; cbn [charger_stat_any] in H.
  - inversion H; subst. apply only_queries_refl.
  - destruct (power_supply_get_by_name bus n st) as [found s1] eqn:E1.
    apply power_supply_get_by_name_queries in E1.
    destruct (negb found).
    + eapply only_queries_trans; [exact E1 | eapply IH; exact H].
    + destruct (power_supply_get_property bus n p s1) as [[ret v] s2] eqn:E2.
      apply power_supply_get_property_queries in E2.
      destruct ((ret =? 0) && neqz v).
      * inversion H; subst. eapply only_queries_trans; eassumption.
      * eapply only_queries_trans; [exact E1|].
        eapply only_queries_trans; [exact E2 | eapply IH; exact H].
Qed.

Lemma is_ext_pwr_online_queries st r st' :
  is_ext_pwr_online bus st = (r, st') -> only_queries st st'.
Proof. apply charger_stat_any_queries. Qed.

(** One tick with both counters below 2: no zone comes into force. *)
Lemma jeita_tick_deferred fuel st :
  jeita_disabled (desc st) = false ->
  last_jeita_status (gl st) <> -1 ->
  0 <= temp_up_trigger (gl st) <= 1 ->
  0 <= temp_down_trigger (gl st) <= 1 ->
  exists r st',
    cm_manager_jeita_current_monitor bus fuel st = Some (r, st')
    /\ cm st' = cm st /\ desc st' = desc st
    /\ only_queries st st'
    /\ 0 <= temp_up_trigger (gl st') <= temp_up_trigger (gl st) + 1
    /\ 0 <= temp_down_trigger (gl st') <= temp_down_trigger (gl st) + 1
    /\ (last_jeita_status (gl st') = last_jeita_status (gl st)
        \/ (last_jeita_status (gl st') = -1
            /\ fst (is_ext_pwr_online bus st) = false)).
Proof.
  intros Hd Hl Hu Hw. unfold cm_manager_jeita_current_monitor.
  destruct (jeita_tab_size (desc st) =? 0).
  { do 2 eexists. split; [reflexivity|].
    repeat match goal with |- _ /\ _ => split end;
      try reflexivity; try lia; auto using only_queries_refl. }
  destruct (is_ext_pwr_online bus st) as [online s1] eqn:E.
  pose proof (is_ext_pwr_online_queries _ _ _ E) as Q.
  assert (F : only_bus st s1) by eauto 2 with frame.
  destruct F as [Fcm Fdesc Fgl _ _ _ _ _]. cbn [fst].
  destruct online; cbn [negb];
    [| do 2 eexists; split; [reflexivity|];
       destruct (last_jeita_status (gl s1) =? -1) eqn:E1; cbn [negb]; rsimpl;
       rewrite ?Fgl, ?Fcm, ?Fdesc;
       repeat match goal with |- _ /\ _ => split end;
       try reflexivity; try lia; auto;
       destruct Q as [l [Q1 Q2]]; exists l; split; assumption ].
  rewrite Fdesc, Hd.
  unfold cm_manager_get_jeita_status.
  cbv beta iota zeta. rsimpl. rewrite Fgl.
  match goal with
  | |- context [last_jeita_status (gl st) <? ?c] => set (cur := c)
  end.
  destruct (last_jeita_status (gl st) =? -1) eqn:E1; [lia|].
  destruct (last_jeita_status (gl st) <? cur) eqn:E2;
    [|destruct (cur <? last_jeita_status (gl st)) eqn:E3];
    rsimpl; rewrite ?Fgl; unwrap.
  all: repeat match goal with
              | |- context [2 <? ?c] =>
                  replace (2 <? c) with false by (symmetry; apply Z.ltb_ge; lia)
              end.
  all: rsimpl;
    match goal with
    | |- context [negb (is_normal ?g)] => destruct (negb (is_normal g))
    end;
    do 2 eexists; (split; [reflexivity|]); rsimpl;
    rewrite ?Fgl, ?Fcm, ?Fdesc; rsimpl;
    repeat match goal with |- _ /\ _ => split end;
    try reflexivity; try lia; auto.
  all: unwrap; lia.
Qed.

(** X9. The hysteresis of the JEITA monitor, from counters at zero.  With
    JEITA enabled, a zone in force, both trigger counters at 0 and
    external power online, the next two ticks bring no zone into force,
    whatever the temperatures: each returns, sends nothing but queries
    to the bus, and leaves the manager and its descriptor as they
    were.  The zone in force is the same after the first tick, and
    after the second too unless external power is then seen offline,
    which forgets it. *)
Theorem jeita_change_needs_three_ticks fuel t st :
  jeita_disabled (desc st) = false ->
  last_jeita_status (gl st) <> -1 ->
  temp_up_trigger (gl st) = 0 ->
  temp_down_trigger (gl st) = 0 ->
  fst (is_ext_pwr_online bus st) = true ->
  exists r1 st1 r2 st2,
    cm_manager_jeita_current_monitor bus fuel st = Some (r1, st1)
    /\ cm_manager_jeita_current_monitor bus fuel
         (on_desc (set_temperature t) st1) = Some (r2, st2)
    /\ cm st1 = cm st /\ desc st1 = desc st /\ only_queries st st1
    /\ last_jeita_status (gl st1) = last_jeita_status (gl st)
    /\ cm st2 = cm st /\ desc st2 = set_temperature t (desc st)
    /\ only_queries st st2
    /\ (last_jeita_status (gl st2) = last_jeita_status (gl st)
        \/ (last_jeita_status (gl st2) = -1
            /\ fst (is_ext_pwr_online bus (on_desc (set_temperature t) st1))
               = false)).
Proof.
  intros Hd Hl Hu Hw Hon.
  destruct (jeita_tick_deferred fuel st Hd Hl) as
    (r1 & st1 & R1 & C1 & D1 & Q1 & U1 & W1 & L1); [lia..|].
  destruct L1 as [L1|[_ L1]]; [|congruence].
  destruct (jeita_tick_deferred fuel (on_desc (set_temperature t) st1)) as
    (r2 & st2 & R2 & C2 & D2 & Q2 & U2 & W2 & L2);
    rsimpl; rewrite ?D1, ?L1; rsimpl; auto; try lia.
  exists r1, st1, r2, st2. rsimpl.
  repeat match goal with |- _ /\ _ => split end; auto; try congruence;
    try (eapply only_queries_trans; [exact Q1|exact Q2]);
    try (rewrite <- L1; exact L2).
Qed.

(** ** Under-voltage shutdown *)

Lemma n_poweroff_app l k :
  n_poweroff (l ++ k) = (n_poweroff l + n_poweroff k)%nat.
Proof.
  induction l as [|e l IH]; [reflexivity|].
  destruct e; cbn [app n_poweroff]; rewrite IH; reflexivity.
Qed.

Lemma cm_uvlo_check_work_counts st :
  0 <= uvlo_trigger_cnt (desc st) ->
  uvlo_trigger_cnt (desc st) + 1 < CM_UVLO_CALIBRATION_CNT_THRESHOLD ->
  let st' := cm_uvlo_check_work bus st in
  n_poweroff (log (hw st')) = n_poweroff (log (hw st))
  /\ 0 <= uvlo_trigger_cnt (desc st') <= uvlo_trigger_cnt (desc st) + 1.
Proof.
  unfold CM_UVLO_CALIBRATION_CNT_THRESHOLD. intros H0 H1.
  unfold cm_uvlo_check_work, get_batt_uV, fuel_gauge_get,
    power_supply_get_by_name, power_supply_get_property, ask.
  unfold CM_UVLO_CALIBRATION_CNT_THRESHOLD.
  cbv beta iota zeta. rsimpl.
  repeat match goal with
         | |- context [if negb ?c then _ else _] => destruct c; cbn [negb]; rsimpl
         | |- context [if neqz ?c then _ else _] => destruct (neqz c); rsimpl
         | |- context [if ?a <? ?b then _ else _] =>
             destruct (a <? b); rsimpl
         | |- context [if ?a <=? add32 ?c 1 then _ else _] =>
             replace (a <=? add32 c 1) with false
               by (symmetry; apply Z.leb_gt; unwrap; lia); rsimpl
         | |- context [if ?a <=? 0 then _ else _] =>
             replace (a <=? 0) with false by reflexivity; rsimpl
         end.
  all: unfold emit; rsimpl; rewrite ?n_poweroff_app; cbn [n_poweroff];
    (split; [lia | unwrap; lia]).
Qed.

(** X10. The under-voltage check powers the device off only at the fifth
    low reading in a row.  From a counter at c, n runs of
    cm_uvlo_check_work with c + n below 5 request no power-off, whatever
    the gauge answers. *)
Theorem uvlo_poweroff_needs_five_low_readings n st :
  0 <= uvlo_trigger_cnt (desc st) ->
  uvlo_trigger_cnt (desc st) + Z.of_nat n
    < CM_UVLO_CALIBRATION_CNT_THRESHOLD ->
  let st' := Nat.iter n (cm_uvlo_check_work bus) st in
  n_poweroff (log (hw st')) = n_poweroff (log (hw st))
  /\ 0 <= uvlo_trigger_cnt (desc st')
       <= uvlo_trigger_cnt (desc st) + Z.of_nat n.
Proof.
  induction n as [|n IH]; intros H0 H1; cbv zeta in *;
    unfold Nat.iter in *; cbn [nat_rect].
  - split; [reflexivity|lia].
  - destruct IH as [P C]; [assumption|lia|].
    destruct (cm_uvlo_check_work_counts
                (nat_rect _ st (fun _ => cm_uvlo_check_work bus) n))
      as [P' C'];
      [lia|lia|].
    split; [congruence|lia].
Qed.

(** ** The tracker without its file *)

Lemma n_work_app l k : n_work (l ++ k) = (n_work l + n_work k)%nat.
Proof.
  induction l as [|e l IH]; [reflexivity|].
  destruct e; cbn [app n_work]; rewrite IH; reflexivity.
Qed.

(** X11. The retries of the tracker are bounded.  While the tracker file
    cannot be opened, a tracker in its initial state with retry_cnt = k
    queues itself again k times, five seconds apart, and gives up on
    run k + 1: the state is then CAP_TRACK_ERR, and the descriptor has
    not been touched. *)
Theorem track_open_retries_are_bounded k :
  forall st,
    (forall n, r_found (bus n ReqOpen) = false) ->
    state (track (cm st)) = CAP_TRACK_INIT ->
    retry_cnt (gl st) = Z.of_nat k ->
    Z.of_nat k <= INT_MAX ->
    let st' := Nat.iter (S k) (cm_track_capacity_work bus) st in
    state (track (cm st')) = CAP_TRACK_ERR
    /\ n_work (log (hw st')) = (n_work (log (hw st)) + k)%nat
    /\ desc st' = desc st.
Proof.
  induction k as [|k IH]; intros st Hb Hs Hr Hk; cbv zeta.
  - unfold Nat.iter; cbn [nat_rect].
    unfold cm_track_capacity_work, ask. rewrite Hb. cbn [negb]. rsimpl.
    rewrite Hs, Hr. cbn. rewrite n_work_app. cbn [n_work].
    repeat split; lia.
  - rewrite Nat.iter_succ_r.
    assert (F : cm_track_capacity_work bus st
                = emit (EvWork "track_capacity_work" 5000)
                    (on_gl (set_retry_cnt (Z.of_nat k))
                       (snd (ask bus ReqOpen st)))).
    { unfold cm_track_capacity_work, ask. rewrite Hb. cbn [negb snd]. rsimpl.
      rewrite Hs, Hr. cbn [andb].
      replace (0 <? Z.of_nat (S k)) with true by (symmetry; apply Z.ltb_lt; lia).
      unfold emit, on_gl, on_hw, set_retry_cnt, sub32. cbn. rewrite Hr.
      rewrite wrap32_id by (unfold INT_MIN, INT_MAX in *; lia).
      replace (Z.of_nat (S k) - 1) with (Z.of_nat k) by lia. reflexivity. }
    assert (Hs' : state (track (cm (cm_track_capacity_work bus st)))
                  = CAP_TRACK_INIT)
      by (rewrite F; unfold emit, ask; rsimpl; exact Hs).
    assert (Hr' : retry_cnt (gl (cm_track_capacity_work bus st)) = Z.of_nat k)
      by (rewrite F; unfold emit, ask; rsimpl; reflexivity).
    destruct (IH (cm_track_capacity_work bus st) Hb Hs' Hr') as (A & B & C);
      [lia|].
    split; [exact A|]. split.
    + rewrite B, F. unfold emit, ask. rsimpl.
      rewrite !n_work_app. cbn [n_work]. lia.
    + rewrite C, F. reflexivity.
Qed.

(** ** The monitor under an emergency stop *)

Lemma only_bus_keeps_stopped st st' :
  only_bus st st' -> stopped st -> stopped st'.
Proof. intros [Fc _ _ _ _ _ _ _]. unfold stopped. rewrite Fc. tauto. Qed.

(** X12. An emergency stop outlasts its alert.  A monitor tick that starts
    under an emergency stop with the chargers off ends under it, the
    chargers still off, unless the thermal check of this tick found the
    temperature back within its limits. *)
Theorem emergency_stop_outlasts_alert fuel st :
  stopped st ->
  match _cm_monitor bus fuel st with
  | Some (_, st') =>
      stopped st'
      \/ (let '(_, s1) := cm_feed_watchdog bus st in
          fst (cm_check_thermal_status bus s1) = CM_EVENT_UNKNOWN)
  | None => True
  end.
Proof.
  intros H. unfold _cm_monitor.
  destruct (cm_feed_watchdog bus st) as [ret s1] eqn:E1.
  assert (H1 : stopped s1)
    by (eapply only_bus_keeps_stopped; [eauto 2 with frame|exact H]).
  destruct (neqz ret); [left; exact H1|].
  destruct (existsb (fun b => b) (externally_control (desc s1)));
    [left; exact H1|].
  destruct (cm_check_thermal_status bus s1) as [alrt s2] eqn:E2.
  assert (H2 : stopped s2)
    by (eapply only_bus_keeps_stopped; [eauto 2 with frame|exact H1]).
  cbn [fst].
  destruct (is_event alrt) eqn:Ea.
  - rewrite (proj1 H2). cbn [andb]. left; exact H2.
  - cbn [andb].
    assert (alrt = CM_EVENT_UNKNOWN) by (destruct alrt; try discriminate; reflexivity).
    destruct (_ : option (bool * machine)); [|exact I].
    destruct p. right. assumption.
Qed.

(** ** The states of the tracker *)

(** Requests to the bus queue no work. *)
Lemma ask_n_work rq st r st' :
  ask bus rq st = (r, st') -> n_work (log (hw st')) = n_work (log (hw st)).
Proof.
  unfold ask. intros H. inversion H; subst. rsimpl.
  rewrite n_work_app. cbn [n_work]. lia.
Qed.

Lemma only_queries_n_work st st' :
  only_queries st st' -> n_work (log (hw st')) = n_work (log (hw st)).
Proof.
  intros [l [H Q]]. rewrite H, n_work_app.
  assert (n_work l = 0%nat); [|lia].
  clear H. induction l as [|e l IH]; [reflexivity|].
  cbn [forallb] in Q. apply andb_prop in Q. destruct Q as [Q1 Q2].
  destruct e; try discriminate; cbn [n_work]; auto.
Qed.

Lemma fuel_gauge_get_queries p st r st' :
  fuel_gauge_get bus p st = (r, st') -> only_queries st st'.
Proof.
  unfold fuel_gauge_get. intros H.
  destruct (power_supply_get_by_name bus _ st) as [f s1] eqn:E1.
  apply power_supply_get_by_name_queries in E1.
  destruct (negb f); [inversion H; subst; exact E1|].
  destruct (power_supply_get_property bus _ p s1) as [[ret v] s2] eqn:E2.
  apply power_supply_get_property_queries in E2.
  destruct (neqz ret); inversion H; subst;
    eapply only_queries_trans; eassumption.
Qed.

Lemma is_batt_present_queries st r st' :
  is_batt_present bus st = (r, st') -> only_queries st st'.
Proof.
  unfold is_batt_present. intros H.
  destruct (battery_present (desc st)).
  - inversion H; subst. apply only_queries_refl.
  - inversion H; subst. apply only_queries_refl.
  - destruct (power_supply_get_by_name bus _ st) as [f s1] eqn:E1.
    apply power_supply_get_by_name_queries in E1.
    destruct (negb f); [inversion H; subst; exact E1|].
    destruct (power_supply_get_property bus _ _ s1) as [[ret v] s2] eqn:E2.
    apply power_supply_get_property_queries in E2.
    inversion H; subst. eapply only_queries_trans; eassumption.
  - eapply charger_stat_any_queries; exact H.
Qed.

Lemma fuel_gauge_set_n_work p v st r st' :
  fuel_gauge_set bus p v st = (r, st') ->
  n_work (log (hw st')) = n_work (log (hw st)).
Proof.
  unfold fuel_gauge_set, power_supply_get_by_name, power_supply_set_property.
  intros H.
  destruct (ask bus _ st) as [r1 s1] eqn:E1. apply ask_n_work in E1.
  destruct (negb (r_found r1)); [inversion H; subst; exact E1|].
  destruct (ask bus _ s1) as [r2 s2] eqn:E2. apply ask_n_work in E2.
  inversion H; subst. congruence.
Qed.

(** X13. The moves of the tracker under its monitor.  One call of
    cm_track_capacity_monitor keeps the state of the tracker, or moves
    it from idle to updating, from updating back to idle, or from
    updating to done; it queues the tracker work exactly when it moves
    to done, and never otherwise. *)
Theorem track_monitor_moves st :
  let st' := cm_track_capacity_monitor bus power_supply_ocv2cap_simple st in
  match state (track (cm st)), state (track (cm st')) with
  | CAP_TRACK_UPDATING, CAP_TRACK_DONE =>
      n_work (log (hw st')) = S (n_work (log (hw st)))
  | CAP_TRACK_IDLE, CAP_TRACK_IDLE
  | CAP_TRACK_IDLE, CAP_TRACK_UPDATING
  | CAP_TRACK_UPDATING, CAP_TRACK_UPDATING
  | CAP_TRACK_UPDATING, CAP_TRACK_IDLE
  | CAP_TRACK_INIT, CAP_TRACK_INIT
  | CAP_TRACK_ERR, CAP_TRACK_ERR
  | CAP_TRACK_DONE, CAP_TRACK_DONE =>
      n_work (log (hw st')) = n_work (log (hw st))
  | _, _ => False
  end.
Proof.
  cbv zeta.
  remember (cm_track_capacity_monitor bus power_supply_ocv2cap_simple st)
    as st' eqn:H.
  symmetry in H. unfold cm_track_capacity_monitor in H.
  cbv beta iota zeta in H.
  repeat split_in H; subst st'; note_frames.
  all: repeat match goal with
              | E : is_batt_present bus _ = _ |- _ =>
                  apply is_batt_present_queries, only_queries_n_work in E
              | E : fuel_gauge_get bus _ _ = _ |- _ =>
                  apply fuel_gauge_get_queries, only_queries_n_work in E
              | E : fuel_gauge_set bus _ _ _ = _ |- _ =>
                  apply fuel_gauge_set_n_work in E
              | E : ?f bus ?a = (_, ?b) |- _ =>
                  first [ apply fuel_gauge_get_queries, only_queries_n_work in E
                        | apply fuel_gauge_set_n_work in E ]
              | E : ?f bus _ ?a = (_, ?b) |- _ =>
                  apply fuel_gauge_set_n_work in E
              end.
  all: repeat match goal with
              | F : only_bus _ _ |- _ =>
                  let Fc := fresh "Fc" in
                  destruct F as [Fc _ _ _ _ _ _ _]
              end.
  all: unfold emit; rsimpl; rewrite ?n_work_app; cbn [n_work].
  all: repeat match goal with
              | H : cm ?a = _ |- _ => try rewrite H in *; clear H
              end; rsimpl.
  all: try match goal with
           | H : state (track (cm ?s)) = _ |- _ => rewrite H
           end.
  all: try match goal with
           | |- context [state (track (cm ?s))] =>
               destruct (state (track (cm s))); try discriminate
           end; try lia.
Qed.

(** ** What the answer of try_charger_enable means *)

(** X14. The answer 0 of try_charger_enable is backed by the flag.  When
    try_charger_enable returns 0, charger_enabled is what was asked
    for, with one exception: a request to enable is dropped, with
    answer 0 and the flag still false, when the presence check made in
    the call finds no battery and enabling without one is not
    allowed. *)
Theorem try_charger_enable_answer fuel enable st st' :
  try_charger_enable bus fuel enable st = Some (0, st') ->
  charger_enabled (cm st') = enable
  \/ (enable = true
      /\ charger_enabled (cm st') = false
      /\ allow_charger_enable (gl st') = false
      /\ exists s, is_batt_present bus s = (false, st')).
Proof.
  destruct fuel as [|fuel]; [discriminate|].
  cbn [try_charger_enable]. intros H.
  destruct (try_fast_charger_enable bus fuel enable st) as [[r s1]|] eqn:E1;
    [|discriminate].
  destruct (eqb enable (charger_enabled (cm s1))) eqn:Eq.
  { inversion H; subst. left. symmetry. apply eqb_prop. exact Eq. }
  destruct enable.
  - destruct (is_event (emergency_stop (cm s1))); [discriminate|].
    destruct (is_batt_present bus s1) as [present s2] eqn:E2.
    assert (F2 : only_bus s1 s2) by eauto 2 with frame.
    destruct F2 as [Fc _ _ _ _ _ _ _].
    destruct (negb present && negb (allow_charger_enable (gl s2))) eqn:Ea.
    + inversion H; subst. right.
      apply andb_prop in Ea. destruct Ea as [Ep Ea].
      apply negb_true_iff in Ep, Ea. subst present.
      split; [reflexivity|].
      split; [rewrite Fc; destruct (charger_enabled (cm s1));
              [discriminate Eq|reflexivity]|].
      split; [exact Ea|]. exists s1. exact E2.
    + destruct (try_charger_enable_by_psy bus true _) as [err s3] eqn:E3.
      inversion H; subst. left. reflexivity.
  - destruct (try_charger_enable_by_psy bus false _) as [err s3] eqn:E3.
    inversion H; subst. left. reflexivity.
Qed.

(** ** External power *)

(** X15. External power is online exactly when one of the chargers says
    so.  On a bus whose answers do not change, is_ext_pwr_online is
    true if and only if some charger of psy_charger_stat is found and
    answers the ONLINE query without error and with a non-zero value;
    chargers that are missing or fail to answer are passed over. *)
Theorem is_ext_pwr_online_some_charger st :
  (forall n rq, bus n rq = bus O rq) ->
  fst (is_ext_pwr_online bus st)
  = existsb (answers_online bus) (psy_charger_stat (desc st)).
Proof.
  intros Hb. unfold is_ext_pwr_online.
  generalize (psy_charger_stat (desc st)) as names.
  intros names. revert st.
  induction names as [|n rest IH]; intros st; [reflexivity|].
  cbn [charger_stat_any existsb].
  unfold power_supply_get_by_name, power_supply_get_property, ask,
    answers_online.
  rewrite (Hb (calls (hw st))).
  destruct (r_found (bus O (ReqLookup n))); cbn [negb andb orb];
    [|apply IH].
  rsimpl. rewrite (Hb (S (calls (hw st)))).
  destruct (_ && _); cbn [orb fst]; [reflexivity|apply IH].
Qed.

(** ** The counters of fast charge *)

(** X16. Fast charge is switched on the second check at the earliest.
    From an enable counter at 0, one call of cm_fast_charge_enable_check
    starts no handshake, and from a disable counter at 0, one call of
    cm_fast_charge_disable_check does not leave fast charge: each returns
    having sent nothing but queries to the bus, with the manager and
    the fast-charge flag as they were. *)
Theorem fast_charge_switch_needs_two_checks fuel st :
  fast_charge_enable_count (desc st) = 0 ->
  fast_charge_disable_count (desc st) = 0 ->
  (exists r st',
      cm_fast_charge_enable_check bus (S fuel) st = Some (r, st')
      /\ only_queries st st' /\ cm st' = cm st
      /\ enable_fast_charge (desc st') = enable_fast_charge (desc st))
  /\ (exists r st',
         cm_fast_charge_disable_check bus (S fuel) st = Some (r, st')
         /\ only_queries st st' /\ cm st' = cm st
         /\ enable_fast_charge (desc st') = enable_fast_charge (desc st)).
Proof.
  intros He Hd. split.
  - cbn [cm_fast_charge_enable_check].
    destruct (is_event (emergency_stop (cm st)));
      [do 2 eexists; split; [reflexivity|];
       auto using only_queries_refl|].
    destruct (psy_fast_charger_stat (desc st));
      [do 2 eexists; split; [reflexivity|];
       auto using only_queries_refl|].
    destruct (negb (is_fast_charge (desc st)) || enable_fast_charge (desc st));
      [do 2 eexists; split; [reflexivity|];
       auto using only_queries_refl|].
    destruct (get_batt_uV bus st) as [[ret uV] s1] eqn:E1.
    pose proof (fuel_gauge_get_queries _ _ _ _ E1) as Q1.
    assert (F1 : only_bus st s1) by eauto 2 with frame.
    destruct F1 as [Fc1 Fd1 _ _ _ _ _ _].
    destruct (neqz ret);
      [do 2 eexists; split; [reflexivity|]; rewrite Fc1, Fd1; auto|].
    destruct (get_batt_uA bus s1) as [[ret2 uA] s2] eqn:E2.
    pose proof (fuel_gauge_get_queries _ _ _ _ E2) as Q2.
    assert (F2 : only_bus s1 s2) by eauto 2 with frame.
    destruct F2 as [Fc2 Fd2 _ _ _ _ _ _].
    pose proof (only_queries_trans _ _ _ Q1 Q2) as Q.
    destruct (neqz ret2);
      [do 2 eexists; split; [reflexivity|]; rewrite Fc2, Fd2, Fc1, Fd1; auto|].
    destruct (CM_FAST_CHARGE_ENABLE_BATTERY_VOLTAGE <? uV); rsimpl;
      rewrite ?Fd2, ?Fd1, ?He; unwrap;
      change (0 + 1 <? CM_FAST_CHARGE_ENABLE_COUNT) with true;
      change (0 <? CM_FAST_CHARGE_ENABLE_COUNT) with true;
      cbv iota; do 2 eexists; (split; [reflexivity|]); rsimpl;
      rewrite ?Fc2, ?Fd2, ?Fc1, ?Fd1; rsimpl; auto.
  - cbn [cm_fast_charge_disable_check].
    destruct (negb (enable_fast_charge (desc st)));
      [do 2 eexists; split; [reflexivity|];
       auto using only_queries_refl|].
    destruct (get_batt_uV bus st) as [[ret uV] s1] eqn:E1.
    pose proof (fuel_gauge_get_queries _ _ _ _ E1) as Q1.
    assert (F1 : only_bus st s1) by eauto 2 with frame.
    destruct F1 as [Fc1 Fd1 _ _ _ _ _ _].
    destruct (neqz ret);
      [do 2 eexists; split; [reflexivity|]; rewrite Fc1, Fd1; auto|].
    destruct (get_batt_uA bus s1) as [[ret2 uA] s2] eqn:E2.
    pose proof (fuel_gauge_get_queries _ _ _ _ E2) as Q2.
    assert (F2 : only_bus s1 s2) by eauto 2 with frame.
    destruct F2 as [Fc2 Fd2 _ _ _ _ _ _].
    pose proof (only_queries_trans _ _ _ Q1 Q2) as Q.
    destruct (neqz ret2);
      [do 2 eexists; split; [reflexivity|]; rewrite Fc2, Fd2, Fc1, Fd1; auto|].
    destruct (uV <? CM_FAST_CHARGE_DISABLE_BATTERY_VOLTAGE); rsimpl;
      rewrite ?Fd2, ?Fd1, ?Hd; unwrap;
      change (0 + 1 <? CM_FAST_CHARGE_DISABLE_COUNT) with true;
      change (0 <? CM_FAST_CHARGE_DISABLE_COUNT) with true;
      cbv iota; do 2 eexists; (split; [reflexivity|]); rsimpl;
      rewrite ?Fc2, ?Fd2, ?Fc1, ?Fd1; rsimpl; auto.
Qed.

(** ** Charging *)

Lemma is_charging_loop_off names :
  forall st,
    charger_enabled (cm st) = false
    \/ is_event (emergency_stop (cm st)) = true ->
    is_charging_loop bus names st = (false, st).
Proof.
  induction names as [|n rest IH]; intros st H; [reflexivity|].
  cbn [is_charging_loop].
  destruct H as [H|H]; rewrite H.
  - destruct (is_event (emergency_stop (cm st))); cbn [negb];
      apply IH; left; exact H.
  - apply IH; right; exact H.
Qed.

(** X17. With the chargers disabled by the manager, or under an emergency
    stop, is_charging answers no without asking any charger: whatever
    the chargers would report, the only requests are those of the
    battery-presence check. *)
Theorem is_charging_needs_enabled_chargers st :
  charger_enabled (cm st) = false
  \/ is_event (emergency_stop (cm st)) = true ->
  is_charging bus st = (false, snd (is_batt_present bus st)).
Proof.
  intros H. unfold is_charging.
  destruct (is_batt_present bus st) as [present s1] eqn:E. cbn [snd].
  assert (F : only_bus st s1) by eauto 2 with frame.
  destruct F as [Fc _ _ _ _ _ _ _].
  destruct present; cbn [negb]; [|reflexivity].
  apply is_charging_loop_off. rewrite Fc. exact H.
Qed.

Lemma is_charging_loop_stateless names :
  (forall n rq, bus n rq = bus O rq) ->
  forall st,
    fst (is_charging_loop bus names st)
    = charger_enabled (cm st)
      && negb (is_event (emergency_stop (cm st)))
      && existsb (answers_charging bus) names.
Proof.
  intros Hb. induction names as [|n rest IH]; intros st.
  - cbn [is_charging_loop existsb fst]. rewrite andb_false_r. reflexivity.
  - destruct (charger_enabled (cm st)) eqn:He;
      [|rewrite is_charging_loop_off by (left; exact He); reflexivity].
    destruct (is_event (emergency_stop (cm st))) eqn:Es;
      [rewrite is_charging_loop_off by (right; exact Es); reflexivity|].
    cbn [is_charging_loop existsb negb andb]. rewrite He, Es. cbn [negb].
    unfold power_supply_get_by_name, power_supply_get_property, ask,
      answers_charging.
    cbv zeta. rewrite (Hb (calls (hw st))).
    destruct (r_found (bus O (ReqLookup n))); cbn [negb andb orb];
      [|rewrite IH; rsimpl; rewrite He, Es; reflexivity].
    rsimpl. rewrite (Hb (S (calls (hw st)))), (Hb (S (S (calls (hw st))))).
    unfold neqz.
    repeat match goal with
           | |- context [wrap32 ?x =? ?c] => destruct (wrap32 x =? c)
           end;
      cbn [negb andb orb fst]; rewrite ?IH; rsimpl; rewrite ?He, ?Es;
      reflexivity.
Qed.

(** X18. What charging means.  On a bus whose answers do not change,
    is_charging is true exactly when the battery is present, the
    manager has the chargers enabled, no emergency stop is latched, and
    some charger of psy_charger_stat is found, is online and reports a
    status other than full, discharging and not charging. *)
Theorem is_charging_some_charger st :
  (forall n rq, bus n rq = bus O rq) ->
  fst (is_charging bus st)
  = fst (is_batt_present bus st)
    && charger_enabled (cm st)
    && negb (is_event (emergency_stop (cm st)))
    && existsb (answers_charging bus) (psy_charger_stat (desc st)).
Proof.
  intros Hb. unfold is_charging.
  destruct (is_batt_present bus st) as [present s1] eqn:E. cbn [fst].
  assert (F : only_bus st s1) by eauto 2 with frame.
  destruct F as [Fc Fd _ _ _ _ _ _].
  destruct present; cbn [negb andb]; [|reflexivity].
  rewrite (is_charging_loop_stateless _ Hb), Fc, Fd. reflexivity.
Qed.

End Properties.

(** * The driver on the example board *)

Ltac by_computation :=
  vm_compute;
  repeat match goal with |- _ /\ _ => split end;
  first [ reflexivity | exact I | intro; discriminate ].

(** A handshake on which every request is accepted, and one on which the
    secondary charger refuses its current at the fourth request. *)
Lemma fast_charge_enable_handshake_witness :
  (get_batt_uV steady_bus fast_board
   = (0, 3800000, snd (get_batt_uV steady_bus fast_board))
   /\ fast_charge_enable_count (desc fast_board) = 1
   /\ all_accepted steady_bus 4 (handshake_requests (desc fast_board)) = true
   /\ all_accepted stalled_bus 4
        (firstn 3 (handshake_requests (desc fast_board))) = true
   /\ accepted (stalled_bus 7 (ReqSet "chg1" POWER_SUPPLY_PROP_STATUS 2))
        (ReqSet "chg1" POWER_SUPPLY_PROP_STATUS 2) = false)
  /\ (exists st' l,
         cm_fast_charge_enable_check steady_bus 5 fast_board = Some (0, st')
         /\ enable_fast_charge (desc st') = true
         /\ log (hw st') =
            [EvBus (ReqLookup "fg");
             EvBus (ReqGet "fg" POWER_SUPPLY_PROP_VOLTAGE_AVG);
             EvBus (ReqLookup "fg");
             EvBus (ReqGet "fg" POWER_SUPPLY_PROP_CURRENT_AVG)]
            ++ map EvBus
                 [ReqLookup "chg0";
                  ReqSet "chg0" POWER_SUPPLY_PROP_STATUS
                    CM_FAST_CHARGE_ENABLE_CMD;
                  ReqLookup "chg1";
                  ReqSet "chg1" POWER_SUPPLY_PROP_STATUS
                    CM_FAST_CHARGE_ENABLE_CMD;
                  ReqLookup "fchg";
                  ReqSet "fchg" POWER_SUPPLY_PROP_VOLTAGE_MAX
                    CM_FAST_CHARGE_VOLTAGE_9V;
                  ReqLookup "chg1";
                  ReqSet "chg1" POWER_SUPPLY_PROP_STATUS 1]
            ++ l)
  /\ (exists st',
         cm_fast_charge_enable_check stalled_bus 5 fast_board
         = Some (-5, st')
         /\ -5 <> 0
         /\ enable_fast_charge (desc st') = false
         /\ log (hw st') =
            [EvBus (ReqLookup "fg");
             EvBus (ReqGet "fg" POWER_SUPPLY_PROP_VOLTAGE_AVG);
             EvBus (ReqLookup "fg");
             EvBus (ReqGet "fg" POWER_SUPPLY_PROP_CURRENT_AVG)]
            ++ map EvBus
                 [ReqLookup "chg0";
                  ReqSet "chg0" POWER_SUPPLY_PROP_STATUS
                    CM_FAST_CHARGE_ENABLE_CMD;
                  ReqLookup "chg1";
                  ReqSet "chg1" POWER_SUPPLY_PROP_STATUS
                    CM_FAST_CHARGE_ENABLE_CMD]
            ++ map EvBus
                 [ReqLookup "chg0";
                  ReqSet "chg0" POWER_SUPPLY_PROP_STATUS
                    CM_FAST_CHARGE_DISABLE_CMD]).
Proof.
  split; [repeat split; reflexivity|]. split.
  - destruct (fast_charge_enable_handshake steady_bus 5 fast_board
                3800000 500000
                (snd (get_batt_uV steady_bus fast_board))
                (snd (get_batt_uA steady_bus
                        (snd (get_batt_uV steady_bus fast_board)))))
      as [Ok _].
    + apply le_n.
    + reflexivity.
    + discriminate.
    + discriminate.
    + reflexivity.
    + reflexivity.
    + reflexivity.
    + reflexivity.
    + reflexivity.
    + by_computation.
    + exact (Ok eq_refl).
  - destruct (fast_charge_enable_handshake stalled_bus 5 fast_board
                3800000 500000
                (snd (get_batt_uV stalled_bus fast_board))
                (snd (get_batt_uA stalled_bus
                        (snd (get_batt_uV stalled_bus fast_board)))))
      as [_ Bad].
    + apply le_n.
    + reflexivity.
    + discriminate.
    + discriminate.
    + reflexivity.
    + reflexivity.
    + reflexivity.
    + reflexivity.
    + reflexivity.
    + by_computation.
    + exact (Bad 3%nat (ReqSet "chg1" POWER_SUPPLY_PROP_STATUS 2)
               eq_refl eq_refl eq_refl).
Defined.

(** Three runs of cm_batt_works while the board charges towards a gauge
    at 60 percent: the reported capacity goes to 53, 54 and 60 percent. *)
Lemma reported_capacity_in_range_witness :
  (0 <= cap (desc enabled_board) <= 1000
   /\ 0 < cap_one_time (desc enabled_board)
   /\ 0 <= update_capacity_time (desc enabled_board)
   /\ clock_ok (update_capacity_time (desc enabled_board)) [100; 130; 400])
  /\ Forall (fun s => 0 <= cap (desc s) <= 1000)
       (cm_batt_works_runs sixty_bus no_ocv_table [100; 130; 400]
          enabled_board)
  /\ map (fun s => cap (desc s))
       (cm_batt_works_runs sixty_bus no_ocv_table [100; 130; 400]
          enabled_board)
     = [530; 540; 600].
Proof.
  split; [by_computation|]. split; [|reflexivity].
  apply (reported_capacity_in_range sixty_bus no_ocv_table
           [100; 130; 400] enabled_board); by_computation.
Defined.

(** C2, the claim as it stands fails: probe stores the boot capacity of
    the gauge as it is read, 1005 per mille here, and three runs of
    cm_batt_works leave the reported capacity at 1005. *)
Lemma reported_capacity_above_range_after_probe :
  charger_manager_probe_cap overfull_bus board = (0, overfull_board)
  /\ cap (desc overfull_board) = 1005
  /\ map (fun s => cap (desc s))
       (cm_batt_works_runs overfull_bus no_ocv_table [130; 400; 1000]
          overfull_board)
     = [1005; 1005; 1005].
Proof. by_computation. Qed.

(** The board under an overheat stop at 47 degrees, between the two upper
    limits: the stop stays. *)
Lemma cm_check_thermal_status_limits_witness :
  (cm_get_battery_temperature steady_bus warm_stopped_board
   = (0, 470, warm_stopped_board)
   /\ in_int (temp_max (desc warm_stopped_board)
              - temp_diff (desc warm_stopped_board))
   /\ in_int (temp_min (desc warm_stopped_board)
              + temp_diff (desc warm_stopped_board)))
  /\ fst (cm_check_thermal_status steady_bus warm_stopped_board)
     = CM_EVENT_BATT_OVERHEAT
  /\ (fst (cm_check_thermal_status steady_bus warm_stopped_board)
      = CM_EVENT_BATT_OVERHEAT <-> 450 < 470)
  /\ (fst (cm_check_thermal_status steady_bus warm_stopped_board)
      = CM_EVENT_BATT_COLD <-> 470 <= 450 /\ 470 < 50)
  /\ (50 <= 450 ->
      (fst (cm_check_thermal_status steady_bus warm_stopped_board)
       = CM_EVENT_BATT_COLD <-> 470 < 50)).
Proof.
  split; [by_computation|]. split; [reflexivity|].
  apply (cm_check_thermal_status_limits steady_bus
           warm_stopped_board warm_stopped_board 470);
    by_computation.
Defined.

(** C4, the claim as it stands fails: with temp_min 0, temp_max 8 and
    temp_diff 5 degrees under a stop, the lower limit is 5 degrees and the
    upper one 3; at 4 degrees the battery is below the lower limit and
    the check answers Overheat, not Cold. *)
Lemma thermal_overheat_below_lower_limit :
  is_event (emergency_stop (cm crossed_board)) = true
  /\ cm_get_battery_temperature steady_bus crossed_board
     = (0, 40, crossed_board)
  /\ lower_limit crossed_board = 50
  /\ upper_limit crossed_board = 30
  /\ 40 < lower_limit crossed_board
  /\ fst (cm_check_thermal_status steady_bus crossed_board)
     = CM_EVENT_BATT_OVERHEAT
  /\ fst (cm_check_thermal_status steady_bus crossed_board)
     <> CM_EVENT_BATT_COLD.
Proof. by_computation. Qed.

(** A design capacity of 3000 mAh written to the file, read back from it
    at start-up and given to the gauge; and a file whose second word has
    been overwritten. *)
Lemma track_file_round_trip_witness :
  0 <= 3000 < 4294967296
  /\ log (hw (cm_track_capacity_work (track_bus 0 0) done_board))
     = [EvBus ReqOpen; EvBus (ReqLookup "fg");
        EvBus (ReqGet "fg" POWER_SUPPLY_PROP_ENERGY_FULL_DESIGN);
        EvBus (ReqWrite (Z.lxor 3000 CM_TRACK_CAPACITY_KEY0)
                        (Z.lxor 3000 CM_TRACK_CAPACITY_KEY1))]
  /\ log (hw (cm_track_capacity_work kept_file_bus board))
     = [EvBus ReqOpen; EvBus (ReqLookup "fg");
        EvBus (ReqGet "fg" POWER_SUPPLY_PROP_ENERGY_FULL_DESIGN);
        EvBus ReqRead; EvBus (ReqLookup "fg");
        EvBus (ReqSet "fg" POWER_SUPPLY_PROP_ENERGY_FULL_DESIGN 3000000)]
  /\ state (track (cm (cm_track_capacity_work kept_file_bus board)))
     = CAP_TRACK_IDLE
  /\ log (hw (cm_track_capacity_work torn_file_bus board))
     = [EvBus ReqOpen; EvBus (ReqLookup "fg");
        EvBus (ReqGet "fg" POWER_SUPPLY_PROP_ENERGY_FULL_DESIGN);
        EvBus ReqRead]
  /\ state (track (cm (cm_track_capacity_work torn_file_bus board)))
     = CAP_TRACK_IDLE
  /\ desc (cm_track_capacity_work torn_file_bus board) = desc board.
Proof.
  assert (H : 0 <= 3000 < 4294967296) by (split; [discriminate|reflexivity]).
  split; [exact H|].
  destruct (track_file_round_trip (track_bus 0 0) 3000 H)
    as (_ & _ & W & _).
  destruct (track_file_round_trip kept_file_bus 3000 H)
    as (_ & _ & _ & K).
  destruct (track_file_round_trip torn_file_bus 3000 H)
    as (_ & _ & _ & T).
  destruct (W done_board) as (_ & _ & Wl); [by_computation ..|].
  destruct (K board (Z.lxor 3000 CM_TRACK_CAPACITY_KEY1))
    as (Ks & _ & Kl); [by_computation ..|].
  destruct (T board 0) as (Ts & Td & Tl); [by_computation ..|].
  split; [exact Wl|]. split; [exact Kl|]. split; [exact Ks|].
  split; [exact Tl|]. split; [exact Ts|exact Td].
Defined.

(** Two evaluations at 4.36 V and 200 mA, between fullbatt_uA and
    first_fullbatt_uA. *)
Lemma soft_full_after_two_evaluations_witness :
  (is_full_charged_reads soft_full_bus board
   = Some (4360000, 200000, reads_state soft_full_bus board)
   /\ is_full_charged_reads soft_full_bus
        (snd (is_full_charged soft_full_bus board))
      = Some (4360000, 200000,
              reads_state soft_full_bus
                (snd (is_full_charged soft_full_bus board)))
   /\ fullbatt_uV (desc board) <= 4360000
   /\ fullbatt_uA (desc board) < 200000 <= first_fullbatt_uA (desc board))
  /\ let '(r1, m1) := is_full_charged soft_full_bus board in
     let '(r2, m2) := is_full_charged soft_full_bus m1 in
     force_set_full (desc m2) = true
     /\ r1 = false /\ r2 = false
     /\ log (hw m1) = log (hw (reads_state soft_full_bus board))
     /\ log (hw m2)
        = log (hw (reads_state soft_full_bus
                     (snd (is_full_charged soft_full_bus board))))
     /\ charger_enabled (cm m2) = charger_enabled (cm board).
Proof.
  split; [by_computation|].
  apply (soft_full_after_two_evaluations soft_full_bus board
           4360000 200000 (reads_state soft_full_bus board)
           4360000 200000
           (reads_state soft_full_bus
              (snd (is_full_charged soft_full_bus board))));
    by_computation.
Defined.

(** C5, the claim as it stands fails: 4.36 V at 200 mA and then at 100 mA
    are two consecutive evaluations with the voltage at fullbatt_uV or
    above and 0 < I <= first_fullbatt_uA, and force_set_full is still
    false after them. *)
Lemma soft_full_missed_when_current_drops :
  is_full_charged_reads taper_bus board
  = Some (4360000, 200000, reads_state taper_bus board)
  /\ is_full_charged_reads taper_bus (snd (is_full_charged taper_bus board))
     = Some (4360000, 100000,
             reads_state taper_bus (snd (is_full_charged taper_bus board)))
  /\ fullbatt_uV (desc board) <= 4360000
  /\ 0 < 200000 <= first_fullbatt_uA (desc board)
  /\ 0 < 100000 <= first_fullbatt_uA (desc board)
  /\ force_set_full
       (desc (snd (is_full_charged taper_bus
                     (snd (is_full_charged taper_bus board))))) = false.
Proof. by_computation. Qed.



(** C7, the claim as it stands fails: with no battery the CAPACITY
    property is 100 although the reported 500 per mille round to 50. *)
Lemma capacity_property_without_battery :
  cap (desc no_battery_board) = 500
  /\ DIV_ROUND_CLOSEST (cap (desc no_battery_board)) 10 = 50
  /\ fst (charger_get_property_CAPACITY steady_bus no_battery_board)
     = (0, 100).
Proof. by_computation. Qed.

(** C3, the source at a failing run.  The battery warms from 10 to 20
    degrees and, three ticks later, to 46 degrees: zone 2 comes into force
    on its third tick, and zone 3 on its first, because temp_up_trigger,
    left at 3 by the change before, is counted up to 4. *)
Theorem jeita_change_applied_on_first_tick :
  jeita_run steady_bus 10 [100; 200; 200; 200; 460] board
  = Some [STATUS_T0_TO_T1; STATUS_T0_TO_T1; STATUS_T0_TO_T1;
          STATUS_T1_TO_T2; STATUS_T2_TO_T3].
Proof. vm_compute. reflexivity. Qed.

(** C8, the source at a failing run.  "Charging" was the last message
    delivered; "Charging", "Charging" and "Discharging" arrive while
    suspended; the cable is out at resume.  cm_suspend_complete returns
    with no message delivered and "Discharging" still in env_str_save. *)
Theorem resume_keeps_buffered_message :
  match suspend_resume battery_bus no_ocv_table (fun j => j) 10
          ["Charging"; "Charging"; "Discharging"] charging_board with
  | Some st =>
    uevents (log (hw st)) = []
    /\ env_str (gl st) = "Charging"
    /\ env_str_save (gl st) = "Discharging"
    /\ cm_suspended (gl st) = false
  | None => False
  end.
Proof. by_computation. Qed.


(** * More examples *)

(** The board at 25 degrees, its zone at 0. *)
Lemma jeita_status_is_a_zone_witness :
  STATUS_BELOW_T0 <= jeita_status (gl board) <= STATUS_ABOVE_T3
  /\ let '(js, st') := cm_manager_get_jeita_status 250 board in
     STATUS_BELOW_T0 <= js <= STATUS_ABOVE_T3 /\ jeita_status (gl st') = js.
Proof.
  split; [vm_compute; split; discriminate|].
  apply (jeita_status_is_a_zone 250 board).
  vm_compute; split; discriminate.
Defined.

(** The board under an overheat stop, asked to enable and to adjust to
    the zone from 15 to 45 degrees. *)
Lemma emergency_stop_keeps_chargers_off_witness :
  stopped stopped_board
  /\ match try_charger_enable steady_bus 10 true stopped_board with
     | Some (_, st') => stopped st'
     | None => True
     end
  /\ match cm_manager_adjust_current steady_bus 10 STATUS_T1_TO_T2
             stopped_board with
     | Some (_, st') => stopped st'
     | None => True
     end.
Proof.
  split; [split; reflexivity|].
  apply (emergency_stop_keeps_chargers_off steady_bus 10 true
           STATUS_T1_TO_T2 stopped_board).
  split; reflexivity.
Defined.

(** The same board asked to enable the chargers. *)
Lemma try_charger_enable_refused_under_emergency_witness :
  is_event (emergency_stop (cm stopped_board)) = true
  /\ try_charger_enable steady_bus 3 true stopped_board
     = Some (- EAGAIN, stopped_board).
Proof.
  split; [reflexivity|].
  apply (try_charger_enable_refused_under_emergency steady_bus 0 stopped_board).
  reflexivity.
Defined.

(** The board on battery, the gauge at 50 percent. *)
Lemma reported_capacity_never_rises_off_charge_witness :
  (0 <= cap (desc board) <= 1000
   /\ 0 < cap_one_time (desc board)
   /\ 0 <= update_capacity_time (desc board) <= boottime_s (hw board)
   /\ boottime_s (hw board) <= UPTIME_MAX
   /\ charger_status (desc (cm_batt_works battery_bus no_ocv_table board))
      = POWER_SUPPLY_STATUS_DISCHARGING)
  /\ cap (desc (cm_batt_works battery_bus no_ocv_table board))
     <= cap (desc board).
Proof.
  split.
  - vm_compute. repeat split; discriminate.
  - apply (reported_capacity_never_rises_off_charge battery_bus no_ocv_table
             board).
    + vm_compute; split; discriminate.
    + reflexivity.
    + vm_compute; split; discriminate.
    + vm_compute; discriminate.
    + right. reflexivity.
Defined.

(** The board at 100 percent and 4.36 V, the current down to 100 mA for
    the second time. *)
Lemma is_full_charged_needs_reported_full_witness :
  (fullbatt_full_capacity (desc topped_board) <= 0
   /\ 0 < fullbatt_uV (desc topped_board)
   /\ 0 < fullbatt_uA (desc topped_board)
   /\ is_full_charged topped_bus topped_board
      = (true, snd (is_full_charged topped_bus topped_board)))
  /\ CM_CAP_FULL_PERCENT <= cap (desc topped_board)
  /\ force_set_full
       (desc (snd (is_full_charged topped_bus topped_board))) = true
  /\ 1 < trigger_cnt (desc (snd (is_full_charged topped_bus topped_board))).
Proof.
  split.
  - vm_compute. repeat split; discriminate.
  - apply (is_full_charged_needs_reported_full topped_bus topped_board
             (snd (is_full_charged topped_bus topped_board))).
    + vm_compute; discriminate.
    + reflexivity.
    + reflexivity.
    + vm_compute. reflexivity.
Defined.

(** Four readings of 3.1 V in a row on the board, whose shutdown voltage
    is 3.2 V. *)
Lemma uvlo_poweroff_needs_five_low_readings_witness :
  (0 <= uvlo_trigger_cnt (desc board)
   /\ uvlo_trigger_cnt (desc board) + Z.of_nat 4
      < CM_UVLO_CALIBRATION_CNT_THRESHOLD)
  /\ let st' := Nat.iter 4 (cm_uvlo_check_work low_bus) board in
     n_poweroff (log (hw st')) = n_poweroff (log (hw board))
     /\ 0 <= uvlo_trigger_cnt (desc st')
          <= uvlo_trigger_cnt (desc board) + Z.of_nat 4.
Proof.
  split.
  - vm_compute. split; [discriminate|reflexivity].
  - apply (uvlo_poweroff_needs_five_low_readings low_bus 4 board).
    + vm_compute; discriminate.
    + reflexivity.
Defined.

(** The board, whose tracker starts with five retries, without its
    file. *)
Lemma track_open_retries_are_bounded_witness :
  ((forall n, r_found (no_file_bus n ReqOpen) = false)
   /\ state (track (cm board)) = CAP_TRACK_INIT
   /\ retry_cnt (gl board) = Z.of_nat 5
   /\ Z.of_nat 5 <= INT_MAX)
  /\ let st' := Nat.iter 6 (cm_track_capacity_work no_file_bus) board in
     state (track (cm st')) = CAP_TRACK_ERR
     /\ n_work (log (hw st')) = (n_work (log (hw board)) + 5)%nat
     /\ desc st' = desc board.
Proof.
  split.
  - repeat split; try reflexivity. vm_compute; discriminate.
  - apply (track_open_retries_are_bounded no_file_bus 5 board).
    + intros n. reflexivity.
    + reflexivity.
    + reflexivity.
    + vm_compute; discriminate.
Defined.

(** The board with the cable in. *)
Lemma is_ext_pwr_online_some_charger_witness :
  (forall n rq, steady_bus n rq = steady_bus O rq)
  /\ fst (is_ext_pwr_online steady_bus board)
     = existsb (answers_online steady_bus) (psy_charger_stat (desc board)).
Proof.
  split; [intros n rq; reflexivity|].
  apply (is_ext_pwr_online_some_charger steady_bus board).
  intros n rq. reflexivity.
Defined.

(** The board with fast charge wanted, at its first check. *)
Lemma fast_charge_switch_needs_two_checks_witness :
  (fast_charge_enable_count (desc fresh_fast_board) = 0
   /\ fast_charge_disable_count (desc fresh_fast_board) = 0)
  /\ (exists r st',
         cm_fast_charge_enable_check steady_bus 1 fresh_fast_board
         = Some (r, st')
         /\ only_queries fresh_fast_board st'
         /\ cm st' = cm fresh_fast_board
         /\ enable_fast_charge (desc st')
            = enable_fast_charge (desc fresh_fast_board))
     /\ (exists r st',
            cm_fast_charge_disable_check steady_bus 1 fresh_fast_board
            = Some (r, st')
            /\ only_queries fresh_fast_board st'
            /\ cm st' = cm fresh_fast_board
            /\ enable_fast_charge (desc st')
               = enable_fast_charge (desc fresh_fast_board)).
Proof.
  split; [split; reflexivity|].
  apply (fast_charge_switch_needs_two_checks steady_bus 0 fresh_fast_board);
    reflexivity.
Defined.

(** The board, its chargers not yet enabled, with the cable in. *)
Lemma is_charging_needs_enabled_chargers_witness :
  (charger_enabled (cm board) = false
   \/ is_event (emergency_stop (cm board)) = true)
  /\ is_charging steady_bus board
     = (false, snd (is_batt_present steady_bus board)).
Proof.
  split; [left; reflexivity|].
  apply (is_charging_needs_enabled_chargers steady_bus board).
  left. reflexivity.
Defined.

(** The board charging with the cable in. *)
Lemma is_charging_some_charger_witness :
  (forall n rq, steady_bus n rq = steady_bus O rq)
  /\ fst (is_charging steady_bus (on_cm (set_charger_enabled true) board))
     = fst (is_batt_present steady_bus
              (on_cm (set_charger_enabled true) board))
       && charger_enabled (cm (on_cm (set_charger_enabled true) board))
       && negb (is_event
                  (emergency_stop
                     (cm (on_cm (set_charger_enabled true) board))))
       && existsb (answers_charging steady_bus)
            (psy_charger_stat
               (desc (on_cm (set_charger_enabled true) board))).
Proof.
  split; [intros n rq; reflexivity|].
  apply (is_charging_some_charger steady_bus
           (on_cm (set_charger_enabled true) board)).
  intros n rq. reflexivity.
Defined.

(** The board charging, 100 seconds after the last update, towards a
    gauge at 60 percent: the status is Charging and the reported capacity
    goes from 50 to 53 percent, the full step of 30 per mille. *)
Lemma reported_capacity_rate_witness :
  (0 <= cap (desc enabled_board) <= 1000
   /\ 0 < cap_one_time (desc enabled_board)
   /\ 0 <= update_capacity_time (desc enabled_board)
        <= boottime_s (hw enabled_board)
   /\ boottime_s (hw enabled_board) <= UPTIME_MAX)
  /\ (charger_status
        (desc (cm_batt_works_filter sixty_bus no_ocv_table
                 3800000 3800000 500000 600 250 enabled_board))
      = POWER_SUPPLY_STATUS_CHARGING
      /\ cap (desc enabled_board) = 500
      /\ flush_step (boottime_s (hw enabled_board)
                     - update_capacity_time (desc enabled_board))
           (desc enabled_board) = 30
      /\ cap (desc (cm_batt_works_filter sixty_bus no_ocv_table
                      3800000 3800000 500000 600 250 enabled_board)) = 530)
  /\ let st' := cm_batt_works_filter sixty_bus no_ocv_table
                  3800000 3800000 500000 600 250 enabled_board in
     let step := flush_step (boottime_s (hw enabled_board)
                             - update_capacity_time (desc enabled_board))
                   (desc enabled_board) in
     (charger_status (desc st') = POWER_SUPPLY_STATUS_CHARGING ->
      cap (desc enabled_board) - step <= cap (desc st')
        <= cap (desc enabled_board) + step
      /\ (0 <= 500000 -> cap (desc enabled_board) <= cap (desc st')))
     /\ (charger_status (desc st') = POWER_SUPPLY_STATUS_NOT_CHARGING
         \/ charger_status (desc st') = POWER_SUPPLY_STATUS_DISCHARGING ->
         cap (desc enabled_board) - Z.max 10 step <= cap (desc st')).
Proof.
  split; [by_computation|]. split; [by_computation|].
  apply (reported_capacity_rate sixty_bus no_ocv_table
           3800000 3800000 500000 600 250 enabled_board).
  - vm_compute; split; discriminate.
  - reflexivity.
  - vm_compute; split; discriminate.
  - vm_compute; discriminate.
Defined.

(** The board with the zone from 15 to 45 degrees in force and the cable
    in, at 25 degrees and then at 50 degrees. *)
Lemma jeita_change_needs_three_ticks_witness :
  (jeita_disabled (desc zone_board) = false
   /\ last_jeita_status (gl zone_board) <> -1
   /\ temp_up_trigger (gl zone_board) = 0
   /\ temp_down_trigger (gl zone_board) = 0
   /\ fst (is_ext_pwr_online steady_bus zone_board) = true)
  /\ exists r1 st1 r2 st2,
      cm_manager_jeita_current_monitor steady_bus 0 zone_board
      = Some (r1, st1)
      /\ cm_manager_jeita_current_monitor steady_bus 0
           (on_desc (set_temperature 500) st1) = Some (r2, st2)
      /\ cm st1 = cm zone_board /\ desc st1 = desc zone_board
      /\ only_queries zone_board st1
      /\ last_jeita_status (gl st1) = last_jeita_status (gl zone_board)
      /\ cm st2 = cm zone_board
      /\ desc st2 = set_temperature 500 (desc zone_board)
      /\ only_queries zone_board st2
      /\ (last_jeita_status (gl st2) = last_jeita_status (gl zone_board)
          \/ (last_jeita_status (gl st2) = -1
              /\ fst (is_ext_pwr_online steady_bus
                        (on_desc (set_temperature 500) st1)) = false)).
Proof.
  split.
  - repeat split; try reflexivity. discriminate.
  - apply (jeita_change_needs_three_ticks steady_bus 0 500 zone_board).
    + reflexivity.
    + discriminate.
    + reflexivity.
    + reflexivity.
    + reflexivity.
Defined.

(** A tick of the board under an overheat stop at 47 degrees, below
    temp_max and above temp_max - temp_diff: the alert persists and the
    tick ends under the stop, the chargers off. *)
Lemma emergency_stop_outlasts_alert_witness :
  stopped warm_stopped_board
  /\ fst (cm_check_thermal_status steady_bus
            (snd (cm_feed_watchdog steady_bus warm_stopped_board)))
     = CM_EVENT_BATT_OVERHEAT
  /\ match _cm_monitor steady_bus 10 warm_stopped_board with
     | Some (_, st') => stopped st'
     | None => False
     end.
Proof.
  assert (H : stopped warm_stopped_board) by (split; reflexivity).
  split; [exact H|]. split; [reflexivity|].
  pose proof (emergency_stop_outlasts_alert steady_bus 10
                warm_stopped_board H) as T.
  destruct (_cm_monitor steady_bus 10 warm_stopped_board)
    as [[r st']|] eqn:E.
  - destruct T as [T|T]; [exact T|discriminate T].
  - vm_compute in E. discriminate E.
Defined.

(** The chargers of the board enabled with the cable in; and the same
    request on the board without a battery, dropped with answer 0. *)
Lemma try_charger_enable_answer_witness :
  (try_charger_enable steady_bus 10 true board
   = Some (0, state_after (try_charger_enable steady_bus 10 true board)
                board)
   /\ try_charger_enable steady_bus 10 true no_battery_board
      = Some (0, no_battery_board))
  /\ (charger_enabled
        (cm (state_after (try_charger_enable steady_bus 10 true board)
               board)) = true
      \/ (true = true
          /\ charger_enabled
               (cm (state_after
                      (try_charger_enable steady_bus 10 true board) board))
             = false
          /\ allow_charger_enable
               (gl (state_after
                      (try_charger_enable steady_bus 10 true board) board))
             = false
          /\ exists s,
               is_batt_present steady_bus s
               = (false,
                  state_after (try_charger_enable steady_bus 10 true board)
                    board)))
  /\ (charger_enabled (cm no_battery_board) = true
      \/ (true = true
          /\ charger_enabled (cm no_battery_board) = false
          /\ allow_charger_enable (gl no_battery_board) = false
          /\ exists s,
               is_batt_present steady_bus s = (false, no_battery_board)))
  /\ charger_enabled
       (cm (state_after (try_charger_enable steady_bus 10 true board)
              board)) = true
  /\ charger_enabled (cm no_battery_board) = false.
Proof.
  split; [split; vm_compute; reflexivity|].
  split.
  { apply (try_charger_enable_answer steady_bus 10 true board
             (state_after (try_charger_enable steady_bus 10 true board)
                board)).
    vm_compute. reflexivity. }
  split.
  { apply (try_charger_enable_answer steady_bus 10 true no_battery_board
             no_battery_board).
    vm_compute. reflexivity. }
  split; reflexivity.
Defined.
